(** * Entry-M_DHT: the serial command layer of the temperature-humidity monitor

    A shallow embedding of [Entry-M_DHT.ino] (Arduino sketch driving an
    Entry-M / M-Series display module over the UART) together with the
    properties of its checksum, its response waiter, its frame patching and
    its poll loop.

    Conventions of the embedding.
    - A byte ([unsigned char], [byte]) is a [Z] in [0, 256); storing into one
      reduces modulo 256 ([to_uchar]).  [char] is signed, as on the AVR
      target ([to_char]); [int] is 16 bits, [unsigned long] is 32 bits.
    - [float] is IEEE-754 binary32, given by the Standard Library's
      [SpecFloat] at precision 24 and [emax] 128.
    - The board is a record: a millisecond clock advanced by [delay], the
      bytes travelling towards the board (each with the time it reaches the
      receive buffer), the log of what the sketch did on the link, and the
      function-local [static] buffers, which keep their contents from one
      call to the next.
    - A C function is a function from the board to an [Outcome]: it returns a
      value and a new board, or the C program has no defined behaviour
      ([Undefined]: an index outside an array, a float that does not fit an
      [int]), or the iteration budget of a [while] loop is used up
      ([OutOfFuel]). *)

From Stdlib Require Import ZArith Lia Bool Ascii String.
From Stdlib Require Import Floats.SpecFloat.
From stdpp Require Import base list.

Local Open Scope Z_scope.

(** ** Machine integers of the target *)

Abbreviation byte := Z (only parsing).

Definition to_uchar (x : Z) : byte := x mod 256.

Definition to_char (x : Z) : Z :=
  let u := x mod 256 in if u <? 128 then u else u - 256.

Definition to_ulong (x : Z) : Z := x mod 2 ^ 32.

Definition INT_MIN : Z := -32768.
Definition INT_MAX : Z := 32767.

(** A character literal, as the [int] it denotes in C. *)
Definition chr (c : ascii) : Z := Z.of_nat (nat_of_ascii c).
Arguments chr c%_char.

(** ** Constants of the sketch *)

Definition BAUDRATE : Z := 19200.
Definition ACK : Z := 0x06.
Definition NAK : Z := 0x15.
Definition MIN_READ_PERIOD : Z := 2000.

(** ** CheckSum

    [byte CheckSum(const char* data, int count)]: the loop adds the (signed)
    chars into an 8-bit accumulator.  Reading past the end of [data] has no
    defined behaviour, hence the [option]. *)

Fixpoint CheckSum_from (data : list byte) (i : nat) (n : nat) (BCC : Z)
  : option byte :=
  match n with
  | O => Some BCC
  | S n' =>
      match data !! i with
      | Some b => CheckSum_from data (S i) n' (to_uchar (BCC + to_char b))
      | None => None
      end
  end.

Definition CheckSum (data : list byte) (count : Z) : option byte :=
  CheckSum_from data 0 (Z.to_nat count) 0x00.

(** The sum of a byte sequence, as a mathematical integer. *)
Definition sum_bytes (l : list byte) : Z := fold_right Z.add 0 l.


(** ** IEEE-754 binary32 arithmetic used by the digit extraction *)

Abbreviation float := spec_float (only parsing).

Definition float_mul : float -> float -> float := SFmul 24 128.
Definition float_div : float -> float -> float := SFdiv 24 128.

(** The usual arithmetic conversion of an [int] operand to [float]. *)
Definition float_of_int (n : Z) : float := binary_normalize 24 128 n 0 false.

Definition isnan (x : float) : bool :=
  match x with S754_nan => true | _ => false end.

(** [(int)x]: the integer part, toward zero.  No defined behaviour when the
    integer part is not an [int] (infinities and NaN included). *)
Definition int_of_float (x : float) : option Z :=
  match x with
  | S754_zero _ => Some 0
  | S754_finite s m e =>
      let a := if 0 <=? e then Z.pos m * 2 ^ e else Z.quot (Z.pos m) (2 ^ (- e)) in
      let v := if s then - a else a in
      if (INT_MIN <=? v) && (v <=? INT_MAX) then Some v else None
  | S754_infinity _ | S754_nan => None
  end.

(** The binary32 nearest to the decimal [n / d], for writing down inputs
    such as 18.5 or 7.83. *)
Definition float_of_ratio (n d : Z) : float :=
  float_div (float_of_int n) (float_of_int d).

(** ** The board *)

Inductive Event : Type :=
| EvDelay (ms : Z)          (* delay(ms) *)
| EvAvail (yes : bool)      (* Serial.available(), and whether it was nonzero *)
| EvRead (b : byte)         (* Serial.read() took b from the receive buffer *)
| EvWrite (b : byte).       (* Serial.write(b) *)

Record Board : Type := mkBoard {
  clock : Z;
  rx : list (Z * byte);
  log : list Event;
  XXX_ShowTemperature : list byte;
  XXX_UpdateTemperature : list byte;
  XXX_ShowHumidity : list byte;
  XXX_UpdateHumidity : list byte
}.

(** The bytes put on the link, in order, and the time spent in [delay]. *)
Fixpoint wire (l : list Event) : list byte :=
  match l with
  | [] => []
  | EvWrite b :: l' => b :: wire l'
  | _ :: l' => wire l'
  end.

Fixpoint elapsed (l : list Event) : Z :=
  match l with
  | [] => 0
  | EvDelay ms :: l' => ms + elapsed l'
  | _ :: l' => elapsed l'
  end.

Definition set_clock (c : Z) (s : Board) : Board :=
  mkBoard c (rx s) (log s) (XXX_ShowTemperature s) (XXX_UpdateTemperature s)
          (XXX_ShowHumidity s) (XXX_UpdateHumidity s).

Definition set_rx (r : list (Z * byte)) (s : Board) : Board :=
  mkBoard (clock s) r (log s) (XXX_ShowTemperature s) (XXX_UpdateTemperature s)
          (XXX_ShowHumidity s) (XXX_UpdateHumidity s).

Definition record (e : Event) (s : Board) : Board :=
  mkBoard (clock s) (rx s) (log s ++ [e]) (XXX_ShowTemperature s)
          (XXX_UpdateTemperature s) (XXX_ShowHumidity s) (XXX_UpdateHumidity s).

(** The four [static] arrays that are patched in place, named after the
    function that declares them. *)
Inductive Static : Type :=
| InShowTemperature | InUpdateTemperature | InShowHumidity | InUpdateHumidity.

Definition static_get (x : Static) (s : Board) : list byte :=
  match x with
  | InShowTemperature => XXX_ShowTemperature s
  | InUpdateTemperature => XXX_UpdateTemperature s
  | InShowHumidity => XXX_ShowHumidity s
  | InUpdateHumidity => XXX_UpdateHumidity s
  end.

Definition static_set (x : Static) (v : list byte) (s : Board) : Board :=
  match x with
  | InShowTemperature =>
      mkBoard (clock s) (rx s) (log s) v (XXX_UpdateTemperature s)
              (XXX_ShowHumidity s) (XXX_UpdateHumidity s)
  | InUpdateTemperature =>
      mkBoard (clock s) (rx s) (log s) (XXX_ShowTemperature s) v
              (XXX_ShowHumidity s) (XXX_UpdateHumidity s)
  | InShowHumidity =>
      mkBoard (clock s) (rx s) (log s) (XXX_ShowTemperature s)
              (XXX_UpdateTemperature s) v (XXX_UpdateHumidity s)
  | InUpdateHumidity =>
      mkBoard (clock s) (rx s) (log s) (XXX_ShowTemperature s)
              (XXX_UpdateTemperature s) (XXX_ShowHumidity s) v
  end.

(** ** Outcomes and the monad of C functions *)

Inductive Outcome (A : Type) : Type :=
| Ret (a : A) (s : Board)
| Undefined
| OutOfFuel.

Arguments Ret {A} a s.
Arguments Undefined {A}.
Arguments OutOfFuel {A}.

Definition M (A : Type) : Type := Board -> Outcome A.

Definition pure {A : Type} (a : A) : M A := fun s => Ret a s.

Definition bind {A B : Type} (m : M A) (k : A -> M B) : M B :=
  fun s =>
    match m s with
    | Ret a s' => k a s'
    | Undefined => Undefined
    | OutOfFuel => OutOfFuel
    end.

Definition undefined {A : Type} : M A := fun _ => Undefined.
Definition out_of_fuel {A : Type} : M A := fun _ => OutOfFuel.

Definition defined {A : Type} (o : option A) : M A :=
  fun s => match o with Some a => Ret a s | None => Undefined end.

Declare Scope c_scope.
Delimit Scope c_scope with C.
Notation "'let*' x ':=' m 'in' k" := (bind m (fun x => k))
  (at level 10, x name, m at level 100, k at level 200) : c_scope.
Notation "m ';;;' k" := (bind m (fun _ => k))
  (at level 100, k at level 200, right associativity) : c_scope.
Local Open Scope c_scope.

(** ** The Arduino runtime, as far as the sketch uses it *)

Definition delay (ms : Z) : M unit :=
  fun s => Ret tt (record (EvDelay ms) (set_clock (clock s + ms) s)).

Module Serial.

(** A byte is in the receive buffer once its arrival time has passed;
    the link delivers in order. *)
Definition arrived (s : Board) : bool :=
  match rx s with
  | (t, _) :: _ => t <=? clock s
  | [] => false
  end.

Definition available : M bool :=
  fun s => Ret (arrived s) (record (EvAvail (arrived s)) s).

(** [Serial.read()] answers -1 on an empty buffer. *)
Definition read : M Z :=
  fun s =>
    match rx s with
    | (t, b) :: rest =>
        if t <=? clock s then Ret b (record (EvRead b) (set_rx rest s))
        else Ret (-1) s
    | [] => Ret (-1) s
    end.

Definition write (b : byte) : M unit :=
  fun s => Ret tt (record (EvWrite b) s).

Fixpoint print (text : list byte) : M unit :=
  match text with
  | [] => pure tt
  | b :: text' => write b ;;; print text'
  end.

Definition println (text : string) : M unit :=
  print (map chr (list_ascii_of_string text) ++ [0x0D; 0x0A]).

End Serial.

(** ** WaitResponse *)

Fixpoint WaitResponse_while (fuel : nat) (maxWaitTime ret timer : Z) : M byte :=
  if (ret =? 0) && ((timer <? maxWaitTime) || (maxWaitTime =? 0)) then
    match fuel with
    | O => out_of_fuel
    | S fuel' =>
        let* avail := Serial.available in
        if avail then
          let* r := Serial.read in
          let ret := to_uchar r in
          if (ret =? ACK) || (ret =? NAK) then pure ret
          else WaitResponse_while fuel' maxWaitTime ret timer
        else
          delay 1 ;;;
          WaitResponse_while fuel' maxWaitTime ret (to_ulong (timer + 1))
    end
  else pure ret.

Definition WaitResponse (fuel : nat) (minWaitTime maxWaitTime : Z) : M byte :=
  (if 0 <? minWaitTime then delay minWaitTime else pure tt) ;;;
  WaitResponse_while fuel maxWaitTime 0 0.

(** ** ClearResponse *)

Fixpoint ClearResponse (fuel : nat) : M unit :=
  let* avail := Serial.available in
  if avail then
    match fuel with
    | O => out_of_fuel
    | S fuel' => let* _ := Serial.read in ClearResponse fuel'
    end
  else pure tt.

(** ** WriteCommand *)

Fixpoint WriteCommand_from (data : list byte) (i : nat) (n : nat) : M unit :=
  match n with
  | O => pure tt
  | S n' =>
      match data !! i with
      | Some b => Serial.write b ;;; WriteCommand_from data (S i) n'
      | None => undefined
      end
  end.

Definition WriteCommand (data : list byte) (count : Z) : M unit :=
  WriteCommand_from data 0 (Z.to_nat count).


(** ** The frame tables *)

Definition UpdateScreen_XXX : list byte :=
  [0x01; 0x14; 0x02; 0x04; 0x31; 0x03; 0x00; 0x00; 0x00; 0x00; 0x00; 0xFF;
   0xFF; 0xFF; 0xFF; 0xFF; 0xFF; 0x0A; 0x53; 0x0D].

Definition ShowTemperature_XXX : list byte :=
  [0x01; 0x21; 0x02; 0x04; 0x31; 0x13; 0x00; 0x00; 0x87; 0x00; 0x50; 0xFF;
   0xFF; 0xFF; 0x00; 0x00; 0x00; chr "T"; chr "e"; chr "m"; chr "p"; chr ":";
   chr " "; chr "0"; chr "0"; chr "."; chr "0"; chr " "; chr "c"; chr " ";
   0x0A; 0x9B; 0x0D].

Definition UpdateTemperature_XXX : list byte :=
  [0x01; 0x21; 0x02; 0x04; 0x31; 0x10; 0x00; 0x00; 0x87; 0x00; 0x50; 0xFF;
   0xFF; 0xFF; 0x00; 0x00; 0x00; chr "T"; chr "e"; chr "m"; chr "p"; chr ":";
   chr " "; chr "0"; chr "0"; chr "."; chr "0"; chr " "; chr "c"; chr " ";
   0x0A; 0x98; 0x0D].

Definition ClearTemperature_XXX : list byte :=
  [0x01; 0x10; 0x02; 0x04; 0x41; 0x00; 0x87; 0x00; 0x50; 0x01; 0xDB; 0x01;
   0x10; 0x0A; 0x26; 0x0D].

Definition ShowHumidity_XXX : list byte :=
  [0x01; 0x1E; 0x02; 0x04; 0x31; 0x13; 0x00; 0x00; 0x9A; 0x00; 0x8C; 0xFF;
   0xFF; 0xFF; 0x00; 0x00; 0x00; chr "H"; chr "u"; chr "m"; chr ":"; chr " ";
   chr "0"; chr "0"; chr " "; chr "%"; chr " "; 0x0A; 0xDF; 0x0D].

Definition UpdateHumidity_XXX : list byte :=
  [0x01; 0x1E; 0x02; 0x04; 0x31; 0x10; 0x00; 0x00; 0x9A; 0x00; 0x8C; 0xFF;
   0xFF; 0xFF; 0x00; 0x00; 0x00; chr "H"; chr "u"; chr "m"; chr ":"; chr " ";
   chr "0"; chr "0"; chr " "; chr "%"; chr " "; 0x0A; 0xDC; 0x0D].

Definition ClearHumidity_XXX : list byte :=
  [0x01; 0x10; 0x02; 0x04; 0x41; 0x00; 0x9A; 0x00; 0x8C; 0x01; 0xDB; 0x00;
   0xB4; 0x0A; 0x18; 0x0D].

(** Reading and writing a cell of a patched [static] array. *)
Definition peek (x : Static) (i : nat) : M byte :=
  fun s => defined (static_get x s !! i) s.

Definition poke (x : Static) (i : nat) (v : Z) : M unit :=
  fun s =>
    if (i <? length (static_get x s))%nat
    then Ret tt (static_set x (<[i := to_uchar v]> (static_get x s)) s)
    else Undefined.

Definition whole (x : Static) : M (list byte) :=
  fun s => Ret (static_get x s) s.

(** ** The display driver *)

Definition UpdateScreen (fuel : nat) : M unit :=
  WriteCommand UpdateScreen_XXX 20 ;;;
  let* _ := WaitResponse fuel 100 500 in pure tt.

Definition ClearTemperature (fuel : nat) : M unit :=
  WriteCommand ClearTemperature_XXX 16 ;;;
  let* _ := WaitResponse fuel 100 500 in pure tt.

Definition ClearHumidity (fuel : nat) : M unit :=
  WriteCommand ClearHumidity_XXX 16 ;;;
  let* _ := WaitResponse fuel 100 500 in pure tt.

Definition ShowTemperature (fuel : nat) (deg : float) : M unit :=
  ClearTemperature fuel ;;;
  let* d10 := defined (int_of_float (float_mul deg (float_of_int 10))) in
  poke InShowTemperature 26 (Z.rem d10 10 + chr "0") ;;;
  let* d := defined (int_of_float deg) in
  poke InShowTemperature 24 (Z.rem d 10 + chr "0") ;;;
  let* d := defined (int_of_float deg) in
  poke InShowTemperature 23 (Z.rem (Z.quot d 10) 10 + chr "0") ;;;
  let* tens := peek InShowTemperature 23 in
  (if tens =? chr "0" then poke InShowTemperature 23 (chr " ") else pure tt) ;;;
  let* XXX := whole InShowTemperature in
  let* BCC := defined (CheckSum XXX (33 - 2)) in
  poke InShowTemperature 31 BCC ;;;
  let* XXX := whole InShowTemperature in
  WriteCommand XXX 33 ;;;
  let* _ := WaitResponse fuel 100 500 in pure tt.

Definition UpdateTemperature (fuel : nat) (deg : float) : M unit :=
  ClearTemperature fuel ;;;
  let* d10 := defined (int_of_float (float_mul deg (float_of_int 10))) in
  poke InUpdateTemperature 26 (Z.rem d10 10 + chr "0") ;;;
  let* d := defined (int_of_float deg) in
  poke InUpdateTemperature 24 (Z.rem d 10 + chr "0") ;;;
  let* d := defined (int_of_float deg) in
  poke InUpdateTemperature 23 (Z.rem (Z.quot d 10) 10 + chr "0") ;;;
  let* tens := peek InUpdateTemperature 23 in
  (if tens =? chr "0" then poke InUpdateTemperature 23 (chr " ") else pure tt) ;;;
  let* XXX := whole InUpdateTemperature in
  let* BCC := defined (CheckSum XXX (33 - 2)) in
  poke InUpdateTemperature 31 BCC ;;;
  let* XXX := whole InUpdateTemperature in
  WriteCommand XXX 33 ;;;
  let* _ := WaitResponse fuel 100 500 in pure tt.

Definition ShowHumidity (fuel : nat) (hum : float) : M unit :=
  ClearHumidity fuel ;;;
  let* h := defined (int_of_float hum) in
  poke InShowHumidity 23 (Z.rem h 10 + chr "0") ;;;
  let* h := defined (int_of_float hum) in
  poke InShowHumidity 22 (Z.rem (Z.quot h 10) 10 + chr "0") ;;;
  let* tens := peek InShowHumidity 22 in
  (if tens =? chr "0" then poke InShowHumidity 22 (chr " ") else pure tt) ;;;
  let* XXX := whole InShowHumidity in
  let* BCC := defined (CheckSum XXX (30 - 2)) in
  poke InShowHumidity 28 BCC ;;;
  let* XXX := whole InShowHumidity in
  WriteCommand XXX 30 ;;;
  let* _ := WaitResponse fuel 100 500 in pure tt.

Definition UpdateHumidity (fuel : nat) (hum : float) : M unit :=
  ClearHumidity fuel ;;;
  let* h := defined (int_of_float hum) in
  poke InUpdateHumidity 23 (Z.rem h 10 + chr "0") ;;;
  let* h := defined (int_of_float hum) in
  poke InUpdateHumidity 22 (Z.rem (Z.quot h 10) 10 + chr "0") ;;;
  let* tens := peek InUpdateHumidity 22 in
  (if tens =? chr "0" then poke InUpdateHumidity 22 (chr " ") else pure tt) ;;;
  let* XXX := whole InUpdateHumidity in
  let* BCC := defined (CheckSum XXX (30 - 2)) in
  poke InUpdateHumidity 28 BCC ;;;
  let* XXX := whole InUpdateHumidity in
  WriteCommand XXX 30 ;;;
  let* _ := WaitResponse fuel 100 500 in pure tt.

(** ** setup and loop

    The two sensor reads of [loop] are calls into the DHT library; the
    values they return are arguments here. *)

Definition setup (fuel : nat) : M unit :=
  delay 2000 ;;;
  ClearResponse fuel.

Definition loop (fuel : nat) (readHumidity readTemperature : float) : M unit :=
  delay MIN_READ_PERIOD ;;;
  let h := readHumidity in
  let t := readTemperature in
  if isnan h || isnan t then
    Serial.println "Failed to read from DHT sensor!"
  else
    UpdateTemperature fuel t ;;;
    UpdateHumidity fuel h ;;;
    UpdateScreen fuel.

(** The board at power-on: nothing done yet, the [static] arrays hold their
    initialisers, and [incoming] is what the device will send. *)
Definition power_on (incoming : list (Z * byte)) : Board :=
  mkBoard 0 incoming [] ShowTemperature_XXX UpdateTemperature_XXX
          ShowHumidity_XXX UpdateHumidity_XXX.


(** ** Vocabulary of the statements *)

(** What a wait may change: the clock moves forward, bytes leave the receive
    buffer, the log grows by events that put nothing on the link.  The
    [static] arrays are untouched. *)
Definition idles (s s' : Board) : Prop :=
  (forall x, static_get x s' = static_get x s)
  /\ wire (log s') = wire (log s)
  /\ (length (rx s') <= length (rx s))%nat
  /\ clock s' - clock s = elapsed (log s') - elapsed (log s)
  /\ exists evs, log s' = log s ++ evs.

(** The board after [bs] went out on the link. *)
Definition sent (bs : list byte) (s : Board) : Board :=
  mkBoard (clock s) (rx s) (log s ++ map EvWrite bs) (XXX_ShowTemperature s)
          (XXX_UpdateTemperature s) (XXX_ShowHumidity s) (XXX_UpdateHumidity s).

(** Every wait of the sketch is [WaitResponse(100, 500)]: 500 iterations
    that sleep, and one more for each byte that may be read. *)
Definition enough (fuel : nat) (s : Board) : Prop :=
  (500 + length (rx s) <= fuel)%nat.

(** The contents of the temperature array once the digits and the checksum
    are written, from its contents [XXX] before, [d10 = (int)(deg * 10)] and
    [d = (int)deg]. *)
Definition temperature_patch (XXX : list byte) (d10 d : Z) : list byte :=
  let XXX := <[26%nat := to_uchar (Z.rem d10 10 + chr "0")]> XXX in
  let XXX := <[24%nat := to_uchar (Z.rem d 10 + chr "0")]> XXX in
  let XXX := <[23%nat := to_uchar (Z.rem (Z.quot d 10) 10 + chr "0")]> XXX in
  let XXX :=
    if default 0 (XXX !! 23%nat) =? chr "0"
    then <[23%nat := to_uchar (chr " ")]> XXX else XXX in
  <[31%nat := to_uchar (default 0 (CheckSum XXX (33 - 2)))]> XXX.

(** The same for the humidity array, from [h = (int)hum]. *)
Definition humidity_patch (XXX : list byte) (h : Z) : list byte :=
  let XXX := <[23%nat := to_uchar (Z.rem h 10 + chr "0")]> XXX in
  let XXX := <[22%nat := to_uchar (Z.rem (Z.quot h 10) 10 + chr "0")]> XXX in
  let XXX :=
    if default 0 (XXX !! 22%nat) =? chr "0"
    then <[22%nat := to_uchar (chr " ")]> XXX else XXX in
  <[28%nat := to_uchar (default 0 (CheckSum XXX (30 - 2)))]> XXX.

(** A frame carries its checksum: the byte two places before the end is the
    sum, modulo 256, of all the bytes before it. *)
Definition frame_ok (f : list byte) : Prop :=
  (2 <= length f)%nat
  /\ f !! (length f - 2)%nat = Some (sum_bytes (take (length f - 2) f) mod 256)
  /\ CheckSum f (Z.of_nat (length f) - 2) = f !! (length f - 2)%nat.

(** A patched array is its initialiser with other bytes in the cells the
    function writes: the digits and the checksum. *)
Definition temperature_cells (init XXX : list byte) : Prop :=
  exists tens ones tenths BCC,
    XXX = <[23%nat := tens]> (<[24%nat := ones]> (<[26%nat := tenths]>
            (<[31%nat := BCC]> init))).

Definition humidity_cells (init XXX : list byte) : Prop :=
  exists tens ones BCC,
    XXX = <[22%nat := tens]> (<[23%nat := ones]> (<[28%nat := BCC]> init)).

(** The boards the sketch can be in. *)
Definition well_formed (s : Board) : Prop :=
  temperature_cells ShowTemperature_XXX (XXX_ShowTemperature s)
  /\ temperature_cells UpdateTemperature_XXX (XXX_UpdateTemperature s)
  /\ humidity_cells ShowHumidity_XXX (XXX_ShowHumidity s)
  /\ humidity_cells UpdateHumidity_XXX (XXX_UpdateHumidity s).

(** The board once the pre-delay of [WaitResponse] is over. *)
Definition delayed (minWaitTime : Z) (s : Board) : Board :=
  if 0 <? minWaitTime
  then record (EvDelay minWaitTime) (set_clock (clock s + minWaitTime) s)
  else s.

(** [n] polls that find nothing, each followed by its one-millisecond sleep. *)
Fixpoint ticks (n : nat) : list Event :=
  match n with
  | O => []
  | S n' => EvAvail false :: EvDelay 1 :: ticks n'
  end.

(** No byte reaches the receive buffer up to time [T] (an empty link is
    quiet for ever). *)
Definition quiet_until (T : Z) (s : Board) : Prop :=
  match rx s with
  | [] => True
  | (t, _) :: _ => T < t
  end.

(** The board after [n] such ticks. *)
Definition ticked (n : nat) (s : Board) : Board :=
  mkBoard (clock s + Z.of_nat n) (rx s) (log s ++ ticks n)
          (XXX_ShowTemperature s) (XXX_UpdateTemperature s)
          (XXX_ShowHumidity s) (XXX_UpdateHumidity s).

(** The digit characters, in the words of the formatting policy: a digit is
    rendered as its ASCII character, a zero tens digit as a space. *)
Definition digit (n : Z) : byte := chr "0" + n.
Definition digit_or_blank (n : Z) : byte := if n =? 0 then chr " " else chr "0" + n.

(** The digit cells of the frame a call sends: tens, ones and tenths of the
    temperature frame, tens and ones of the humidity frame. *)
Definition format_temperature (fuel : nat) (deg : float) (s : Board)
  : option (byte * byte * byte) :=
  match UpdateTemperature fuel deg s with
  | Ret _ s' =>
      let XXX := XXX_UpdateTemperature s' in
      match XXX !! 23%nat, XXX !! 24%nat, XXX !! 26%nat with
      | Some tens, Some ones, Some tenths => Some (tens, ones, tenths)
      | _, _, _ => None
      end
  | _ => None
  end.

Definition format_humidity (fuel : nat) (hum : float) (s : Board)
  : option (byte * byte) :=
  match UpdateHumidity fuel hum s with
  | Ret _ s' =>
      let XXX := XXX_UpdateHumidity s' in
      match XXX !! 22%nat, XXX !! 23%nat with
      | Some tens, Some ones => Some (tens, ones)
      | _, _ => None
      end
  | _ => None
  end.

(** The line [loop] prints when a reading is not a number. *)
Definition diagnostic : list byte :=
  map chr (list_ascii_of_string "Failed to read from DHT sensor!") ++ [0x0D; 0x0A].

(** The readings the display fields are laid out for: a binary32 number [x]
    with [0 <= x < 100]. *)
Definition in_range (x : float) : Prop :=
  valid_binary 24 128 x = true
  /\ SFleb (S754_zero false) x = true
  /\ SFltb x (float_of_int 100) = true.

(** The bytes on the link carry arrival times that do not go backwards. *)
Definition in_order (l : list (Z * byte)) : Prop :=
  forall i j p q,
    (i <= j)%nat -> l !! i = Some p -> l !! j = Some q -> fst p <= fst q.

(** The two bytes the device answers a command with. *)
Definition answer (b : byte) : Prop := b = ACK \/ b = NAK.


(** ** The second copy of the sketch

    From line 244 on the file carries a second copy of the sketch.  It has no
    backbuffer: [ShowTemperature] and [ShowHumidity] draw straight to the
    screen, at other coordinates, and [loop] ends by emptying the receive
    buffer.  [WaitResponse], [ClearResponse], [WriteCommand], [CheckSum] and
    [setup] are the same text as in the first copy and are shared; the two
    [static] arrays live in the cells of the board named after their
    functions. *)

Module Rev2.

Definition ShowTemperature_XXX : list byte :=
  [0x01; 0x21; 0x02; 0x04; 0x31; 0x13; 0x00; 0x00; 0x8C; 0x00; 0x50; 0xFF;
   0xFF; 0xFF; 0x00; 0x00; 0x00; chr "T"; chr "e"; chr "m"; chr "p"; chr ":";
   chr " "; chr "0"; chr "0"; chr "."; chr "0"; chr " "; chr "c"; chr " ";
   0x0A; 0xA0; 0x0D].

Definition ClearTemperature_XXX : list byte :=
  [0x01; 0x10; 0x02; 0x04; 0x41; 0x00; 0x8C; 0x00; 0x50; 0x01; 0x72; 0x00;
   0x78; 0x0A; 0x29; 0x0D].

Definition ShowHumidity_XXX : list byte :=
  [0x01; 0x1E; 0x02; 0x04; 0x31; 0x13; 0x00; 0x00; 0x9F; 0x00; 0x8C; 0xFF;
   0xFF; 0xFF; 0x00; 0x00; 0x00; chr "H"; chr "u"; chr "m"; chr ":"; chr " ";
   chr "0"; chr "0"; chr " "; chr "%"; chr " "; 0x0A; 0xE4; 0x0D].

Definition ClearHumidity_XXX : list byte :=
  [0x01; 0x10; 0x02; 0x04; 0x41; 0x00; 0x9F; 0x00; 0x8C; 0x01; 0x5E; 0x00;
   0xB4; 0x0A; 0xA0; 0x0D].

Definition ClearTemperature (fuel : nat) : M unit :=
  WriteCommand ClearTemperature_XXX 16 ;;;
  let* _ := WaitResponse fuel 100 500 in pure tt.

Definition ClearHumidity (fuel : nat) : M unit :=
  WriteCommand ClearHumidity_XXX 16 ;;;
  let* _ := WaitResponse fuel 100 500 in pure tt.

Definition ShowTemperature (fuel : nat) (deg : float) : M unit :=
  ClearTemperature fuel ;;;
  let* d10 := defined (int_of_float (float_mul deg (float_of_int 10))) in
  poke InShowTemperature 26 (Z.rem d10 10 + chr "0") ;;;
  let* d := defined (int_of_float deg) in
  poke InShowTemperature 24 (Z.rem d 10 + chr "0") ;;;
  let* d := defined (int_of_float deg) in
  poke InShowTemperature 23 (Z.rem (Z.quot d 10) 10 + chr "0") ;;;
  let* tens := peek InShowTemperature 23 in
  (if tens =? chr "0" then poke InShowTemperature 23 (chr " ") else pure tt) ;;;
  let* XXX := whole InShowTemperature in
  let* BCC := defined (CheckSum XXX (33 - 2)) in
  poke InShowTemperature 31 BCC ;;;
  let* XXX := whole InShowTemperature in
  WriteCommand XXX 33 ;;;
  let* _ := WaitResponse fuel 100 500 in pure tt.

Definition ShowHumidity (fuel : nat) (hum : float) : M unit :=
  ClearHumidity fuel ;;;
  let* h := defined (int_of_float hum) in
  poke InShowHumidity 23 (Z.rem h 10 + chr "0") ;;;
  let* h := defined (int_of_float hum) in
  poke InShowHumidity 22 (Z.rem (Z.quot h 10) 10 + chr "0") ;;;
  let* tens := peek InShowHumidity 22 in
  (if tens =? chr "0" then poke InShowHumidity 22 (chr " ") else pure tt) ;;;
  let* XXX := whole InShowHumidity in
  let* BCC := defined (CheckSum XXX (30 - 2)) in
  poke InShowHumidity 28 BCC ;;;
  let* XXX := whole InShowHumidity in
  WriteCommand XXX 30 ;;;
  let* _ := WaitResponse fuel 100 500 in pure tt.

(** The loop that ends [loop], [while(Serial.available()) Serial.read();],
    is the body of [ClearResponse] written out in place. *)
Definition loop (fuel : nat) (readHumidity readTemperature : float) : M unit :=
  delay MIN_READ_PERIOD ;;;
  let h := readHumidity in
  let t := readTemperature in
  if isnan h || isnan t then
    Serial.println "Failed to read from DHT sensor!"
  else
    ShowTemperature fuel t ;;;
    ShowHumidity fuel h ;;;
    ClearResponse fuel.

(** This copy declares two patched arrays only. *)
Definition power_on (incoming : list (Z * byte)) : Board :=
  mkBoard 0 incoming [] ShowTemperature_XXX [] ShowHumidity_XXX [].

Definition well_formed (s : Board) : Prop :=
  temperature_cells ShowTemperature_XXX (XXX_ShowTemperature s)
  /\ humidity_cells ShowHumidity_XXX (XXX_ShowHumidity s).

End Rev2.

(** * Properties *)

(** ** Arithmetic of the 8-bit accumulator *)

Lemma to_char_congr b : (to_char b) mod 256 = b mod 256.
Proof.
  unfold to_char. destruct (b mod 256 <? 128) eqn:E.
  - apply Z.mod_mod. lia.
  - replace (b mod 256 - 256) with (b mod 256 + (-1) * 256) by lia.
    rewrite Z.mod_add by lia. apply Z.mod_mod. lia.
Qed.

Lemma accumulate_char acc b :
  to_uchar (acc + to_char b) = (acc + b) mod 256.
Proof.
  unfold to_uchar.
  rewrite Z.add_mod by lia. rewrite to_char_congr.
  rewrite <- Z.add_mod by lia. reflexivity.
Qed.

Lemma sum_bytes_app l1 l2 : sum_bytes (l1 ++ l2) = sum_bytes l1 + sum_bytes l2.
Proof. induction l1 as [|a l1 IH]; simpl; [reflexivity | rewrite IH; lia]. Qed.

(** The loop invariant of [CheckSum]: started at index [i] with [n] bytes
    left to read, all of them inside the array. *)
Lemma CheckSum_from_sum data :
  forall n i acc,
    (i + n <= length data)%nat ->
    CheckSum_from data i n (acc mod 256) =
    Some ((acc + sum_bytes (take n (drop i data))) mod 256).
Proof.
  induction n as [|n IH]; intros i acc Hlen.
  - simpl. rewrite Z.add_0_r. reflexivity.
  - simpl.
    destruct (data !! i) as [b|] eqn:Hb.
    2:{ apply lookup_ge_None in Hb. lia. }
    rewrite accumulate_char.
    rewrite Z.add_mod_idemp_l by lia.
    rewrite IH by lia.
    rewrite (drop_S data b i Hb). simpl.
    f_equal. f_equal. lia.
Qed.

Lemma CheckSum_from_prefix data data' :
  forall n i acc,
    (i + n <= length data)%nat ->
    take (i + n) data' = take (i + n) data ->
    CheckSum_from data' i n acc = CheckSum_from data i n acc.
Proof.
  induction n as [|n IH]; intros i acc Hlen Hpre; [reflexivity|].
  simpl.
  assert (Hi : data' !! i = data !! i).
  { rewrite <- (lookup_take_lt data' (i + S n) i) by lia.
    rewrite <- (lookup_take_lt data (i + S n) i) by lia.
    rewrite Hpre. reflexivity. }
  rewrite Hi. destruct (data !! i) as [b|]; [|reflexivity].
  apply IH; [lia|].
  replace (S i + n)%nat with (i + S n)%nat by lia. exact Hpre.
Qed.

(** C2. For every byte sequence and every count within its bounds, CheckSum
    returns the sum of the first [count] bytes reduced modulo 256 (the 8-bit
    accumulator wraps around, it does not saturate), and any sequence with
    the same first [count] bytes has the same checksum: bytes at index
    [count] and beyond do not matter. *)
Theorem CheckSum_is_sum_mod_256 (data : list byte) (count : Z) :
  0 <= count <= Z.of_nat (length data) ->
  CheckSum data count = Some (sum_bytes (take (Z.to_nat count) data) mod 256)
  /\ (forall data' : list byte,
        take (Z.to_nat count) data' = take (Z.to_nat count) data ->
        CheckSum data' count = CheckSum data count).
Proof.
  intros Hc. unfold CheckSum. split.
  - change 0x00 with (0 mod 256).
    rewrite CheckSum_from_sum by lia.
    rewrite drop_0. reflexivity.
  - intros data' Hpre.
    apply CheckSum_from_prefix; [lia | exact Hpre].
Qed.

Lemma CheckSum_is_sum_mod_256_witness :
  0 <= 3 <= Z.of_nat (length [200; 100; 7; 9])
  /\ CheckSum [200; 100; 7; 9] 3 = Some 51
  /\ CheckSum [200; 100; 7; 250; 1] 3 = CheckSum [200; 100; 7; 9] 3.
Proof.
  split; [simpl; lia|].
  destruct (CheckSum_is_sum_mod_256 [200; 100; 7; 9] 3) as [Hsum Hpre];
    [simpl; lia|].
  split; [exact Hsum | apply Hpre; reflexivity].
Defined.

(** ** The log *)

Lemma wire_app l1 l2 : wire (l1 ++ l2) = wire l1 ++ wire l2.
Proof.
  induction l1 as [|e l1 IH]; [reflexivity|].
  destruct e; simpl; rewrite IH; reflexivity.
Qed.

Lemma elapsed_app l1 l2 : elapsed (l1 ++ l2) = elapsed l1 + elapsed l2.
Proof.
  induction l1 as [|e l1 IH]; [reflexivity|].
  destruct e; simpl; rewrite IH; lia.
Qed.

Lemma wire_writes bs : wire (map EvWrite bs) = bs.
Proof. induction bs as [|b bs IH]; simpl; [|rewrite IH]; reflexivity. Qed.

(** ** WaitResponse: the poll loop *)

Lemma idles_intro s s' evs :
  (forall x, static_get x s' = static_get x s) ->
  (length (rx s') <= length (rx s))%nat ->
  log s' = log s ++ evs ->
  wire evs = [] ->
  clock s' = clock s + elapsed evs ->
  idles s s'.
Proof.
  intros Hx Hr Hl Hw Hc. unfold idles.
  split; [exact Hx|]. split; [rewrite Hl, wire_app, Hw; apply app_nil_r|].
  split; [exact Hr|]. split; [rewrite Hl, elapsed_app; lia|].
  exists evs. exact Hl.
Qed.

Lemma idles_refl s : idles s s.
Proof.
  apply (idles_intro s s []);
    [reflexivity | lia | symmetry; apply app_nil_r | reflexivity | simpl; lia].
Qed.

Lemma idles_trans s1 s2 s3 : idles s1 s2 -> idles s2 s3 -> idles s1 s3.
Proof.
  intros (Hx & Hw & Hr & Hc & (e1 & He1)) (Hx' & Hw' & Hr' & Hc' & (e2 & He2)).
  unfold idles.
  split; [intros x; rewrite Hx'; apply Hx|].
  split; [congruence|]. split; [lia|]. split; [lia|].
  exists (e1 ++ e2). rewrite He2, He1, app_assoc. reflexivity.
Qed.

Lemma idles_delay ms s : idles s (record (EvDelay ms) (set_clock (clock s + ms) s)).
Proof.
  apply (idles_intro _ _ [EvDelay ms]);
    [intros []; reflexivity | simpl; lia | reflexivity | reflexivity | simpl; lia].
Qed.

Lemma idles_avail b s : idles s (record (EvAvail b) s).
Proof.
  apply (idles_intro _ _ [EvAvail b]);
    [intros []; reflexivity | simpl; lia | reflexivity | reflexivity | simpl; lia].
Qed.

Lemma idles_read b t rest s :
  rx s = (t, b) :: rest -> idles s (record (EvRead b) (set_rx rest s)).
Proof.
  intros Hrx.
  apply (idles_intro _ _ [EvRead b]);
    [intros []; reflexivity | simpl; rewrite Hrx; simpl; lia
    | reflexivity | reflexivity | simpl; lia].
Qed.

Lemma arrived_inv s :
  Serial.arrived s = true ->
  exists t b rest, rx s = (t, b) :: rest /\ (t <=? clock s) = true.
Proof.
  unfold Serial.arrived. destruct (rx s) as [|[t b] rest]; [discriminate|].
  intros H. exists t, b, rest. split; [reflexivity | exact H].
Qed.

(** With a positive [maxWaitTime] the loop ends: every iteration either takes
    a byte from the receive buffer or advances [timer], and each tick of
    [timer] is one millisecond of [delay]. *)
Lemma WaitResponse_while_ends :
  forall fuel maxWaitTime ret timer s,
    0 < maxWaitTime < 2 ^ 32 ->
    0 <= timer <= maxWaitTime ->
    (Z.to_nat (maxWaitTime - timer) + length (rx s) <= fuel)%nat ->
    exists r s',
      WaitResponse_while fuel maxWaitTime ret timer s = Ret r s'
      /\ idles s s'
      /\ clock s <= clock s' <= clock s + (maxWaitTime - timer).
Proof.
  induction fuel as [|fuel IH]; intros maxWaitTime ret timer s Hmax Htimer Hfuel.
  - (* no iteration left: [timer] has reached [maxWaitTime] *)
    assert (timer = maxWaitTime) by lia. subst timer.
    simpl. rewrite Z.ltb_irrefl. replace (maxWaitTime =? 0) with false by lia.
    rewrite andb_false_r. exists ret, s. split; [reflexivity|].
    split; [apply idles_refl | lia].
  - cbn [WaitResponse_while].
    destruct ((ret =? 0) && ((timer <? maxWaitTime) || (maxWaitTime =? 0))) eqn:Hcond.
    2:{ exists ret, s. split; [reflexivity|]. split; [apply idles_refl | lia]. }
    assert (Hlt : timer < maxWaitTime) by lia.
    unfold bind at 1. unfold Serial.available.
    destruct (Serial.arrived s) eqn:Harr.
    + (* a byte is waiting *)
      destruct (arrived_inv s Harr) as (t & b & rest & Hrx & Ht).
      unfold bind at 1. unfold Serial.read. simpl rx. rewrite Hrx.
      simpl clock. rewrite Ht.
      set (s1 := record (EvRead b) (set_rx rest (record (EvAvail true) s))).
      assert (H1 : idles s s1).
      { eapply idles_trans; [apply (idles_avail true)|].
        apply (idles_read b t rest). exact Hrx. }
      assert (Hclock : clock s1 = clock s) by reflexivity.
      destruct ((to_uchar b =? ACK) || (to_uchar b =? NAK)).
      * exists (to_uchar b), s1. split; [reflexivity|]. split; [exact H1 | lia].
      * destruct (IH maxWaitTime (to_uchar b) timer s1 Hmax Htimer)
          as (r & s' & Hrun & Hid & Hck).
        { subst s1. simpl. rewrite Hrx in Hfuel. simpl in Hfuel. lia. }
        exists r, s'. split; [exact Hrun|].
        split; [eapply idles_trans; eassumption | lia].
    + (* nothing yet: sleep one millisecond *)
      unfold bind at 1. unfold delay.
      set (s1 := record (EvDelay 1)
                   (set_clock (clock (record (EvAvail false) s) + 1)
                      (record (EvAvail false) s))).
      assert (H1 : idles s s1).
      { eapply idles_trans; [apply (idles_avail false)|]. apply idles_delay. }
      assert (Hclock : clock s1 = clock s + 1) by reflexivity.
      assert (Hwrap : to_ulong (timer + 1) = timer + 1).
      { unfold to_ulong. apply Z.mod_small. lia. }
      rewrite Hwrap.
      destruct (IH maxWaitTime ret (timer + 1) s1 Hmax) as (r & s' & Hrun & Hid & Hck).
      { lia. }
      { subst s1. simpl. lia. }
      exists r, s'. split; [exact Hrun|].
      split; [eapply idles_trans; eassumption | lia].
Qed.

(** [WaitResponse] as a whole: the pre-delay, then the loop. *)
Lemma WaitResponse_ends fuel minWaitTime maxWaitTime s :
  0 <= minWaitTime ->
  0 < maxWaitTime < 2 ^ 32 ->
  (Z.to_nat maxWaitTime + length (rx s) <= fuel)%nat ->
  exists r s',
    WaitResponse fuel minWaitTime maxWaitTime s = Ret r s'
    /\ idles s s'
    /\ clock s + minWaitTime <= clock s' <= clock s + minWaitTime + maxWaitTime.
Proof.
  intros Hmin Hmax Hfuel. unfold WaitResponse.
  destruct (0 <? minWaitTime) eqn:Hpos.
  - unfold bind at 1. unfold delay.
    set (s1 := record (EvDelay minWaitTime) (set_clock (clock s + minWaitTime) s)).
    destruct (WaitResponse_while_ends fuel maxWaitTime 0 0 s1 Hmax)
      as (r & s' & Hrun & Hid & Hck).
    { lia. }
    { subst s1. simpl. lia. }
    exists r, s'. split; [exact Hrun|].
    split; [eapply idles_trans; [apply idles_delay | exact Hid]|].
    subst s1. simpl in Hck. lia.
  - unfold bind at 1. unfold pure at 1.
    destruct (WaitResponse_while_ends fuel maxWaitTime 0 0 s Hmax)
      as (r & s' & Hrun & Hid & Hck).
    { lia. }
    { lia. }
    exists r, s'. split; [exact Hrun|]. split; [exact Hid | lia].
Qed.

(** ** WriteCommand *)

Lemma sent_nil s : sent [] s = s.
Proof. destruct s. unfold sent. simpl. rewrite app_nil_r. reflexivity. Qed.

Lemma sent_cons b bs s : sent bs (record (EvWrite b) s) = sent (b :: bs) s.
Proof. unfold sent, record. simpl. rewrite <- app_assoc. reflexivity. Qed.

Lemma WriteCommand_from_run data :
  forall n i s,
    (i + n <= length data)%nat ->
    WriteCommand_from data i n s = Ret tt (sent (take n (drop i data)) s).
Proof.
  induction n as [|n IH]; intros i s Hlen.
  - simpl. rewrite sent_nil. reflexivity.
  - simpl. destruct (data !! i) as [b|] eqn:Hb.
    2:{ apply lookup_ge_None in Hb. lia. }
    unfold bind, Serial.write. rewrite IH by lia.
    rewrite (drop_S data b i Hb). simpl. rewrite sent_cons. reflexivity.
Qed.

Lemma WriteCommand_run data count s :
  0 <= count <= Z.of_nat (length data) ->
  WriteCommand data count s = Ret tt (sent (take (Z.to_nat count) data) s).
Proof.
  intros H. unfold WriteCommand. rewrite WriteCommand_from_run by lia.
  rewrite drop_0. reflexivity.
Qed.

Lemma WriteCommand_whole data s :
  WriteCommand data (Z.of_nat (length data)) s = Ret tt (sent data s).
Proof.
  rewrite WriteCommand_run by lia. rewrite Nat2Z.id, take_ge by lia. reflexivity.
Qed.

(** ** Sending one frame and waiting for the answer *)

Lemma bind_Ret {A B} (m : M A) (k : A -> M B) s a s' :
  m s = Ret a s' -> bind m k s = k a s'.
Proof. intros H. unfold bind. rewrite H. reflexivity. Qed.

Lemma static_get_sent x bs s : static_get x (sent bs s) = static_get x s.
Proof. destruct x; reflexivity. Qed.

Lemma command_run fuel frame count s :
  count = Z.of_nat (length frame) ->
  enough fuel s ->
  exists r s',
    WaitResponse fuel 100 500 (sent frame s) = Ret r s'
    /\ (WriteCommand frame count ;;;
        let* _ := WaitResponse fuel 100 500 in pure tt) s = Ret tt s'
    /\ idles (sent frame s) s'
    /\ clock s + 100 <= clock s' <= clock s + 100 + 500.
Proof.
  intros -> Hfuel.
  destruct (WaitResponse_ends fuel 100 500 (sent frame s)) as (r & s' & Hrun & Hid & Hck);
    [lia | lia | unfold enough in Hfuel; simpl; lia |].
  exists r, s'. split; [exact Hrun|]. split; [|split; [exact Hid | exact Hck]].
  rewrite (bind_Ret _ _ _ _ _ (WriteCommand_whole frame s)).
  rewrite (bind_Ret _ _ _ _ _ Hrun). reflexivity.
Qed.

(** What the caller of a send can rely on afterwards. *)
Lemma idles_sent frame s s' :
  idles (sent frame s) s' ->
  (forall x, static_get x s' = static_get x s)
  /\ wire (log s') = wire (log s) ++ frame
  /\ (length (rx s') <= length (rx s))%nat.
Proof.
  intros (Hx & Hw & Hr & _ & _).
  split; [intros x; rewrite Hx; apply static_get_sent|].
  split; [rewrite Hw; simpl; rewrite wire_app, wire_writes; reflexivity|].
  exact Hr.
Qed.

(** ** The arrays patched in place *)

Lemma static_get_set x v s : static_get x (static_set x v s) = v.
Proof. destruct x; reflexivity. Qed.

Lemma static_set_set x v w s : static_set x w (static_set x v s) = static_set x w s.
Proof. destruct x; reflexivity. Qed.

Lemma poke_run x i v L s :
  (i < length L)%nat ->
  poke x i v (static_set x L s) = Ret tt (static_set x (<[i := to_uchar v]> L) s).
Proof.
  intros Hi. unfold poke. rewrite static_get_set, static_set_set.
  destruct (i <? length L)%nat eqn:E; [reflexivity|].
  apply Nat.ltb_ge in E. lia.
Qed.

Lemma peek_run x i L s b :
  L !! i = Some b -> peek x i (static_set x L s) = Ret b (static_set x L s).
Proof. intros H. unfold peek. rewrite static_get_set, H. reflexivity. Qed.

Lemma whole_run x L s : whole x (static_set x L s) = Ret L (static_set x L s).
Proof. unfold whole. rewrite static_get_set. reflexivity. Qed.

Lemma CheckSum_defined data count :
  0 <= count <= Z.of_nat (length data) ->
  CheckSum data count = Some (sum_bytes (take (Z.to_nat count) data) mod 256).
Proof.
  intros Hc. unfold CheckSum. change 0x00 with (0 mod 256).
  rewrite CheckSum_from_sum by lia. rewrite drop_0. reflexivity.
Qed.

Lemma poke_first x i v s :
  (i < length (static_get x s))%nat ->
  poke x i v s = Ret tt (static_set x (<[i := to_uchar v]> (static_get x s)) s).
Proof.
  intros Hi. unfold poke.
  destruct (i <? length (static_get x s))%nat eqn:E; [reflexivity|].
  apply Nat.ltb_ge in E. lia.
Qed.

Lemma defined_run {A B} (o : option A) (k : A -> M B) a s :
  o = Some a -> bind (defined o) k s = k a s.
Proof. intros ->. reflexivity. Qed.

Lemma to_uchar_mod x : to_uchar (x mod 256) = x mod 256.
Proof. unfold to_uchar. apply Z.mod_mod. lia. Qed.

(** The patched temperature array, unfolded: the three digit cells, the
    blanking of a zero tens digit, then the checksum of the first 31 bytes. *)
Lemma temperature_patch_unfold (XXX : list byte) d10 d :
  length XXX = 33%nat ->
  let tens := to_uchar (Z.rem (Z.quot d 10) 10 + chr "0") in
  let L3 := <[23%nat := tens]>
              (<[24%nat := to_uchar (Z.rem d 10 + chr "0")]>
                 (<[26%nat := to_uchar (Z.rem d10 10 + chr "0")]> XXX)) in
  let L4 := if tens =? chr "0" then <[23%nat := to_uchar (chr " ")]> L3 else L3 in
  length L4 = 33%nat
  /\ L3 !! 23%nat = Some tens
  /\ CheckSum L4 (33 - 2) = Some (sum_bytes (take 31 L4) mod 256)
  /\ temperature_patch XXX d10 d = <[31%nat := sum_bytes (take 31 L4) mod 256]> L4.
Proof.
  intros Hlen tens L3 L4.
  assert (H3 : length L3 = 33%nat).
  { subst L3. rewrite !length_insert. exact Hlen. }
  assert (H4 : length L4 = 33%nat).
  { subst L4. destruct (tens =? chr "0"); [rewrite length_insert|]; exact H3. }
  assert (Ht : L3 !! 23%nat = Some tens).
  { subst L3. apply list_lookup_insert_eq. rewrite !length_insert. lia. }
  assert (Hcs : CheckSum L4 (33 - 2) = Some (sum_bytes (take 31 L4) mod 256)).
  { apply (CheckSum_defined L4 31). rewrite H4. lia. }
  split; [exact H4|]. split; [exact Ht|]. split; [exact Hcs|].
  unfold temperature_patch. fold tens. fold L3. rewrite Ht. simpl default.
  fold L4. rewrite Hcs. simpl default. rewrite to_uchar_mod. reflexivity.
Qed.

(** Side conditions: an index inside a 33- or 30-byte array after updates. *)
Ltac len33 :=
  rewrite ?length_insert;
  match goal with
  | H : length _ = _ |- _ => rewrite H; lia
  end.

Lemma UpdateTemperature_run fuel deg s d10 d :
  length (XXX_UpdateTemperature s) = 33%nat ->
  int_of_float (float_mul deg (float_of_int 10)) = Some d10 ->
  int_of_float deg = Some d ->
  enough fuel s ->
  exists r1 s1 r2 s2,
    let F := temperature_patch (XXX_UpdateTemperature s) d10 d in
    WaitResponse fuel 100 500 (sent ClearTemperature_XXX s) = Ret r1 s1
    /\ WaitResponse fuel 100 500
         (sent F (static_set InUpdateTemperature F s1)) = Ret r2 s2
    /\ UpdateTemperature fuel deg s = Ret tt s2
    /\ idles (sent ClearTemperature_XXX s) s1
    /\ idles (sent F (static_set InUpdateTemperature F s1)) s2
    /\ length F = 33%nat
    /\ clock s + 200 <= clock s2 <= clock s + 1200.
Proof.
  intros Hlen Hd10 Hd Hfuel.
  destruct (command_run fuel ClearTemperature_XXX 16 s eq_refl Hfuel)
    as (r1 & s1 & Hw1 & Hc1 & Hid1 & Hck1).
  destruct (idles_sent _ _ _ Hid1) as (Hx1 & Hwire1 & Hrx1).
  pose proof (Hx1 InUpdateTemperature) as Hbuf.
  change (static_get InUpdateTemperature s) with (XXX_UpdateTemperature s) in Hbuf.
  destruct (temperature_patch_unfold (XXX_UpdateTemperature s) d10 d Hlen)
    as (H4 & Ht & Hcs & HF).
  set (F := temperature_patch (XXX_UpdateTemperature s) d10 d) in *.
  assert (HlenF : length F = 33%nat).
  { rewrite HF, length_insert. exact H4. }
  destruct (command_run fuel F 33 (static_set InUpdateTemperature F s1))
    as (r2 & s2 & Hw2 & Hc2 & Hid2 & Hck2).
  { rewrite HlenF. reflexivity. }
  { unfold enough in *. replace (rx (static_set InUpdateTemperature F s1)) with (rx s1)
      by reflexivity. lia. }
  exists r1, s1, r2, s2. cbv zeta.
  split; [exact Hw1|]. split; [exact Hw2|].
  split; [|split; [exact Hid1|split; [exact Hid2|split; [exact HlenF|]]]].
  2:{ replace (clock (static_set InUpdateTemperature F s1)) with (clock s1) in Hck2
        by reflexivity. lia. }
  unfold UpdateTemperature.
  rewrite (bind_Ret _ _ _ _ _ Hc1).
  rewrite (defined_run _ _ _ _ Hd10).
  erewrite bind_Ret; [|apply poke_first; rewrite Hbuf, Hlen; lia].
  rewrite Hbuf.
  rewrite (defined_run _ _ _ _ Hd).
  erewrite bind_Ret; [|apply poke_run; len33].
  rewrite (defined_run _ _ _ _ Hd).
  erewrite bind_Ret; [|apply poke_run; len33].
  erewrite bind_Ret; [|apply peek_run; exact Ht].
  revert H4 Hcs HF.
  destruct (to_uchar (Z.rem (Z.quot d 10) 10 + chr "0") =? chr "0"); intros H4 Hcs HF.
  - erewrite bind_Ret; [|apply poke_run; len33].
    erewrite bind_Ret; [|apply whole_run].
    rewrite (defined_run _ _ _ _ Hcs).
    erewrite bind_Ret; [|apply poke_run; len33].
    rewrite to_uchar_mod, <- HF.
    erewrite bind_Ret; [|apply whole_run].
    exact Hc2.
  - erewrite bind_Ret; [|reflexivity].
    erewrite bind_Ret; [|apply whole_run].
    rewrite (defined_run _ _ _ _ Hcs).
    erewrite bind_Ret; [|apply poke_run; len33].
    rewrite to_uchar_mod, <- HF.
    erewrite bind_Ret; [|apply whole_run].
    exact Hc2.
Qed.

Lemma humidity_patch_unfold (XXX : list byte) h :
  length XXX = 30%nat ->
  let tens := to_uchar (Z.rem (Z.quot h 10) 10 + chr "0") in
  let L2 := <[22%nat := tens]> (<[23%nat := to_uchar (Z.rem h 10 + chr "0")]> XXX) in
  let L3 := if tens =? chr "0" then <[22%nat := to_uchar (chr " ")]> L2 else L2 in
  length L3 = 30%nat
  /\ L2 !! 22%nat = Some tens
  /\ CheckSum L3 (30 - 2) = Some (sum_bytes (take 28 L3) mod 256)
  /\ humidity_patch XXX h = <[28%nat := sum_bytes (take 28 L3) mod 256]> L3.
Proof.
  intros Hlen tens L2 L3.
  assert (H2 : length L2 = 30%nat).
  { subst L2. rewrite !length_insert. exact Hlen. }
  assert (H3 : length L3 = 30%nat).
  { subst L3. destruct (tens =? chr "0"); [rewrite length_insert|]; exact H2. }
  assert (Ht : L2 !! 22%nat = Some tens).
  { subst L2. apply list_lookup_insert_eq. rewrite !length_insert. lia. }
  assert (Hcs : CheckSum L3 (30 - 2) = Some (sum_bytes (take 28 L3) mod 256)).
  { apply (CheckSum_defined L3 28). rewrite H3. lia. }
  split; [exact H3|]. split; [exact Ht|]. split; [exact Hcs|].
  unfold humidity_patch. fold tens. fold L2. rewrite Ht. simpl default.
  fold L3. rewrite Hcs. simpl default. rewrite to_uchar_mod. reflexivity.
Qed.

Lemma UpdateHumidity_run fuel hum s h :
  length (XXX_UpdateHumidity s) = 30%nat ->
  int_of_float hum = Some h ->
  enough fuel s ->
  exists r1 s1 r2 s2,
    let F := humidity_patch (XXX_UpdateHumidity s) h in
    WaitResponse fuel 100 500 (sent ClearHumidity_XXX s) = Ret r1 s1
    /\ WaitResponse fuel 100 500
         (sent F (static_set InUpdateHumidity F s1)) = Ret r2 s2
    /\ UpdateHumidity fuel hum s = Ret tt s2
    /\ idles (sent ClearHumidity_XXX s) s1
    /\ idles (sent F (static_set InUpdateHumidity F s1)) s2
    /\ length F = 30%nat
    /\ clock s + 200 <= clock s2 <= clock s + 1200.
Proof.
  intros Hlen Hh Hfuel.
  destruct (command_run fuel ClearHumidity_XXX 16 s eq_refl Hfuel)
    as (r1 & s1 & Hw1 & Hc1 & Hid1 & Hck1).
  destruct (idles_sent _ _ _ Hid1) as (Hx1 & Hwire1 & Hrx1).
  pose proof (Hx1 InUpdateHumidity) as Hbuf.
  change (static_get InUpdateHumidity s) with (XXX_UpdateHumidity s) in Hbuf.
  destruct (humidity_patch_unfold (XXX_UpdateHumidity s) h Hlen)
    as (H3 & Ht & Hcs & HF).
  set (F := humidity_patch (XXX_UpdateHumidity s) h) in *.
  assert (HlenF : length F = 30%nat).
  { rewrite HF, length_insert. exact H3. }
  destruct (command_run fuel F 30 (static_set InUpdateHumidity F s1))
    as (r2 & s2 & Hw2 & Hc2 & Hid2 & Hck2).
  { rewrite HlenF. reflexivity. }
  { unfold enough in *. replace (rx (static_set InUpdateHumidity F s1)) with (rx s1)
      by reflexivity. lia. }
  exists r1, s1, r2, s2. cbv zeta.
  split; [exact Hw1|]. split; [exact Hw2|].
  split; [|split; [exact Hid1|split; [exact Hid2|split; [exact HlenF|]]]].
  2:{ replace (clock (static_set InUpdateHumidity F s1)) with (clock s1) in Hck2
        by reflexivity. lia. }
  unfold UpdateHumidity.
  rewrite (bind_Ret _ _ _ _ _ Hc1).
  rewrite (defined_run _ _ _ _ Hh).
  erewrite bind_Ret; [|apply poke_first; rewrite Hbuf, Hlen; lia].
  rewrite Hbuf.
  rewrite (defined_run _ _ _ _ Hh).
  erewrite bind_Ret; [|apply poke_run; len33].
  erewrite bind_Ret; [|apply peek_run; exact Ht].
  revert H3 Hcs HF.
  destruct (to_uchar (Z.rem (Z.quot h 10) 10 + chr "0") =? chr "0"); intros H3 Hcs HF.
  - erewrite bind_Ret; [|apply poke_run; len33].
    erewrite bind_Ret; [|apply whole_run].
    rewrite (defined_run _ _ _ _ Hcs).
    erewrite bind_Ret; [|apply poke_run; len33].
    rewrite to_uchar_mod, <- HF.
    erewrite bind_Ret; [|apply whole_run].
    exact Hc2.
  - erewrite bind_Ret; [|reflexivity].
    erewrite bind_Ret; [|apply whole_run].
    rewrite (defined_run _ _ _ _ Hcs).
    erewrite bind_Ret; [|apply poke_run; len33].
    rewrite to_uchar_mod, <- HF.
    erewrite bind_Ret; [|apply whole_run].
    exact Hc2.
Qed.

(** The draw-and-show variants run the same way on their own arrays. *)
Lemma ShowTemperature_run fuel deg s d10 d :
  length (XXX_ShowTemperature s) = 33%nat ->
  int_of_float (float_mul deg (float_of_int 10)) = Some d10 ->
  int_of_float deg = Some d ->
  enough fuel s ->
  exists r1 s1 r2 s2,
    let F := temperature_patch (XXX_ShowTemperature s) d10 d in
    WaitResponse fuel 100 500 (sent ClearTemperature_XXX s) = Ret r1 s1
    /\ WaitResponse fuel 100 500
         (sent F (static_set InShowTemperature F s1)) = Ret r2 s2
    /\ ShowTemperature fuel deg s = Ret tt s2
    /\ idles (sent ClearTemperature_XXX s) s1
    /\ idles (sent F (static_set InShowTemperature F s1)) s2
    /\ length F = 33%nat
    /\ clock s + 200 <= clock s2 <= clock s + 1200.
Proof.
  intros Hlen Hd10 Hd Hfuel.
  destruct (command_run fuel ClearTemperature_XXX 16 s eq_refl Hfuel)
    as (r1 & s1 & Hw1 & Hc1 & Hid1 & Hck1).
  destruct (idles_sent _ _ _ Hid1) as (Hx1 & Hwire1 & Hrx1).
  pose proof (Hx1 InShowTemperature) as Hbuf.
  change (static_get InShowTemperature s) with (XXX_ShowTemperature s) in Hbuf.
  destruct (temperature_patch_unfold (XXX_ShowTemperature s) d10 d Hlen)
    as (H4 & Ht & Hcs & HF).
  set (F := temperature_patch (XXX_ShowTemperature s) d10 d) in *.
  assert (HlenF : length F = 33%nat).
  { rewrite HF, length_insert. exact H4. }
  destruct (command_run fuel F 33 (static_set InShowTemperature F s1))
    as (r2 & s2 & Hw2 & Hc2 & Hid2 & Hck2).
  { rewrite HlenF. reflexivity. }
  { unfold enough in *. replace (rx (static_set InShowTemperature F s1)) with (rx s1)
      by reflexivity. lia. }
  exists r1, s1, r2, s2. cbv zeta.
  split; [exact Hw1|]. split; [exact Hw2|].
  split; [|split; [exact Hid1|split; [exact Hid2|split; [exact HlenF|]]]].
  2:{ replace (clock (static_set InShowTemperature F s1)) with (clock s1) in Hck2
        by reflexivity. lia. }
  unfold ShowTemperature.
  rewrite (bind_Ret _ _ _ _ _ Hc1).
  rewrite (defined_run _ _ _ _ Hd10).
  erewrite bind_Ret; [|apply poke_first; rewrite Hbuf, Hlen; lia].
  rewrite Hbuf.
  rewrite (defined_run _ _ _ _ Hd).
  erewrite bind_Ret; [|apply poke_run; len33].
  rewrite (defined_run _ _ _ _ Hd).
  erewrite bind_Ret; [|apply poke_run; len33].
  erewrite bind_Ret; [|apply peek_run; exact Ht].
  revert H4 Hcs HF.
  destruct (to_uchar (Z.rem (Z.quot d 10) 10 + chr "0") =? chr "0"); intros H4 Hcs HF.
  - erewrite bind_Ret; [|apply poke_run; len33].
    erewrite bind_Ret; [|apply whole_run].
    rewrite (defined_run _ _ _ _ Hcs).
    erewrite bind_Ret; [|apply poke_run; len33].
    rewrite to_uchar_mod, <- HF.
    erewrite bind_Ret; [|apply whole_run].
    exact Hc2.
  - erewrite bind_Ret; [|reflexivity].
    erewrite bind_Ret; [|apply whole_run].
    rewrite (defined_run _ _ _ _ Hcs).
    erewrite bind_Ret; [|apply poke_run; len33].
    rewrite to_uchar_mod, <- HF.
    erewrite bind_Ret; [|apply whole_run].
    exact Hc2.
Qed.

Lemma ShowHumidity_run fuel hum s h :
  length (XXX_ShowHumidity s) = 30%nat ->
  int_of_float hum = Some h ->
  enough fuel s ->
  exists r1 s1 r2 s2,
    let F := humidity_patch (XXX_ShowHumidity s) h in
    WaitResponse fuel 100 500 (sent ClearHumidity_XXX s) = Ret r1 s1
    /\ WaitResponse fuel 100 500
         (sent F (static_set InShowHumidity F s1)) = Ret r2 s2
    /\ ShowHumidity fuel hum s = Ret tt s2
    /\ idles (sent ClearHumidity_XXX s) s1
    /\ idles (sent F (static_set InShowHumidity F s1)) s2
    /\ length F = 30%nat
    /\ clock s + 200 <= clock s2 <= clock s + 1200.
Proof.
  intros Hlen Hh Hfuel.
  destruct (command_run fuel ClearHumidity_XXX 16 s eq_refl Hfuel)
    as (r1 & s1 & Hw1 & Hc1 & Hid1 & Hck1).
  destruct (idles_sent _ _ _ Hid1) as (Hx1 & Hwire1 & Hrx1).
  pose proof (Hx1 InShowHumidity) as Hbuf.
  change (static_get InShowHumidity s) with (XXX_ShowHumidity s) in Hbuf.
  destruct (humidity_patch_unfold (XXX_ShowHumidity s) h Hlen)
    as (H3 & Ht & Hcs & HF).
  set (F := humidity_patch (XXX_ShowHumidity s) h) in *.
  assert (HlenF : length F = 30%nat).
  { rewrite HF, length_insert. exact H3. }
  destruct (command_run fuel F 30 (static_set InShowHumidity F s1))
    as (r2 & s2 & Hw2 & Hc2 & Hid2 & Hck2).
  { rewrite HlenF. reflexivity. }
  { unfold enough in *. replace (rx (static_set InShowHumidity F s1)) with (rx s1)
      by reflexivity. lia. }
  exists r1, s1, r2, s2. cbv zeta.
  split; [exact Hw1|]. split; [exact Hw2|].
  split; [|split; [exact Hid1|split; [exact Hid2|split; [exact HlenF|]]]].
  2:{ replace (clock (static_set InShowHumidity F s1)) with (clock s1) in Hck2
        by reflexivity. lia. }
  unfold ShowHumidity.
  rewrite (bind_Ret _ _ _ _ _ Hc1).
  rewrite (defined_run _ _ _ _ Hh).
  erewrite bind_Ret; [|apply poke_first; rewrite Hbuf, Hlen; lia].
  rewrite Hbuf.
  rewrite (defined_run _ _ _ _ Hh).
  erewrite bind_Ret; [|apply poke_run; len33].
  erewrite bind_Ret; [|apply peek_run; exact Ht].
  revert H3 Hcs HF.
  destruct (to_uchar (Z.rem (Z.quot h 10) 10 + chr "0") =? chr "0"); intros H3 Hcs HF.
  - erewrite bind_Ret; [|apply poke_run; len33].
    erewrite bind_Ret; [|apply whole_run].
    rewrite (defined_run _ _ _ _ Hcs).
    erewrite bind_Ret; [|apply poke_run; len33].
    rewrite to_uchar_mod, <- HF.
    erewrite bind_Ret; [|apply whole_run].
    exact Hc2.
  - erewrite bind_Ret; [|reflexivity].
    erewrite bind_Ret; [|apply whole_run].
    rewrite (defined_run _ _ _ _ Hcs).
    erewrite bind_Ret; [|apply poke_run; len33].
    rewrite to_uchar_mod, <- HF.
    erewrite bind_Ret; [|apply whole_run].
    exact Hc2.
Qed.

(** ** Checksums of the frames *)

Lemma frame_ok_patched (L : list byte) (n : nat) :
  length L = S (S n) ->
  frame_ok (<[n := sum_bytes (take n L) mod 256]> L).
Proof.
  intros Hlen. unfold frame_ok. rewrite length_insert, Hlen.
  replace (S (S n) - 2)%nat with n by lia.
  split; [lia|].
  rewrite list_lookup_insert_eq by lia.
  rewrite take_insert_ge by lia.
  split; [reflexivity|].
  rewrite CheckSum_defined by (rewrite length_insert; lia).
  replace (Z.to_nat (Z.of_nat (S (S n)) - 2)) with n by lia.
  rewrite take_insert_ge by lia. reflexivity.
Qed.

Lemma temperature_patch_ok XXX d10 d :
  length XXX = 33%nat -> frame_ok (temperature_patch XXX d10 d).
Proof.
  intros Hlen.
  destruct (temperature_patch_unfold XXX d10 d Hlen) as (H4 & _ & _ & HF).
  rewrite HF. apply frame_ok_patched. exact H4.
Qed.

Lemma humidity_patch_ok XXX h :
  length XXX = 30%nat -> frame_ok (humidity_patch XXX h).
Proof.
  intros Hlen.
  destruct (humidity_patch_unfold XXX h Hlen) as (H3 & _ & _ & HF).
  rewrite HF. apply frame_ok_patched. exact H3.
Qed.

Lemma ClearTemperature_XXX_ok : frame_ok ClearTemperature_XXX.
Proof. split; [simpl; lia | split; reflexivity]. Qed.

Lemma ClearHumidity_XXX_ok : frame_ok ClearHumidity_XXX.
Proof. split; [simpl; lia | split; reflexivity]. Qed.

Lemma UpdateScreen_XXX_ok : frame_ok UpdateScreen_XXX.
Proof. split; [simpl; lia | split; reflexivity]. Qed.

(** ** What one call of the driver leaves behind *)

Lemma UpdateTemperature_effect fuel deg s d10 d :
  length (XXX_UpdateTemperature s) = 33%nat ->
  int_of_float (float_mul deg (float_of_int 10)) = Some d10 ->
  int_of_float deg = Some d ->
  enough fuel s ->
  exists s',
    UpdateTemperature fuel deg s = Ret tt s'
    /\ wire (log s') =
       wire (log s) ++ ClearTemperature_XXX
         ++ temperature_patch (XXX_UpdateTemperature s) d10 d
    /\ XXX_UpdateTemperature s' = temperature_patch (XXX_UpdateTemperature s) d10 d
    /\ XXX_ShowTemperature s' = XXX_ShowTemperature s
    /\ XXX_ShowHumidity s' = XXX_ShowHumidity s
    /\ XXX_UpdateHumidity s' = XXX_UpdateHumidity s
    /\ (length (rx s') <= length (rx s))%nat
    /\ clock s + 200 <= clock s' <= clock s + 1200.
Proof.
  intros Hlen Hd10 Hd Hfuel.
  destruct (UpdateTemperature_run fuel deg s d10 d Hlen Hd10 Hd Hfuel)
    as (r1 & s1 & r2 & s2 & _ & _ & Hrun & Hid1 & Hid2 & _ & Hck).
  apply idles_sent in Hid1. destruct Hid1 as (Hx1 & Hw1 & Hr1).
  apply idles_sent in Hid2. destruct Hid2 as (Hx2 & Hw2 & Hr2).
  exists s2. split; [exact Hrun|].
  split.
  { rewrite Hw2. replace (log (static_set InUpdateTemperature _ s1)) with (log s1)
      by reflexivity. rewrite Hw1, <- app_assoc. reflexivity. }
  split; [apply (Hx2 InUpdateTemperature)|].
  split; [exact (eq_trans (Hx2 InShowTemperature) (Hx1 InShowTemperature))|].
  split; [exact (eq_trans (Hx2 InShowHumidity) (Hx1 InShowHumidity))|].
  split; [exact (eq_trans (Hx2 InUpdateHumidity) (Hx1 InUpdateHumidity))|].
  split; [|exact Hck].
  replace (rx (static_set InUpdateTemperature _ s1)) with (rx s1) in Hr2
    by reflexivity. lia.
Qed.

Lemma UpdateHumidity_effect fuel hum s h :
  length (XXX_UpdateHumidity s) = 30%nat ->
  int_of_float hum = Some h ->
  enough fuel s ->
  exists s',
    UpdateHumidity fuel hum s = Ret tt s'
    /\ wire (log s') =
       wire (log s) ++ ClearHumidity_XXX ++ humidity_patch (XXX_UpdateHumidity s) h
    /\ XXX_UpdateHumidity s' = humidity_patch (XXX_UpdateHumidity s) h
    /\ XXX_ShowTemperature s' = XXX_ShowTemperature s
    /\ XXX_ShowHumidity s' = XXX_ShowHumidity s
    /\ XXX_UpdateTemperature s' = XXX_UpdateTemperature s
    /\ (length (rx s') <= length (rx s))%nat
    /\ clock s + 200 <= clock s' <= clock s + 1200.
Proof.
  intros Hlen Hh Hfuel.
  destruct (UpdateHumidity_run fuel hum s h Hlen Hh Hfuel)
    as (r1 & s1 & r2 & s2 & _ & _ & Hrun & Hid1 & Hid2 & _ & Hck).
  apply idles_sent in Hid1. destruct Hid1 as (Hx1 & Hw1 & Hr1).
  apply idles_sent in Hid2. destruct Hid2 as (Hx2 & Hw2 & Hr2).
  exists s2. split; [exact Hrun|].
  split.
  { rewrite Hw2. replace (log (static_set InUpdateHumidity _ s1)) with (log s1)
      by reflexivity. rewrite Hw1, <- app_assoc. reflexivity. }
  split; [apply (Hx2 InUpdateHumidity)|].
  split; [exact (eq_trans (Hx2 InShowTemperature) (Hx1 InShowTemperature))|].
  split; [exact (eq_trans (Hx2 InShowHumidity) (Hx1 InShowHumidity))|].
  split; [exact (eq_trans (Hx2 InUpdateTemperature) (Hx1 InUpdateTemperature))|].
  split; [|exact Hck].
  replace (rx (static_set InUpdateHumidity _ s1)) with (rx s1) in Hr2
    by reflexivity. lia.
Qed.

Lemma UpdateScreen_effect fuel s :
  enough fuel s ->
  exists s',
    UpdateScreen fuel s = Ret tt s'
    /\ wire (log s') = wire (log s) ++ UpdateScreen_XXX
    /\ (forall x, static_get x s' = static_get x s)
    /\ (length (rx s') <= length (rx s))%nat
    /\ clock s + 100 <= clock s' <= clock s + 600.
Proof.
  intros Hfuel.
  destruct (command_run fuel UpdateScreen_XXX 20 s eq_refl Hfuel)
    as (r & s' & _ & Hrun & Hid & Hck).
  apply idles_sent in Hid. destruct Hid as (Hx & Hw & Hr).
  exists s'. split; [exact Hrun|]. split; [exact Hw|].
  split; [exact Hx|]. split; [exact Hr | lia].
Qed.

Lemma int_of_float_not_nan x v : int_of_float x = Some v -> isnan x = false.
Proof. destruct x; simpl; intros H; [reflexivity | reflexivity | discriminate | reflexivity]. Qed.

Lemma temperature_cells_length init XXX :
  temperature_cells init XXX -> length XXX = length init.
Proof. intros (a & b & c & e & ->). rewrite !length_insert. reflexivity. Qed.

Lemma humidity_cells_length init XXX :
  humidity_cells init XXX -> length XXX = length init.
Proof. intros (a & b & e & ->). rewrite !length_insert. reflexivity. Qed.

Lemma well_formed_lengths s :
  well_formed s ->
  length (XXX_ShowTemperature s) = 33%nat
  /\ length (XXX_UpdateTemperature s) = 33%nat
  /\ length (XXX_ShowHumidity s) = 30%nat
  /\ length (XXX_UpdateHumidity s) = 30%nat.
Proof.
  intros (H1 & H2 & H3 & H4).
  apply temperature_cells_length in H1, H2.
  apply humidity_cells_length in H3, H4.
  repeat split; assumption.
Qed.

Lemma well_formed_power_on incoming : well_formed (power_on incoming).
Proof.
  unfold well_formed, power_on; simpl.
  split; [exists (chr "0"), (chr "0"), (chr "0"), 0x9B; reflexivity|].
  split; [exists (chr "0"), (chr "0"), (chr "0"), 0x98; reflexivity|].
  split; [exists (chr "0"), (chr "0"), 0xDF; reflexivity|].
  exists (chr "0"), (chr "0"), 0xDC; reflexivity.
Qed.

(** Patching keeps the array an image of its initialiser. *)
Lemma temperature_patch_cells init XXX d10 d :
  length init = 33%nat ->
  temperature_cells init XXX ->
  temperature_cells init (temperature_patch XXX d10 d).
Proof.
  intros Hinit Hc.
  pose proof (temperature_cells_length _ _ Hc) as Hlen. rewrite Hinit in Hlen.
  destruct (temperature_patch_unfold XXX d10 d Hlen) as (_ & _ & _ & ->).
  destruct Hc as (a & b & c & e & ->).
  do 33 (destruct init as [|? init]; [discriminate Hinit|]).
  destruct init; [|discriminate Hinit].
  destruct (_ =? chr "0"); simpl; unfold temperature_cells; simpl;
    do 4 eexists; reflexivity.
Qed.

Lemma humidity_patch_cells init XXX h :
  length init = 30%nat ->
  humidity_cells init XXX ->
  humidity_cells init (humidity_patch XXX h).
Proof.
  intros Hinit Hc.
  pose proof (humidity_cells_length _ _ Hc) as Hlen. rewrite Hinit in Hlen.
  destruct (humidity_patch_unfold XXX h Hlen) as (_ & _ & _ & ->).
  destruct Hc as (a & b & e & ->).
  do 30 (destruct init as [|? init]; [discriminate Hinit|]).
  destruct init; [|discriminate Hinit].
  destruct (_ =? chr "0"); simpl; unfold humidity_cells; simpl;
    do 3 eexists; reflexivity.
Qed.

(** One turn of [loop] with usable readings: the five frames, in order. *)
Lemma loop_effect fuel hum deg s d10 d h :
  well_formed s ->
  int_of_float (float_mul deg (float_of_int 10)) = Some d10 ->
  int_of_float deg = Some d ->
  int_of_float hum = Some h ->
  enough fuel s ->
  exists s',
    loop fuel hum deg s = Ret tt s'
    /\ wire (log s') =
       wire (log s) ++ ClearTemperature_XXX
         ++ temperature_patch (XXX_UpdateTemperature s) d10 d
         ++ ClearHumidity_XXX
         ++ humidity_patch (XXX_UpdateHumidity s) h
         ++ UpdateScreen_XXX
    /\ XXX_UpdateTemperature s' = temperature_patch (XXX_UpdateTemperature s) d10 d
    /\ XXX_UpdateHumidity s' = humidity_patch (XXX_UpdateHumidity s) h
    /\ XXX_ShowTemperature s' = XXX_ShowTemperature s
    /\ XXX_ShowHumidity s' = XXX_ShowHumidity s
    /\ (length (rx s') <= length (rx s))%nat
    /\ clock s + 2500 <= clock s' <= clock s + 5000.
Proof.
  intros Hwf Hd10 Hd Hh Hfuel.
  destruct (well_formed_lengths s Hwf) as (HsT & HuT & HsH & HuH).
  unfold loop. unfold bind at 1. unfold delay.
  set (s0 := record (EvDelay MIN_READ_PERIOD) (set_clock (clock s + MIN_READ_PERIOD) s)).
  cbv zeta.
  rewrite (int_of_float_not_nan _ _ Hh), (int_of_float_not_nan _ _ Hd).
  cbn [orb].
  destruct (UpdateTemperature_effect fuel deg s0 d10 d HuT Hd10 Hd Hfuel)
    as (s1 & Hrun1 & Hw1 & HT1 & HsT1 & HsH1 & HuH1 & Hr1 & Hc1).
  destruct (UpdateHumidity_effect fuel hum s1 h) as
      (s2 & Hrun2 & Hw2 & HH2 & HsT2 & HsH2 & HuT2 & Hr2 & Hc2);
    [rewrite HuH1; exact HuH | exact Hh
     | unfold enough in *; simpl in Hr1; lia |].
  destruct (UpdateScreen_effect fuel s2) as (s3 & Hrun3 & Hw3 & Hx3 & Hr3 & Hc3);
    [unfold enough in *; simpl in Hr1; lia |].
  exists s3.
  rewrite (bind_Ret _ _ _ _ _ Hrun1), (bind_Ret _ _ _ _ _ Hrun2).
  split; [exact Hrun3|].
  split.
  { rewrite Hw3, Hw2, Hw1, HuH1. simpl log. rewrite wire_app. simpl wire.
    rewrite app_nil_r. rewrite <- !app_assoc. reflexivity. }
  split; [exact (eq_trans (Hx3 InUpdateTemperature) (eq_trans HuT2 HT1))|].
  split; [exact (eq_trans (Hx3 InUpdateHumidity)
                   (eq_trans HH2 (f_equal (fun b => humidity_patch b h) HuH1)))|].
  split; [exact (eq_trans (Hx3 InShowTemperature) (eq_trans HsT2 HsT1))|].
  split; [exact (eq_trans (Hx3 InShowHumidity) (eq_trans HsH2 HsH1))|].
  simpl in Hr1, Hc1. unfold MIN_READ_PERIOD in *. split; lia.
Qed.

Lemma loop_well_formed fuel hum deg s d10 d h s' :
  well_formed s ->
  XXX_UpdateTemperature s' = temperature_patch (XXX_UpdateTemperature s) d10 d ->
  XXX_UpdateHumidity s' = humidity_patch (XXX_UpdateHumidity s) h ->
  XXX_ShowTemperature s' = XXX_ShowTemperature s ->
  XXX_ShowHumidity s' = XXX_ShowHumidity s ->
  loop fuel hum deg s = Ret tt s' ->
  well_formed s'.
Proof.
  intros (H1 & H2 & H3 & H4) HT HH HsT HsH _. unfold well_formed.
  rewrite HT, HH, HsT, HsH.
  split; [exact H1|].
  split; [apply temperature_patch_cells; [reflexivity | exact H2]|].
  split; [exact H3|].
  apply humidity_patch_cells; [reflexivity | exact H4].
Qed.

Lemma temperature_patch_length XXX d10 d :
  length XXX = 33%nat -> length (temperature_patch XXX d10 d) = 33%nat.
Proof.
  intros Hlen.
  destruct (temperature_patch_unfold XXX d10 d Hlen) as (H4 & _ & _ & ->).
  rewrite length_insert. exact H4.
Qed.

Lemma humidity_patch_length XXX h :
  length XXX = 30%nat -> length (humidity_patch XXX h) = 30%nat.
Proof.
  intros Hlen.
  destruct (humidity_patch_unfold XXX h Hlen) as (H3 & _ & _ & ->).
  rewrite length_insert. exact H3.
Qed.

(** Patching a second time with the same digits changes nothing: every cell
    the function reads back was written by it first. *)
Lemma temperature_patch_idem XXX d10 d :
  length XXX = 33%nat ->
  temperature_patch (temperature_patch XXX d10 d) d10 d = temperature_patch XXX d10 d.
Proof.
  intros Hlen.
  pose proof (temperature_patch_length XXX d10 d Hlen) as Hlen'.
  destruct (temperature_patch_unfold _ d10 d Hlen') as (_ & _ & _ & ->).
  destruct (temperature_patch_unfold XXX d10 d Hlen) as (_ & _ & _ & ->).
  generalize (to_uchar (Z.rem (Z.quot d 10) 10 + chr "0")) as tens.
  generalize (to_uchar (Z.rem d 10 + chr "0")) as ones.
  generalize (to_uchar (Z.rem d10 10 + chr "0")) as tenths.
  generalize (to_uchar (chr " ")) as blank.
  intros blank tenths ones tens.
  do 33 (destruct XXX as [|? XXX]; [discriminate Hlen|]).
  destruct XXX; [|discriminate Hlen].
  destruct (tens =? chr "0"); reflexivity.
Qed.

Lemma humidity_patch_idem XXX h :
  length XXX = 30%nat ->
  humidity_patch (humidity_patch XXX h) h = humidity_patch XXX h.
Proof.
  intros Hlen.
  pose proof (humidity_patch_length XXX h Hlen) as Hlen'.
  destruct (humidity_patch_unfold _ h Hlen') as (_ & _ & _ & ->).
  destruct (humidity_patch_unfold XXX h Hlen) as (_ & _ & _ & ->).
  generalize (to_uchar (Z.rem (Z.quot h 10) 10 + chr "0")) as tens.
  generalize (to_uchar (Z.rem h 10 + chr "0")) as ones.
  generalize (to_uchar (chr " ")) as blank.
  intros blank ones tens.
  do 30 (destruct XXX as [|? XXX]; [discriminate Hlen|]).
  destruct XXX; [|discriminate Hlen].
  destruct (tens =? chr "0"); reflexivity.
Qed.

(** ** More on WaitResponse *)

Lemma WaitResponse_unfold fuel minWaitTime maxWaitTime s :
  WaitResponse fuel minWaitTime maxWaitTime s =
  WaitResponse_while fuel maxWaitTime 0 0 (delayed minWaitTime s).
Proof.
  unfold WaitResponse, delayed, bind.
  destruct (0 <? minWaitTime); reflexivity.
Qed.

Lemma idles_delayed minWaitTime s : idles s (delayed minWaitTime s).
Proof.
  unfold delayed. destruct (0 <? minWaitTime); [apply idles_delay | apply idles_refl].
Qed.

Lemma clock_delayed minWaitTime s :
  0 <= minWaitTime -> clock (delayed minWaitTime s) = clock s + minWaitTime.
Proof.
  intros H. unfold delayed. destruct (0 <? minWaitTime) eqn:E; simpl; lia.
Qed.

Lemma WaitResponse_ends_after_delay fuel minWaitTime maxWaitTime s :
  0 <= minWaitTime ->
  0 < maxWaitTime < 2 ^ 32 ->
  (Z.to_nat maxWaitTime + length (rx s) <= fuel)%nat ->
  exists r s',
    WaitResponse fuel minWaitTime maxWaitTime s = Ret r s'
    /\ idles (delayed minWaitTime s) s'
    /\ clock s + minWaitTime <= clock s' <= clock s + minWaitTime + maxWaitTime.
Proof.
  intros Hmin Hmax Hfuel. rewrite WaitResponse_unfold.
  destruct (WaitResponse_while_ends fuel maxWaitTime 0 0 (delayed minWaitTime s) Hmax)
    as (r & s' & Hrun & Hid & Hck).
  { lia. }
  { replace (rx (delayed minWaitTime s)) with (rx s); [lia|].
    unfold delayed. destruct (0 <? minWaitTime); reflexivity. }
  exists r, s'. split; [exact Hrun|]. split; [exact Hid|].
  rewrite clock_delayed in Hck by exact Hmin. lia.
Qed.

Lemma quiet_not_arrived T s :
  quiet_until T s -> clock s <= T -> Serial.arrived s = false.
Proof.
  unfold quiet_until, Serial.arrived.
  destruct (rx s) as [|[t b] rest]; [reflexivity|].
  intros Hq Hc. apply Z.leb_gt. lia.
Qed.

Lemma ticked_S n s :
  ticked n (record (EvDelay 1) (set_clock (clock (record (EvAvail false) s) + 1)
                                  (record (EvAvail false) s)))
  = ticked (S n) s.
Proof.
  unfold ticked. simpl. f_equal; [lia|].
  rewrite <- !app_assoc. reflexivity.
Qed.

Lemma ticked_O s : ticked 0 s = s.
Proof.
  destruct s. unfold ticked. simpl. rewrite Z.add_0_r, app_nil_r. reflexivity.
Qed.

(** On a quiet link the loop sleeps until [timer] reaches [maxWaitTime] and
    answers 0. *)
Lemma WaitResponse_while_quiet :
  forall n fuel maxWaitTime timer s,
    0 < maxWaitTime < 2 ^ 32 ->
    0 <= timer ->
    maxWaitTime - timer = Z.of_nat n ->
    (n <= fuel)%nat ->
    quiet_until (clock s + Z.of_nat n - 1) s ->
    WaitResponse_while fuel maxWaitTime 0 timer s = Ret 0 (ticked n s).
Proof.
  induction n as [|n IH]; intros fuel maxWaitTime timer s Hmax Htimer Hn Hfuel Hq.
  - assert (timer = maxWaitTime) by lia. subst timer.
    rewrite ticked_O.
    destruct fuel; simpl; rewrite Z.ltb_irrefl;
      replace (maxWaitTime =? 0) with false by lia; reflexivity.
  - destruct fuel as [|fuel]; [lia|].
    cbn [WaitResponse_while].
    replace (timer <? maxWaitTime) with true by lia. cbn [Z.eqb andb orb].
    unfold bind at 1. unfold Serial.available.
    rewrite (quiet_not_arrived _ s Hq) by lia.
    unfold bind at 1. unfold delay.
    replace (to_ulong (timer + 1)) with (timer + 1)
      by (unfold to_ulong; rewrite Z.mod_small; lia).
    rewrite IH; [rewrite ticked_S; reflexivity | lia | lia | lia | lia |].
    unfold quiet_until in *. simpl.
    destruct (rx s) as [|[t b] rest]; [exact I | lia].
Qed.

(** With [maxWaitTime] 0 and an empty link, no budget of iterations is
    enough: the loop never ends. *)
Lemma WaitResponse_while_forever :
  forall fuel timer s,
    rx s = [] -> WaitResponse_while fuel 0 0 timer s = OutOfFuel.
Proof.
  induction fuel as [|fuel IH]; intros timer s Hrx.
  - simpl. rewrite orb_true_r. reflexivity.
  - cbn [WaitResponse_while]. cbn [Z.eqb]. rewrite orb_true_r. cbn [andb].
    unfold bind at 1. unfold Serial.available, Serial.arrived. rewrite Hrx.
    unfold bind at 1. unfold delay.
    apply IH. simpl. exact Hrx.
Qed.


(** ** The digits *)

Lemma to_uchar_digit n : 0 <= n < 10 -> to_uchar (n + chr "0") = chr "0" + n.
Proof.
  intros H. unfold to_uchar. change (chr "0") with 48.
  rewrite Z.mod_small; lia.
Qed.

Lemma digit_is_zero n : 0 <= n < 10 -> (chr "0" + n =? chr "0") = (n =? 0).
Proof. intros H. change (chr "0") with 48. lia. Qed.

Lemma temperature_patch_digits XXX d10 d :
  length XXX = 33%nat ->
  0 <= d10 ->
  0 <= d ->
  temperature_patch XXX d10 d !! 23%nat = Some (digit_or_blank ((d / 10) mod 10))
  /\ temperature_patch XXX d10 d !! 24%nat = Some (digit (d mod 10))
  /\ temperature_patch XXX d10 d !! 26%nat = Some (digit (d10 mod 10)).
Proof.
  intros Hlen H10 Hd.
  destruct (temperature_patch_unfold XXX d10 d Hlen) as (_ & _ & _ & ->).
  rewrite Z.quot_div_nonneg by lia.
  rewrite !Z.rem_mod_nonneg by (first [lia | apply Z.div_pos; lia]).
  rewrite !to_uchar_digit by (apply Z.mod_pos_bound; lia).
  rewrite digit_is_zero by (apply Z.mod_pos_bound; lia).
  unfold digit_or_blank, digit.
  do 33 (destruct XXX as [|? XXX]; [discriminate Hlen|]).
  destruct XXX; [|discriminate Hlen].
  destruct ((d / 10) mod 10 =? 0); repeat split; reflexivity.
Qed.

Lemma humidity_patch_digits XXX h :
  length XXX = 30%nat ->
  0 <= h ->
  humidity_patch XXX h !! 22%nat = Some (digit_or_blank ((h / 10) mod 10))
  /\ humidity_patch XXX h !! 23%nat = Some (digit (h mod 10)).
Proof.
  intros Hlen Hh.
  destruct (humidity_patch_unfold XXX h Hlen) as (_ & _ & _ & ->).
  rewrite Z.quot_div_nonneg by lia.
  rewrite !Z.rem_mod_nonneg by (first [lia | apply Z.div_pos; lia]).
  rewrite !to_uchar_digit by (apply Z.mod_pos_bound; lia).
  rewrite digit_is_zero by (apply Z.mod_pos_bound; lia).
  unfold digit_or_blank, digit.
  do 30 (destruct XXX as [|? XXX]; [discriminate Hlen|]).
  destruct XXX; [|discriminate Hlen].
  destruct ((h / 10) mod 10 =? 0); repeat split; reflexivity.
Qed.

Lemma format_temperature_digits fuel deg s d10 d :
  well_formed s ->
  enough fuel s ->
  int_of_float (float_mul deg (float_of_int 10)) = Some d10 ->
  int_of_float deg = Some d ->
  0 <= d10 ->
  0 <= d ->
  format_temperature fuel deg s
  = Some (digit_or_blank ((d / 10) mod 10), digit (d mod 10), digit (d10 mod 10)).
Proof.
  intros Hwf Hfuel Hd10 Hd H10 H0.
  destruct (well_formed_lengths s Hwf) as (_ & HuT & _ & _).
  destruct (UpdateTemperature_effect fuel deg s d10 d HuT Hd10 Hd Hfuel)
    as (s' & Hrun & _ & HT & _).
  destruct (temperature_patch_digits _ d10 d HuT H10 H0) as (H23 & H24 & H26).
  unfold format_temperature. rewrite Hrun. cbv zeta.
  rewrite HT, H23, H24, H26. reflexivity.
Qed.

Lemma format_humidity_digits fuel hum s h :
  well_formed s ->
  enough fuel s ->
  int_of_float hum = Some h ->
  0 <= h ->
  format_humidity fuel hum s
  = Some (digit_or_blank ((h / 10) mod 10), digit (h mod 10)).
Proof.
  intros Hwf Hfuel Hh H0.
  destruct (well_formed_lengths s Hwf) as (_ & _ & _ & HuH).
  destruct (UpdateHumidity_effect fuel hum s h HuH Hh Hfuel)
    as (s' & Hrun & _ & HH & _).
  destruct (humidity_patch_digits _ h HuH H0) as (H22 & H23).
  unfold format_humidity. rewrite Hrun. cbv zeta.
  rewrite HH, H22, H23. reflexivity.
Qed.


(** ** ClearResponse and setup *)

(** Emptying the receive buffer ends once every byte that has arrived is
    read; bytes still on their way stay. *)
Lemma ClearResponse_ends :
  forall fuel s,
    (length (rx s) <= fuel)%nat ->
    exists s',
      ClearResponse fuel s = Ret tt s'
      /\ idles s s'
      /\ clock s' = clock s
      /\ Serial.arrived s' = false.
Proof.
  induction fuel as [|fuel IH]; intros s Hfuel.
  - destruct (rx s) as [|p rest] eqn:Hrx; [|simpl in Hfuel; lia].
    exists (record (EvAvail false) s).
    assert (Harr : Serial.arrived s = false)
      by (unfold Serial.arrived; rewrite Hrx; reflexivity).
    cbn [ClearResponse]. unfold bind, Serial.available. rewrite Harr.
    split; [reflexivity|]. split; [apply idles_avail|].
    split; [reflexivity|]. unfold Serial.arrived. simpl. rewrite Hrx. reflexivity.
  - cbn [ClearResponse]. unfold bind at 1. unfold Serial.available.
    destruct (Serial.arrived s) eqn:Harr.
    + destruct (arrived_inv s Harr) as (t & b & rest & Hrx & Ht).
      unfold bind at 1. unfold Serial.read. simpl rx. rewrite Hrx.
      simpl clock. rewrite Ht.
      destruct (IH (record (EvRead b) (set_rx rest (record (EvAvail true) s))))
        as (s' & Hrun & Hid & Hck & Hnone).
      { simpl. rewrite Hrx in Hfuel. simpl in Hfuel. lia. }
      exists s'. split; [exact Hrun|].
      split; [|split; [exact Hck | exact Hnone]].
      eapply idles_trans; [apply (idles_avail true)|].
      eapply idles_trans; [apply (idles_read b t rest); exact Hrx | exact Hid].
    + exists (record (EvAvail false) s).
      split; [reflexivity|]. split; [apply idles_avail|].
      split; [reflexivity | exact Harr].
Qed.

(** After [setup] nothing that reached the board during the first two
    seconds is left in the receive buffer, and nothing was sent. *)
Lemma setup_flushes fuel incoming :
  (length incoming <= fuel)%nat ->
  exists s',
    setup fuel (power_on incoming) = Ret tt s'
    /\ clock s' = 2000
    /\ wire (log s') = []
    /\ Serial.arrived s' = false
    /\ well_formed s'.
Proof.
  intros Hfuel. unfold setup. unfold bind at 1. unfold delay.
  set (s0 := record (EvDelay 2000) (set_clock (clock (power_on incoming) + 2000)
                                       (power_on incoming))).
  destruct (ClearResponse_ends fuel s0) as (s' & Hrun & Hid & Hck & Hnone);
    [exact Hfuel|].
  exists s'. split; [exact Hrun|]. split; [exact Hck|].
  destruct Hid as (Hx & Hw & _).
  split; [exact Hw|]. split; [exact Hnone|].
  destruct (well_formed_power_on incoming) as (W1 & W2 & W3 & W4).
  unfold well_formed.
  change (XXX_ShowTemperature s') with (static_get InShowTemperature s').
  change (XXX_UpdateTemperature s') with (static_get InUpdateTemperature s').
  change (XXX_ShowHumidity s') with (static_get InShowHumidity s').
  change (XXX_UpdateHumidity s') with (static_get InUpdateHumidity s').
  rewrite !Hx.
  split; [exact W1|]. split; [exact W2|]. split; [exact W3 | exact W4].
Qed.

(** ** Rounding in binary32: the conversions of a reading in range *)

Lemma digits2_pos_bounds p :
  2 ^ (Z.pos (digits2_pos p) - 1) <= Z.pos p < 2 ^ Z.pos (digits2_pos p).
Proof.
  induction p as [p IH|p IH|]; cbn [digits2_pos].
  - rewrite Pos2Z.inj_succ.
    replace (Z.succ (Z.pos (digits2_pos p)) - 1) with (Z.succ (Z.pos (digits2_pos p) - 1)) by lia.
    rewrite !Z.pow_succ_r by lia. lia.
  - rewrite Pos2Z.inj_succ.
    replace (Z.succ (Z.pos (digits2_pos p)) - 1) with (Z.succ (Z.pos (digits2_pos p) - 1)) by lia.
    rewrite !Z.pow_succ_r by lia. lia.
  - simpl. lia.
Qed.

Lemma shr_1_m mrs : 0 <= shr_m mrs -> shr_m (shr_1 mrs) = shr_m mrs / 2.
Proof.
  destruct mrs as [m r s]. cbn [shr_m]. intros Hm.
  destruct m as [|[p|p|]|p]; cbn [shr_1 shr_m]; try lia.
  - reflexivity.
  - apply Z.div_unique with (r := 1); lia.
  - apply Z.div_unique with (r := 0); lia.
  - reflexivity.
Qed.

Lemma iter_pos_shr_1_m :
  forall n mrs, 0 <= shr_m mrs ->
    shr_m (SpecFloat.iter_pos shr_1 n mrs) = shr_m mrs / 2 ^ Z.pos n.
Proof.
  assert (Hpow : forall k, 0 < 2 ^ Z.pos k).
  { intros k. apply Z.pow_pos_nonneg; lia. }
  assert (Hnn : forall m k, 0 <= m -> 0 <= m / 2 ^ Z.pos k).
  { intros m k Hm. apply Z.div_pos; [exact Hm | apply Hpow]. }
  induction n as [n IH|n IH|]; intros mrs Hm; cbn [SpecFloat.iter_pos].
  - assert (H1 : shr_m (shr_1 mrs) = shr_m mrs / 2) by (apply shr_1_m; exact Hm).
    assert (H1' : 0 <= shr_m (shr_1 mrs)) by (rewrite H1; apply Z.div_pos; lia).
    assert (H2 := IH _ H1').
    assert (H2' : 0 <= shr_m (SpecFloat.iter_pos shr_1 n (shr_1 mrs)))
      by (rewrite H2; apply Hnn; exact H1').
    rewrite (IH _ H2'), H2, H1.
    pose proof (Hpow n) as Hn.
    rewrite !Z.div_div by lia.
    f_equal. rewrite <- Z.pow_add_r by lia.
    change 2 with (2 ^ 1) at 1. rewrite <- Z.pow_add_r by lia. f_equal. lia.
  - assert (H2 := IH _ Hm).
    assert (H2' : 0 <= shr_m (SpecFloat.iter_pos shr_1 n mrs)) by (rewrite H2; apply Hnn; exact Hm).
    rewrite (IH _ H2'), H2.
    pose proof (Hpow n) as Hn.
    rewrite !Z.div_div by lia.
    f_equal. rewrite <- Z.pow_add_r by lia. f_equal. lia.
  - apply shr_1_m. exact Hm.
Qed.

(** The two cases of [shr_fexp] on a non-negative mantissa. *)
Lemma shr_fexp_cases prec emax m e :
  0 <= m ->
  let n := fexp prec emax (Zdigits2 m + e) - e in
  let '(mrs, e') := shr_fexp prec emax m e loc_Exact in
  (n <= 0 /\ shr_m mrs = m /\ e' = e)
  \/ (0 < n /\ shr_m mrs = m / 2 ^ n /\ e' = e + n).
Proof.
  intros Hm n. unfold shr_fexp. fold n. unfold shr. cbn [shr_record_of_loc].
  destruct n as [|p|p] eqn:Hn.
  - left. cbn [shr_m]. lia.
  - right. split; [lia|]. split; [|reflexivity].
    apply iter_pos_shr_1_m. exact Hm.
  - left. cbn [shr_m]. lia.
Qed.

Lemma Zdigits2_bounds m :
  0 < m -> 2 ^ (Zdigits2 m - 1) <= m < 2 ^ Zdigits2 m.
Proof.
  destruct m as [|p|p]; [lia | intros _ | lia].
  apply digits2_pos_bounds.
Qed.

Lemma Zdigits2_le m k : 0 <= k -> 0 <= m <= 2 ^ k -> Zdigits2 m <= k + 1.
Proof.
  intros Hk Hm.
  destruct (Z.eq_dec m 0) as [-> | Hnz]; [simpl; lia|].
  destruct (Zdigits2_bounds m ltac:(lia)) as [Hlo _].
  destruct (Z.le_gt_cases (Zdigits2 m) (k + 1)) as [H|H]; [exact H|].
  exfalso.
  assert (2 ^ (k + 1) <= 2 ^ (Zdigits2 m - 1)) by (apply Z.pow_le_mono_r; lia).
  rewrite Z.pow_add_r in H0 by lia. lia.
Qed.

(** A product that is below 2^11 in value, rounded to binary32, is zero or a
    finite number whose mantissa is at most 2^24 and whose exponent is at
    most -12. *)
Lemma binary_round_aux_small sx m e :
  0 <= m ->
  e <= -13 ->
  Zdigits2 m + e <= 11 ->
  match binary_round_aux 24 128 sx m e loc_Exact with
  | S754_zero s => s = sx
  | S754_finite s m' e' => s = sx /\ Z.pos m' <= 2 ^ 24 /\ e' <= -12
  | _ => False
  end.
Proof.
  intros Hm He Hd. unfold binary_round_aux.
  pose proof (shr_fexp_cases 24 128 m e Hm) as H1. cbv zeta in H1.
  destruct (shr_fexp 24 128 m e loc_Exact) as [mrs1 e1].
  set (m2 := round_nearest_even (shr_m mrs1) (loc_of_shr_record mrs1)).
  assert (Hfexp : forall z, fexp 24 128 z = Z.max (z - 24) (-149)) by reflexivity.
  rewrite Hfexp in H1.
  assert (H1m : 0 <= shr_m mrs1 < 2 ^ 24 /\ e1 <= -13).
  { destruct H1 as [(Hn & -> & ->) | (Hn & -> & ->)].
    - split; [|exact He]. split; [exact Hm|].
      destruct (Z.eq_dec m 0) as [-> | Hnz]; [lia|].
      destruct (Zdigits2_bounds m ltac:(lia)) as [_ Hhi].
      eapply Z.lt_le_trans; [exact Hhi|]. apply Z.pow_le_mono_r; lia.
    - split; [|lia]. split; [apply Z.div_pos; [exact Hm | apply Z.pow_pos_nonneg; lia]|].
      apply Z.div_lt_upper_bound; [apply Z.pow_pos_nonneg; lia|].
      destruct (Z.eq_dec m 0) as [-> | Hnz];
        [apply Z.mul_pos_pos; apply Z.pow_pos_nonneg; lia|].
      destruct (Zdigits2_bounds m ltac:(lia)) as [_ Hhi].
      eapply Z.lt_le_trans; [exact Hhi|].
      rewrite <- Z.pow_add_r by lia. apply Z.pow_le_mono_r; lia. }
  destruct H1m as (Hm1 & He1).
  assert (Hm2 : 0 <= m2 <= 2 ^ 24).
  { subst m2. unfold round_nearest_even.
    destruct (loc_of_shr_record mrs1) as [|[]]; try destruct (Z.even _); lia. }
  pose proof (shr_fexp_cases 24 128 m2 e1 ltac:(lia)) as H2. cbv zeta in H2.
  destruct (shr_fexp 24 128 m2 e1 loc_Exact) as [mrs2 e2].
  rewrite Hfexp in H2.
  pose proof (Zdigits2_le m2 24 ltac:(lia) Hm2) as Hd2.
  assert (H2m : 0 <= shr_m mrs2 <= 2 ^ 24 /\ e2 <= -12).
  { destruct H2 as [(Hn & -> & ->) | (Hn & -> & ->)].
    - split; lia.
    - split; [|lia].
      split; [apply Z.div_pos; [lia | apply Z.pow_pos_nonneg; lia]|].
      apply Z.le_trans with m2; [|lia].
      apply Z.div_le_upper_bound; [apply Z.pow_pos_nonneg; lia|].
      assert (1 <= 2 ^ (Z.max (Zdigits2 m2 + e1 - 24) (-149) - e1))
        by (apply Z.lt_pred_le, Z.pow_pos_nonneg; lia).
      nia. }
  destruct H2m as (Hm3 & He3).
  destruct (shr_m mrs2) as [|p|p]; [reflexivity | | lia].
  replace (e2 <=? 128 - 24) with true by lia.
  split; [reflexivity|]. split; lia.
Qed.

Lemma int_part_below_100 m e :
  Z.pos m < 2 ^ 24 ->
  e <= -17 ->
  (e = -17 -> Z.pos m < 13107200) ->
  exists d, int_of_float (S754_finite false m e) = Some d /\ 0 <= d < 100.
Proof.
  intros Hm He H17. unfold int_of_float.
  replace (0 <=? e) with false by lia.
  rewrite Z.quot_div_nonneg by (try apply Z.lt_le_incl, Z.pow_pos_nonneg; lia).
  assert (Ha : 0 <= Z.pos m / 2 ^ (- e) < 100).
  { split; [apply Z.div_pos; [lia | apply Z.pow_pos_nonneg; lia]|].
    apply Z.div_lt_upper_bound; [apply Z.pow_pos_nonneg; lia|].
    destruct (Z.eq_dec e (-17)) as [-> | Hne].
    - change (2 ^ (- -17)) with 131072. specialize (H17 eq_refl). lia.
    - assert (2 ^ 18 <= 2 ^ (- e)) by (apply Z.pow_le_mono_r; lia).
      change (2 ^ 24) with (2 ^ 18 * 64) in Hm. nia. }
  unfold INT_MIN, INT_MAX.
  replace ((-32768 <=? Z.pos m / 2 ^ (- e)) && (Z.pos m / 2 ^ (- e) <=? 32767))
    with true by lia.
  eexists. split; [reflexivity | exact Ha].
Qed.

Lemma Zdigits2_lt m k : 0 <= k -> 0 <= m < 2 ^ k -> Zdigits2 m <= k.
Proof.
  intros Hk Hm.
  destruct (Z.eq_dec m 0) as [-> | Hnz]; [simpl; lia|].
  destruct (Zdigits2_bounds m ltac:(lia)) as [Hlo _].
  destruct (Z.le_gt_cases (Zdigits2 m) k) as [H|H]; [exact H|].
  exfalso.
  assert (2 ^ k <= 2 ^ (Zdigits2 m - 1)) by (apply Z.pow_le_mono_r; lia).
  lia.
Qed.

(** A finite number with mantissa at most 2^24 and exponent at most -12 has
    an integer part that fits an [int]. *)
Lemma int_of_float_small s m e :
  Z.pos m <= 2 ^ 24 ->
  e <= -12 ->
  exists v, int_of_float (S754_finite s m e) = Some v
            /\ (s = false -> 0 <= v <= 4096).
Proof.
  intros Hm He. unfold int_of_float.
  replace (0 <=? e) with false by lia.
  rewrite Z.quot_div_nonneg by (try apply Z.lt_le_incl, Z.pow_pos_nonneg; lia).
  assert (Ha : 0 <= Z.pos m / 2 ^ (- e) <= 4096).
  { split; [apply Z.div_pos; [lia | apply Z.pow_pos_nonneg; lia]|].
    apply Z.div_le_upper_bound; [apply Z.pow_pos_nonneg; lia|].
    assert (2 ^ 12 <= 2 ^ (- e)) by (apply Z.pow_le_mono_r; lia).
    change (2 ^ 24) with (2 ^ 12 * 4096) in Hm. nia. }
  unfold INT_MIN, INT_MAX.
  destruct s.
  - eexists. split; [|discriminate].
    replace ((-32768 <=? - (Z.pos m / 2 ^ (- e))) && (- (Z.pos m / 2 ^ (- e)) <=? 32767))
      with true by lia.
    reflexivity.
  - eexists. split; [|intros _; exact Ha].
    replace ((-32768 <=? Z.pos m / 2 ^ (- e)) && (Z.pos m / 2 ^ (- e) <=? 32767))
      with true by lia.
    reflexivity.
Qed.

Lemma SFltb_finite_inv m e m2 e2 :
  SFltb (S754_finite false m e) (S754_finite false m2 e2) = true ->
  e < e2 \/ (e = e2 /\ Z.pos m < Z.pos m2).
Proof.
  unfold SFltb, SFcompare.
  destruct (Z.compare_spec e e2) as [Heq|Hl|Hg]; [|left; exact Hl|discriminate].
  intros H. right. split; [exact Heq|].
  destruct (PosDef.Pos.compare_cont Eq m m2) eqn:E; try discriminate H.
  exact E.
Qed.

(** Every reading in the intended range can be converted: [(int)deg] and
    [(int)(deg * 10)] are defined and not negative. *)
Lemma in_range_conversions x :
  in_range x ->
  exists d10 d,
    int_of_float (float_mul x (float_of_int 10)) = Some d10
    /\ int_of_float x = Some d
    /\ 0 <= d10 <= 4096
    /\ 0 <= d < 100.
Proof.
  intros (Hvalid & Hle & Hlt).
  destruct x as [s|s| |s m e].
  - exists 0, 0. destruct s; repeat split; reflexivity || lia.
  - destruct s; [discriminate Hle | discriminate Hlt].
  - discriminate Hle.
  - destruct s; [discriminate Hle|]. clear Hle.
    change (float_of_int 100) with (S754_finite false 13107200 (-17)) in Hlt.
    apply SFltb_finite_inv in Hlt.
    cbn [valid_binary] in Hvalid. unfold bounded, canonical_mantissa in Hvalid.
    apply andb_prop in Hvalid. destruct Hvalid as [Hcan _].
    apply Z.eqb_eq in Hcan.
    change (fexp 24 128 (Z.pos (digits2_pos m) + e))
      with (Z.max (Z.pos (digits2_pos m) + e - 24) (-149)) in Hcan.
    destruct (digits2_pos_bounds m) as [_ Hhi].
    assert (Hm24 : Z.pos m < 2 ^ 24).
    { eapply Z.lt_le_trans; [exact Hhi|]. apply Z.pow_le_mono_r; lia. }
    assert (He : e <= -17) by lia.
    assert (Hm100 : e = -17 -> Z.pos m < 13107200) by lia.
    clear Hlt Hcan Hhi.
    destruct (int_part_below_100 m e Hm24 He Hm100) as (d & Hd & Hdr).
    change (float_mul (S754_finite false m e) (float_of_int 10))
      with (binary_round_aux 24 128 false (Z.pos (m * 10485760)) (e + -20) loc_Exact).
    pose proof (binary_round_aux_small false (Z.pos (m * 10485760)) (e + -20)) as Hr.
    assert (Hprod : Zdigits2 (Z.pos (m * 10485760)) + (e + -20) <= 11).
    { pose proof (Zdigits2_lt (Z.pos (m * 10485760)) 48) as Hd48.
      rewrite Pos2Z.inj_mul in *.
      change (2 ^ 48) with (2 ^ 24 * 16777216) in Hd48. lia. }
    specialize (Hr ltac:(lia) ltac:(lia) Hprod).
    destruct (binary_round_aux 24 128 false (Z.pos (m * 10485760)) (e + -20) loc_Exact)
      as [s'|s'| |s' m' e']; try contradiction.
    + exists 0, d. repeat split; try assumption; try reflexivity; lia.
    + destruct Hr as (-> & Hm' & He').
      destruct (int_of_float_small false m' e' Hm' He') as (v & Hv & Hvr).
      specialize (Hvr eq_refl).
      exists v, d. repeat split; try assumption; lia.
Qed.

(** The first thing the loop does is poll: with a positive [maxWaitTime] the
    events of the loop begin with [Serial.available()]. *)
Lemma WaitResponse_while_first_poll fuel maxWaitTime s :
  0 < maxWaitTime < 2 ^ 32 ->
  (Z.to_nat maxWaitTime + length (rx s) <= fuel)%nat ->
  exists r s' evs,
    WaitResponse_while fuel maxWaitTime 0 0 s = Ret r s'
    /\ log s' = log s ++ EvAvail (Serial.arrived s) :: evs.
Proof.
  intros Hmax Hfuel.
  destruct fuel as [|fuel]; [lia|].
  cbn [WaitResponse_while].
  replace (0 <? maxWaitTime) with true by lia. cbn [Z.eqb andb orb].
  unfold bind at 1. unfold Serial.available.
  destruct (Serial.arrived s) eqn:Harr.
  - destruct (arrived_inv s Harr) as (t & b & rest & Hrx & Ht).
    unfold bind at 1. unfold Serial.read. simpl rx. rewrite Hrx.
    simpl clock. rewrite Ht.
    set (s1 := record (EvRead b) (set_rx rest (record (EvAvail true) s))).
    destruct ((to_uchar b =? ACK) || (to_uchar b =? NAK)).
    + exists (to_uchar b), s1, [EvRead b]. split; [reflexivity|].
      subst s1. simpl. rewrite <- app_assoc. reflexivity.
    + destruct (WaitResponse_while_ends fuel maxWaitTime (to_uchar b) 0 s1 Hmax)
        as (r & s' & Hrun & Hid & _).
      { lia. }
      { subst s1. simpl. rewrite Hrx in Hfuel. simpl in Hfuel. lia. }
      destruct Hid as (_ & _ & _ & _ & (evs & Hlog)).
      exists r, s', (EvRead b :: evs). split; [exact Hrun|].
      rewrite Hlog. subst s1. simpl. rewrite <- !app_assoc. reflexivity.
  - unfold bind at 1. unfold delay.
    set (s1 := record (EvDelay 1)
                 (set_clock (clock (record (EvAvail false) s) + 1)
                    (record (EvAvail false) s))).
    replace (to_ulong (0 + 1)) with 1 by reflexivity.
    destruct (WaitResponse_while_ends fuel maxWaitTime 0 1 s1 Hmax)
      as (r & s' & Hrun & Hid & _).
    { lia. }
    { subst s1. simpl. lia. }
    destruct Hid as (_ & _ & _ & _ & (evs & Hlog)).
    exists r, s', (EvDelay 1 :: evs). split; [exact Hrun|].
    rewrite Hlog. subst s1. simpl. rewrite <- !app_assoc. reflexivity.
Qed.

(** The decimal inputs used below, as binary32 numbers: 18.5, 45 and 5 are
    exact, 7.83 and 23.05 are the nearest numbers below them. *)
Lemma decimal_inputs :
  float_of_ratio 185 10 = S754_finite false 9699328 (-19)
  /\ float_of_ratio 783 100 = S754_finite false 16420700 (-21)
  /\ float_of_ratio 2305 100 = S754_finite false 12084838 (-19)
  /\ float_of_ratio 450 10 = S754_finite false 11796480 (-18)
  /\ float_of_ratio 50 10 = S754_finite false 10485760 (-21)
  /\ 9699328 * 10 = 185 * 2 ^ 19
  /\ 16420700 * 100 < 783 * 2 ^ 21 < 16420701 * 100
  /\ 12084838 * 100 < 2305 * 2 ^ 19 < 12084839 * 100
  /\ 11796480 = 45 * 2 ^ 18
  /\ 10485760 = 5 * 2 ^ 21.
Proof.
  repeat split; vm_compute; reflexivity.
Qed.

(** * Main theorems *)

(** C1. Every command frame the sketch transmits carries its checksum.  One
    turn of [loop] with usable readings puts exactly five frames on the link:
    the 16-byte clear-temperature frame, the 33-byte temperature frame with
    its digits patched, the 16-byte clear-humidity frame, the 30-byte
    humidity frame with its digits patched and the 20-byte flip frame.  In
    each of them the byte at offset length-2 is the sum modulo 256 of the
    bytes at offsets 0 to length-3, which is also what [CheckSum] computes
    for that frame.  The board is left in a state from which the next turn
    does the same. *)
Theorem transmitted_frames_carry_checksum fuel hum deg s d10 d h :
  well_formed s ->
  int_of_float (float_mul deg (float_of_int 10)) = Some d10 ->
  int_of_float deg = Some d ->
  int_of_float hum = Some h ->
  enough fuel s ->
  exists s' fT fH,
    loop fuel hum deg s = Ret tt s'
    /\ wire (log s') =
       wire (log s) ++ ClearTemperature_XXX ++ fT ++ ClearHumidity_XXX ++ fH
         ++ UpdateScreen_XXX
    /\ (length ClearTemperature_XXX = 16 /\ length fT = 33
        /\ length ClearHumidity_XXX = 16 /\ length fH = 30
        /\ length UpdateScreen_XXX = 20)%nat
    /\ (frame_ok ClearTemperature_XXX /\ frame_ok fT
        /\ frame_ok ClearHumidity_XXX /\ frame_ok fH
        /\ frame_ok UpdateScreen_XXX)
    /\ well_formed s'.
Proof.
  intros Hwf Hd10 Hd Hh Hfuel.
  destruct (well_formed_lengths s Hwf) as (_ & HuT & _ & HuH).
  destruct (loop_effect fuel hum deg s d10 d h Hwf Hd10 Hd Hh Hfuel)
    as (s' & Hrun & Hw & HT & HH & HsT & HsH & _ & _).
  exists s', (temperature_patch (XXX_UpdateTemperature s) d10 d),
    (humidity_patch (XXX_UpdateHumidity s) h).
  split; [exact Hrun|]. split; [exact Hw|].
  pose proof (temperature_patch_ok _ d10 d HuT) as HokT.
  pose proof (humidity_patch_ok _ h HuH) as HokH.
  split.
  { split; [reflexivity|]. split.
    { destruct (temperature_patch_unfold _ d10 d HuT) as (H4 & _ & _ & ->).
      rewrite length_insert. exact H4. }
    split; [reflexivity|]. split; [|reflexivity].
    destruct (humidity_patch_unfold _ h HuH) as (H3 & _ & _ & ->).
    rewrite length_insert. exact H3. }
  split.
  { split; [apply ClearTemperature_XXX_ok|]. split; [exact HokT|].
    split; [apply ClearHumidity_XXX_ok|]. split; [exact HokH|].
    apply UpdateScreen_XXX_ok. }
  eapply loop_well_formed; eassumption.
Qed.

Lemma transmitted_frames_carry_checksum_witness :
  exists s' fT fH,
    loop 500 (float_of_ratio 45 1) (float_of_ratio 185 10) (power_on []) = Ret tt s'
    /\ wire (log s') =
       wire (log (power_on [])) ++ ClearTemperature_XXX ++ fT
         ++ ClearHumidity_XXX ++ fH ++ UpdateScreen_XXX
    /\ (length ClearTemperature_XXX = 16 /\ length fT = 33
        /\ length ClearHumidity_XXX = 16 /\ length fH = 30
        /\ length UpdateScreen_XXX = 20)%nat
    /\ (frame_ok ClearTemperature_XXX /\ frame_ok fT
        /\ frame_ok ClearHumidity_XXX /\ frame_ok fH
        /\ frame_ok UpdateScreen_XXX)
    /\ well_formed s'.
Proof.
  apply (transmitted_frames_carry_checksum 500 (float_of_ratio 45 1)
           (float_of_ratio 185 10) (power_on []) 185 18 45).
  - apply well_formed_power_on.
  - vm_compute; reflexivity.
  - vm_compute; reflexivity.
  - vm_compute; reflexivity.
  - unfold enough; simpl; lia.
Defined.

(** Two calls in a row, for any value the conversions accept. *)
Lemma UpdateTemperature_twice fuel deg s d10 d :
  well_formed s ->
  int_of_float (float_mul deg (float_of_int 10)) = Some d10 ->
  int_of_float deg = Some d ->
  enough fuel s ->
  exists s1 s2 F,
    UpdateTemperature fuel deg s = Ret tt s1
    /\ UpdateTemperature fuel deg s1 = Ret tt s2
    /\ length F = 33%nat
    /\ wire (log s1) = wire (log s) ++ ClearTemperature_XXX ++ F
    /\ wire (log s2) = wire (log s1) ++ ClearTemperature_XXX ++ F
    /\ XXX_UpdateTemperature s2 = XXX_UpdateTemperature s1.
Proof.
  intros Hwf Hd10 Hd Hfuel.
  destruct (well_formed_lengths s Hwf) as (_ & HuT & _ & _).
  destruct (UpdateTemperature_effect fuel deg s d10 d HuT Hd10 Hd Hfuel)
    as (s1 & Hrun1 & Hw1 & HT1 & _ & _ & _ & Hr1 & _).
  pose proof (temperature_patch_length _ d10 d HuT) as HlenF.
  destruct (UpdateTemperature_effect fuel deg s1 d10 d) as
      (s2 & Hrun2 & Hw2 & HT2 & _); [rewrite HT1; exact HlenF | exact Hd10
      | exact Hd | unfold enough in *; lia |].
  rewrite HT1, temperature_patch_idem in Hw2, HT2 by exact HuT.
  exists s1, s2, (temperature_patch (XXX_UpdateTemperature s) d10 d).
  split; [exact Hrun1|]. split; [exact Hrun2|]. split; [exact HlenF|].
  split; [exact Hw1|]. split; [exact Hw2|].
  rewrite HT2, HT1. reflexivity.
Qed.

(** C8. For every value in the intended range (a binary32 number from 0 up
    to, not including, 100), calling UpdateTemperature twice with that value
    puts the same pair of frames on the link both times: the clear frame and
    the patched 33-byte frame.  The first call leaves its digits and checksum
    in the static array; the second call overwrites every one of those cells
    before it sends, so nothing of the first call shows in the bytes of the
    second. *)
Theorem UpdateTemperature_twice_same_frames fuel deg s :
  in_range deg ->
  well_formed s ->
  enough fuel s ->
  exists s1 s2 F,
    UpdateTemperature fuel deg s = Ret tt s1
    /\ UpdateTemperature fuel deg s1 = Ret tt s2
    /\ length F = 33%nat
    /\ wire (log s1) = wire (log s) ++ ClearTemperature_XXX ++ F
    /\ wire (log s2) = wire (log s1) ++ ClearTemperature_XXX ++ F
    /\ XXX_UpdateTemperature s2 = XXX_UpdateTemperature s1.
Proof.
  intros Hrange Hwf Hfuel.
  destruct (in_range_conversions deg Hrange) as (d10 & d & Hd10 & Hd & _ & _).
  exact (UpdateTemperature_twice fuel deg s d10 d Hwf Hd10 Hd Hfuel).
Qed.

Lemma UpdateTemperature_twice_same_frames_witness :
  exists s1 s2 F,
    UpdateTemperature 500 (float_of_ratio 235 10) (power_on []) = Ret tt s1
    /\ UpdateTemperature 500 (float_of_ratio 235 10) s1 = Ret tt s2
    /\ length F = 33%nat
    /\ wire (log s1) = wire (log (power_on [])) ++ ClearTemperature_XXX ++ F
    /\ wire (log s2) = wire (log s1) ++ ClearTemperature_XXX ++ F
    /\ XXX_UpdateTemperature s2 = XXX_UpdateTemperature s1.
Proof.
  apply (UpdateTemperature_twice_same_frames 500 (float_of_ratio 235 10)
           (power_on [])).
  - repeat split; vm_compute; reflexivity.
  - apply well_formed_power_on.
  - unfold enough; simpl; lia.
Defined.

(** C4. With positive [minWaitTime] and [maxWaitTime], WaitResponse first
    sleeps [minWaitTime]: whatever the link carries, the events of the call
    begin with that delay, the first poll comes right after it, and the call
    returns no earlier than [minWaitTime] after it was entered.  If no byte
    reaches the receive buffer during the wait, the call makes exactly
    [maxWaitTime] polls, each followed by a one-millisecond sleep, and
    returns 0, the timeout code, which is neither ACK nor NAK. *)
Theorem WaitResponse_predelay_then_timeout fuel minWaitTime maxWaitTime s :
  0 < minWaitTime ->
  0 < maxWaitTime < 2 ^ 32 ->
  (Z.to_nat maxWaitTime + length (rx s) <= fuel)%nat ->
  (exists r s' yes evs,
      WaitResponse fuel minWaitTime maxWaitTime s = Ret r s'
      /\ log s' = log s ++ EvDelay minWaitTime :: EvAvail yes :: evs
      /\ clock s + minWaitTime <= clock s')
  /\ (quiet_until (clock s + minWaitTime + maxWaitTime - 1) s ->
      exists s',
        WaitResponse fuel minWaitTime maxWaitTime s = Ret 0 s'
        /\ log s' = log s ++ EvDelay minWaitTime :: ticks (Z.to_nat maxWaitTime)
        /\ elapsed (ticks (Z.to_nat maxWaitTime)) = maxWaitTime
        /\ clock s' = clock s + minWaitTime + maxWaitTime
        /\ rx s' = rx s
        /\ 0 <> ACK /\ 0 <> NAK).
Proof.
  intros Hmin Hmax Hfuel.
  assert (Hd : delayed minWaitTime s
               = record (EvDelay minWaitTime) (set_clock (clock s + minWaitTime) s)).
  { unfold delayed. replace (0 <? minWaitTime) with true by lia. reflexivity. }
  split.
  - destruct (WaitResponse_ends_after_delay fuel minWaitTime maxWaitTime s)
      as (r & s' & Hrun & _ & Hck); [lia | exact Hmax | exact Hfuel |].
    destruct (WaitResponse_while_first_poll fuel maxWaitTime (delayed minWaitTime s))
      as (r' & s'' & evs & Hrun' & Hlog); [exact Hmax | rewrite Hd; exact Hfuel |].
    rewrite WaitResponse_unfold in Hrun. rewrite Hrun in Hrun'.
    injection Hrun' as <- <-.
    exists r, s', (Serial.arrived (delayed minWaitTime s)), evs.
    split; [rewrite WaitResponse_unfold; exact Hrun|]. split; [|lia].
    rewrite Hlog. rewrite Hd at 1. simpl. rewrite <- app_assoc. reflexivity.
  - intros Hq.
    exists (ticked (Z.to_nat maxWaitTime) (delayed minWaitTime s)).
    split.
    + rewrite WaitResponse_unfold.
      apply WaitResponse_while_quiet; [exact Hmax | lia | lia | lia |].
      rewrite Hd. unfold quiet_until in *. simpl.
      destruct (rx s) as [|[t b] rest]; [exact I | lia].
    + rewrite Hd. simpl. rewrite <- app_assoc.
      split; [reflexivity|].
      assert (Hticks : forall n, elapsed (ticks n) = Z.of_nat n).
      { induction n as [|n IH]; [reflexivity|].
        cbn [ticks elapsed]. rewrite IH. lia. }
      split; [rewrite Hticks; lia|]. split; [lia|].
      split; [reflexivity|]. split; discriminate.
Qed.

Lemma WaitResponse_predelay_then_timeout_witness :
  (exists r s' yes evs,
      WaitResponse 500 100 500 (power_on []) = Ret r s'
      /\ log s' = EvDelay 100 :: EvAvail yes :: evs
      /\ 100 <= clock s')
  /\ (exists s',
        WaitResponse 500 100 500 (power_on []) = Ret 0 s'
        /\ log s' = EvDelay 100 :: ticks 500
        /\ clock s' = 600).
Proof.
  destruct (WaitResponse_predelay_then_timeout 500 100 500 (power_on []))
    as [H1 H2]; [lia | lia | simpl; lia |].
  split; [exact H1|].
  destruct (H2 I) as (s' & Hrun & Hlog & _ & Hck & _).
  exists s'. split; [exact Hrun|]. split; [exact Hlog | exact Hck].
Defined.

(** C5. A command send is a frame write followed by WaitResponse.  For every
    incoming byte stream and every positive [maxWaitTime] it returns, and the
    time it kept the caller, counted in milliseconds of [delay], lies between
    [minWaitTime] and [minWaitTime + maxWaitTime].  With [maxWaitTime] 0 it
    may never return: on an empty link no number of iterations ends the
    loop. *)
Theorem command_send_blocks_bounded fuel frame count minWaitTime maxWaitTime s :
  0 <= count <= Z.of_nat (length frame) ->
  0 <= minWaitTime ->
  0 < maxWaitTime < 2 ^ 32 ->
  (Z.to_nat maxWaitTime + length (rx s) <= fuel)%nat ->
  (exists r s',
      (WriteCommand frame count ;;; WaitResponse fuel minWaitTime maxWaitTime) s
      = Ret r s'
      /\ clock s + minWaitTime <= clock s' <= clock s + minWaitTime + maxWaitTime
      /\ clock s' - clock s = elapsed (log s') - elapsed (log s))
  /\ (forall fuel' s0,
        rx s0 = [] ->
        (WriteCommand frame count ;;; WaitResponse fuel' minWaitTime 0) s0
        = OutOfFuel).
Proof.
  intros Hcount Hmin Hmax Hfuel. split.
  - rewrite (bind_Ret _ _ _ _ _ (WriteCommand_run frame count s Hcount)).
    set (s0 := sent (take (Z.to_nat count) frame) s).
    destruct (WaitResponse_ends fuel minWaitTime maxWaitTime s0 Hmin Hmax)
      as (r & s' & Hrun & Hid & Hck); [subst s0; simpl; lia|].
    exists r, s'. split; [exact Hrun|].
    destruct Hid as (_ & _ & _ & Hel & _).
    subst s0. simpl in *. split; [lia|].
    rewrite Hel, elapsed_app.
    replace (elapsed (map EvWrite (take (Z.to_nat count) frame))) with 0; [lia|].
    generalize (take (Z.to_nat count) frame) as bs.
    induction bs as [|b bs IH]; simpl; [reflexivity | exact IH].
  - intros fuel' s0 Hrx.
    rewrite (bind_Ret _ _ _ _ _ (WriteCommand_run frame count s0 Hcount)).
    rewrite WaitResponse_unfold.
    apply WaitResponse_while_forever.
    unfold delayed. destruct (0 <? minWaitTime); simpl; exact Hrx.
Qed.

Lemma command_send_blocks_bounded_witness :
  (exists r s',
      (WriteCommand ClearTemperature_XXX 16 ;;; WaitResponse 502 100 500)
        (power_on [(130, 0x00); (140, ACK)])
      = Ret r s'
      /\ clock (power_on [(130, 0x00); (140, ACK)]) + 100 <= clock s'
         <= clock (power_on [(130, 0x00); (140, ACK)]) + 100 + 500
      /\ clock s' - clock (power_on [(130, 0x00); (140, ACK)])
         = elapsed (log s') - elapsed (log (power_on [(130, 0x00); (140, ACK)])))
  /\ (forall fuel' s0,
        rx s0 = [] ->
        (WriteCommand ClearTemperature_XXX 16 ;;; WaitResponse fuel' 100 0) s0
        = OutOfFuel).
Proof.
  apply (command_send_blocks_bounded 502 ClearTemperature_XXX 16 100 500
           (power_on [(130, 0x00); (140, ACK)]));
    [simpl; lia | lia | lia | simpl; lia].
Defined.

(** C10. The value WaitResponse returns is not confined to ACK, NAK and 0.
    When the first byte in the receive buffer after the pre-delay is nonzero
    and neither ACK nor NAK, the call reads it, ends at once (one poll, no
    polling sleep, every later byte left unread) and returns that very
    byte. *)
Theorem WaitResponse_returns_other_byte fuel minWaitTime maxWaitTime s t b rest :
  0 <= minWaitTime ->
  0 <= maxWaitTime ->
  rx s = (t, b) :: rest ->
  t <= clock s + minWaitTime ->
  0 < b < 256 ->
  b <> ACK ->
  b <> NAK ->
  exists s',
    WaitResponse (S fuel) minWaitTime maxWaitTime s = Ret b s'
    /\ b <> ACK /\ b <> NAK /\ b <> 0
    /\ rx s' = rest
    /\ clock s' = clock s + minWaitTime
    /\ log s' = log (delayed minWaitTime s) ++ [EvAvail true; EvRead b].
Proof.
  intros Hmin Hmax Hrx Ht Hb HnA HnN.
  rewrite WaitResponse_unfold.
  set (s0 := delayed minWaitTime s).
  assert (Hrx0 : rx s0 = (t, b) :: rest).
  { subst s0. unfold delayed. destruct (0 <? minWaitTime); simpl; exact Hrx. }
  assert (Hc0 : clock s0 = clock s + minWaitTime).
  { subst s0. apply clock_delayed. exact Hmin. }
  assert (Harr : Serial.arrived s0 = true).
  { unfold Serial.arrived. rewrite Hrx0. apply Z.leb_le. lia. }
  cbn [WaitResponse_while].
  replace ((0 <? maxWaitTime) || (maxWaitTime =? 0)) with true by lia.
  cbn [Z.eqb andb].
  unfold bind at 1. unfold Serial.available. rewrite Harr.
  unfold bind at 1. unfold Serial.read. simpl rx. rewrite Hrx0.
  simpl clock. replace (t <=? clock s0) with true by lia.
  assert (Hu : to_uchar b = b) by (unfold to_uchar; apply Z.mod_small; lia).
  rewrite Hu.
  replace (b =? ACK) with false by lia. replace (b =? NAK) with false by lia.
  cbn [orb].
  assert (Hstop : forall s1, WaitResponse_while fuel maxWaitTime b 0 s1 = Ret b s1).
  { intros s1. destruct fuel; simpl; replace (b =? 0) with false by lia; reflexivity. }
  rewrite Hstop.
  eexists. split; [reflexivity|].
  split; [exact HnA|]. split; [exact HnN|]. split; [lia|].
  split; [reflexivity|]. split; [simpl; exact Hc0|].
  simpl. rewrite <- app_assoc. reflexivity.
Qed.

Lemma WaitResponse_returns_other_byte_witness :
  exists s',
    WaitResponse 1 100 500 (power_on [(20, 0x41); (20, ACK)]) = Ret 0x41 s'
    /\ 0x41 <> ACK /\ 0x41 <> NAK /\ 0x41 <> 0
    /\ rx s' = [(20, ACK)]
    /\ clock s' = clock (power_on [(20, 0x41); (20, ACK)]) + 100
    /\ log s' = log (delayed 100 (power_on [(20, 0x41); (20, ACK)]))
                  ++ [EvAvail true; EvRead 0x41].
Proof.
  apply (WaitResponse_returns_other_byte 0 100 500
           (power_on [(20, 0x41); (20, ACK)]) 20 0x41 [(20, ACK)]);
    [lia | lia | reflexivity | simpl; lia | lia | discriminate | discriminate].
Defined.

(** C3, at the input where the sketch departs from it.  The link delivers
    the byte 0x41, which is neither ACK nor NAK, and then ACK.  WaitResponse
    does not discard 0x41 and poll on: it returns 0x41 and leaves ACK unread
    in the receive buffer.  Only a byte 0x00 is skipped, as the second
    equation shows. *)
Theorem WaitResponse_noise_then_ACK :
  (exists s',
      WaitResponse 600 100 500 (power_on [(0, 0x41); (0, ACK)]) = Ret 0x41 s'
      /\ rx s' = [(0, ACK)]
      /\ 0x41 <> ACK)
  /\ (exists s',
      WaitResponse 600 100 500 (power_on [(0, 0x00); (0, ACK)]) = Ret ACK s'
      /\ rx s' = []).
Proof.
  split; eexists; (split; [vm_compute; reflexivity|]);
    [split; [reflexivity | discriminate] | reflexivity].
Qed.

(** C6. UpdateTemperature(18.5) sends exactly two frames, in this order: the
    fixed 16-byte clear-temperature frame, then the 33-byte temperature
    frame with the digit cells 23, 24 and 26 holding '1', '8' and '5' and
    with cell 31 holding CheckSum of its first 31 bytes.  After each frame
    comes WaitResponse(100, 500): the board the function returns is the one
    the second wait returns, the second wait starts from the board the first
    wait returned once the patched frame is written, and the events of each
    wait begin with the 100 ms delay. *)
Theorem UpdateTemperature_18_5 fuel s :
  well_formed s ->
  enough fuel s ->
  exists r1 s1 r2 s2 F e1 e2,
    WaitResponse fuel 100 500 (sent ClearTemperature_XXX s) = Ret r1 s1
    /\ WaitResponse fuel 100 500
         (sent F (static_set InUpdateTemperature F s1)) = Ret r2 s2
    /\ UpdateTemperature fuel (float_of_ratio 185 10) s = Ret tt s2
    /\ log s2 = log s ++ map EvWrite ClearTemperature_XXX ++ EvDelay 100 :: e1
                  ++ map EvWrite F ++ EvDelay 100 :: e2
    /\ wire e1 = [] /\ wire e2 = []
    /\ wire (log s2) = wire (log s) ++ ClearTemperature_XXX ++ F
    /\ ClearTemperature_XXX =
       [0x01; 0x10; 0x02; 0x04; 0x41; 0x00; 0x87; 0x00; 0x50; 0x01; 0xDB; 0x01;
        0x10; 0x0A; 0x26; 0x0D]
    /\ F =
       [0x01; 0x21; 0x02; 0x04; 0x31; 0x10; 0x00; 0x00; 0x87; 0x00; 0x50; 0xFF;
        0xFF; 0xFF; 0x00; 0x00; 0x00; chr "T"; chr "e"; chr "m"; chr "p";
        chr ":"; chr " "; chr "1"; chr "8"; chr "."; chr "5"; chr " "; chr "c";
        chr " "; 0x0A; 0xA6; 0x0D]
    /\ F !! 23%nat = Some (chr "1")
    /\ F !! 24%nat = Some (chr "8")
    /\ F !! 26%nat = Some (chr "5")
    /\ CheckSum F 31 = F !! 31%nat.
Proof.
  intros Hwf Hfuel.
  destruct (well_formed_lengths s Hwf) as (_ & HuT & _ & _).
  assert (Hd10 : int_of_float (float_mul (float_of_ratio 185 10) (float_of_int 10))
                 = Some 185) by (vm_compute; reflexivity).
  assert (Hd : int_of_float (float_of_ratio 185 10) = Some 18)
    by (vm_compute; reflexivity).
  destruct (UpdateTemperature_run fuel _ s 185 18 HuT Hd10 Hd Hfuel)
    as (r1 & s1 & r2 & s2 & Hw1 & Hw2 & Hrun & Hid1 & Hid2 & _ & _).
  cbv zeta in Hw2, Hid2.
  assert (HF : temperature_patch (XXX_UpdateTemperature s) 185 18 =
       [0x01; 0x21; 0x02; 0x04; 0x31; 0x10; 0x00; 0x00; 0x87; 0x00; 0x50; 0xFF;
        0xFF; 0xFF; 0x00; 0x00; 0x00; chr "T"; chr "e"; chr "m"; chr "p";
        chr ":"; chr " "; chr "1"; chr "8"; chr "."; chr "5"; chr " "; chr "c";
        chr " "; 0x0A; 0xA6; 0x0D]).
  { destruct Hwf as (_ & (a & b & c & e & ->) & _). vm_compute. reflexivity. }
  set (F := temperature_patch (XXX_UpdateTemperature s) 185 18) in *.
  pose proof (WaitResponse_ends_after_delay fuel 100 500
                (sent ClearTemperature_XXX s)) as Hlog1.
  destruct Hlog1 as (r1' & s1' & Hw1' & Hd1 & _); [lia | lia | simpl; exact Hfuel |].
  rewrite Hw1 in Hw1'. injection Hw1' as <- <-.
  destruct Hd1 as (_ & Hwire1 & _ & _ & (e1 & He1)).
  pose proof (idles_sent _ _ _ Hid1) as (_ & _ & Hrx1).
  match type of Hw2 with
  | WaitResponse _ _ _ ?b = _ =>
      pose proof (WaitResponse_ends_after_delay fuel 100 500 b) as Hlog2
  end.
  destruct Hlog2 as (r2' & s2' & Hw2' & Hd2 & _);
    [lia | lia | unfold enough in Hfuel; simpl; lia |].
  rewrite Hw2 in Hw2'. injection Hw2' as <- <-.
  destruct Hd2 as (_ & Hwire2 & _ & _ & (e2 & He2)).
  exists r1, s1, r2, s2, F, e1, e2.
  split; [exact Hw1|]. split; [exact Hw2|]. split; [exact Hrun|].
  cbn [delayed Z.ltb Z.compare] in He1, He2, Hwire1, Hwire2.
  simpl log in He1, He2, Hwire1, Hwire2.
  split; [rewrite He2, He1; rewrite <- !app_assoc; reflexivity|].
  rewrite He1 in Hwire1. rewrite He2 in Hwire2.
  rewrite !wire_app in Hwire1, Hwire2. simpl wire in Hwire1, Hwire2.
  rewrite !app_nil_r in Hwire1, Hwire2.
  split; [eapply app_inv_head; rewrite app_nil_r; exact Hwire1|].
  split; [eapply app_inv_head; rewrite app_nil_r; exact Hwire2|].
  split.
  { destruct (idles_sent _ _ _ Hid2) as (_ & Hws2 & _).
    destruct (idles_sent _ _ _ Hid1) as (_ & Hws1 & _).
    rewrite Hws2. simpl log. rewrite Hws1, <- app_assoc. reflexivity. }
  split; [reflexivity|]. split; [exact HF|].
  rewrite HF. split; [reflexivity|]. split; [reflexivity|]. split; reflexivity.
Qed.

Lemma UpdateTemperature_18_5_witness :
  exists r1 s1 r2 s2 F e1 e2,
    WaitResponse 500 100 500 (sent ClearTemperature_XXX (power_on [])) = Ret r1 s1
    /\ WaitResponse 500 100 500
         (sent F (static_set InUpdateTemperature F s1)) = Ret r2 s2
    /\ UpdateTemperature 500 (float_of_ratio 185 10) (power_on []) = Ret tt s2
    /\ log s2 = log (power_on []) ++ map EvWrite ClearTemperature_XXX
                  ++ EvDelay 100 :: e1 ++ map EvWrite F ++ EvDelay 100 :: e2
    /\ wire e1 = [] /\ wire e2 = []
    /\ wire (log s2) = wire (log (power_on [])) ++ ClearTemperature_XXX ++ F
    /\ ClearTemperature_XXX =
       [0x01; 0x10; 0x02; 0x04; 0x41; 0x00; 0x87; 0x00; 0x50; 0x01; 0xDB; 0x01;
        0x10; 0x0A; 0x26; 0x0D]
    /\ F =
       [0x01; 0x21; 0x02; 0x04; 0x31; 0x10; 0x00; 0x00; 0x87; 0x00; 0x50; 0xFF;
        0xFF; 0xFF; 0x00; 0x00; 0x00; chr "T"; chr "e"; chr "m"; chr "p";
        chr ":"; chr " "; chr "1"; chr "8"; chr "."; chr "5"; chr " "; chr "c";
        chr " "; 0x0A; 0xA6; 0x0D]
    /\ F !! 23%nat = Some (chr "1")
    /\ F !! 24%nat = Some (chr "8")
    /\ F !! 26%nat = Some (chr "5")
    /\ CheckSum F 31 = F !! 31%nat.
Proof.
  apply (UpdateTemperature_18_5 500 (power_on []));
    [apply well_formed_power_on | unfold enough; simpl; lia].
Defined.

(** C7, as the sketch has it.  The digits are taken by truncation, and only
    the tens place is blanked: for a non-negative reading the tens cell holds
    a space when the tens digit of the truncated value is 0 and that digit
    otherwise, and the ones and tenths cells always hold a digit.  Formatting
    7.83 gives tens ' ', ones '7', tenths '8'; formatting 23.05 gives '2',
    '3', '0'; humidity 45.0 gives '4', '5'; humidity 5.0 gives ' ', '5'. *)
Theorem digits_by_truncation fuel s :
  well_formed s ->
  enough fuel s ->
  (forall deg d10 d,
      int_of_float (float_mul deg (float_of_int 10)) = Some d10 ->
      int_of_float deg = Some d ->
      0 <= d10 ->
      0 <= d ->
      format_temperature fuel deg s
      = Some (digit_or_blank ((d / 10) mod 10), digit (d mod 10),
              digit (d10 mod 10)))
  /\ (forall hum h,
      int_of_float hum = Some h ->
      0 <= h ->
      format_humidity fuel hum s
      = Some (digit_or_blank ((h / 10) mod 10), digit (h mod 10)))
  /\ format_temperature fuel (float_of_ratio 783 100) s
     = Some (chr " ", chr "7", chr "8")
  /\ format_temperature fuel (float_of_ratio 2305 100) s
     = Some (chr "2", chr "3", chr "0")
  /\ format_humidity fuel (float_of_ratio 450 10) s = Some (chr "4", chr "5")
  /\ format_humidity fuel (float_of_ratio 50 10) s = Some (chr " ", chr "5").
Proof.
  intros Hwf Hfuel.
  split; [intros; apply format_temperature_digits; assumption|].
  split; [intros; apply format_humidity_digits; assumption|].
  split.
  { rewrite (format_temperature_digits fuel _ s 78 7 Hwf Hfuel);
      [reflexivity | vm_compute; reflexivity | vm_compute; reflexivity | lia | lia]. }
  split.
  { rewrite (format_temperature_digits fuel _ s 230 23 Hwf Hfuel);
      [reflexivity | vm_compute; reflexivity | vm_compute; reflexivity | lia | lia]. }
  split.
  { rewrite (format_humidity_digits fuel _ s 45 Hwf Hfuel);
      [reflexivity | vm_compute; reflexivity | lia]. }
  rewrite (format_humidity_digits fuel _ s 5 Hwf Hfuel);
    [reflexivity | vm_compute; reflexivity | lia].
Qed.

Lemma digits_by_truncation_witness :
  format_temperature 500 (float_of_ratio 783 100) (power_on [])
  = Some (chr " ", chr "7", chr "8")
  /\ format_temperature 500 (float_of_ratio 2305 100) (power_on [])
     = Some (chr "2", chr "3", chr "0")
  /\ format_humidity 500 (float_of_ratio 450 10) (power_on [])
     = Some (chr "4", chr "5")
  /\ format_humidity 500 (float_of_ratio 50 10) (power_on [])
     = Some (chr " ", chr "5").
Proof.
  destruct (digits_by_truncation 500 (power_on []))
    as (_ & _ & H1 & H2 & H3 & H4);
    [apply well_formed_power_on | unfold enough; simpl; lia |].
  split; [exact H1|]. split; [exact H2|]. split; [exact H3 | exact H4].
Defined.

(** C7 as stated fails: formatting 7.83 does not give tenths '3'.  The
    binary32 nearest to 7.83, times 10, truncates to 78, whose last digit
    is 8. *)
Lemma format_temperature_7_83_tenths_not_3 :
  float_of_ratio 783 100 = S754_finite false 16420700 (-21)
  /\ int_of_float (float_mul (float_of_ratio 783 100) (float_of_int 10)) = Some 78
  /\ format_temperature 500 (float_of_ratio 783 100) (power_on [])
     = Some (chr " ", chr "7", chr "8")
  /\ format_temperature 500 (float_of_ratio 783 100) (power_on [])
     <> Some (chr " ", chr "7", chr "3").
Proof.
  split; [vm_compute; reflexivity|].
  split; [vm_compute; reflexivity|].
  split; [vm_compute; reflexivity|].
  vm_compute. discriminate.
Qed.

(** C9. When the humidity or the temperature reading is not a number, the
    turn of [loop] is skipped: after the 2000 ms cadence delay the sketch
    prints one line of text and returns.  No command frame goes out (the
    text holds no 0x01, the byte every command frame starts with), nothing is
    read from the link, no wait is made and the static arrays are untouched.
    The board is ready for the next turn, which with usable readings sends
    its five frames. *)
Theorem loop_skips_turn_on_nan fuel hum deg s :
  isnan hum = true \/ isnan deg = true ->
  exists s',
    loop fuel hum deg s = Ret tt s'
    /\ log s' = log s ++ EvDelay MIN_READ_PERIOD :: map EvWrite diagnostic
    /\ wire (log s') = wire (log s) ++ diagnostic
    /\ Forall (fun b => b <> 0x01) diagnostic
    /\ (hd_error ClearTemperature_XXX = Some 0x01
        /\ hd_error ClearHumidity_XXX = Some 0x01
        /\ hd_error UpdateScreen_XXX = Some 0x01
        /\ hd_error UpdateTemperature_XXX = Some 0x01
        /\ hd_error UpdateHumidity_XXX = Some 0x01)
    /\ rx s' = rx s
    /\ (forall x, static_get x s' = static_get x s)
    /\ clock s' = clock s + MIN_READ_PERIOD
    /\ (forall hum' deg' d10 d h,
          well_formed s ->
          enough fuel s ->
          int_of_float (float_mul deg' (float_of_int 10)) = Some d10 ->
          int_of_float deg' = Some d ->
          int_of_float hum' = Some h ->
          exists s'' fT fH,
            loop fuel hum' deg' s' = Ret tt s''
            /\ wire (log s'') =
               wire (log s') ++ ClearTemperature_XXX ++ fT
                 ++ ClearHumidity_XXX ++ fH ++ UpdateScreen_XXX
            /\ length fT = 33%nat /\ length fH = 30%nat).
Proof.
  intros Hnan.
  assert (Hcond : isnan hum || isnan deg = true).
  { destruct Hnan as [-> | ->]; [reflexivity | apply orb_true_r]. }
  set (s0 := record (EvDelay MIN_READ_PERIOD) (set_clock (clock s + MIN_READ_PERIOD) s)).
  assert (Hprint : forall text s1, Serial.print text s1 = Ret tt (sent text s1)).
  { induction text as [|b text IH]; intros s1.
    - simpl. rewrite sent_nil. reflexivity.
    - simpl. unfold bind, Serial.write. rewrite IH, sent_cons. reflexivity. }
  exists (sent diagnostic s0).
  split.
  { unfold loop. unfold bind at 1. unfold delay. cbv zeta. rewrite Hcond.
    unfold Serial.println. apply Hprint. }
  change (log (sent diagnostic s0))
    with ((log s ++ [EvDelay MIN_READ_PERIOD]) ++ map EvWrite diagnostic).
  split; [rewrite <- app_assoc; reflexivity|].
  split; [rewrite !wire_app, wire_writes; cbn [wire]; rewrite app_nil_r;
          reflexivity|].
  split; [vm_compute; repeat constructor; discriminate|].
  split; [repeat split; reflexivity|].
  split; [reflexivity|].
  split; [intros []; reflexivity|].
  split; [reflexivity|].
  intros hum' deg' d10 d h Hwf Hfuel Hd10 Hd Hh.
  destruct (loop_effect fuel hum' deg' (sent diagnostic s0) d10 d h)
    as (s'' & Hrun & Hw & _); [exact Hwf | exact Hd10 | exact Hd | exact Hh
                               | exact Hfuel |].
  destruct (well_formed_lengths s Hwf) as (_ & HuT & _ & HuH).
  exists s'', (temperature_patch (XXX_UpdateTemperature s) d10 d),
    (humidity_patch (XXX_UpdateHumidity s) h).
  split; [exact Hrun|]. split; [exact Hw|].
  split; [apply temperature_patch_length; exact HuT
         | apply humidity_patch_length; exact HuH].
Qed.

Lemma loop_skips_turn_on_nan_witness :
  exists s',
    loop 500 S754_nan (float_of_ratio 185 10) (power_on [(0, ACK)]) = Ret tt s'
    /\ wire (log s') = diagnostic
    /\ rx s' = [(0, ACK)]
    /\ clock s' = 2000.
Proof.
  destruct (loop_skips_turn_on_nan 500 S754_nan (float_of_ratio 185 10)
              (power_on [(0, ACK)]))
    as (s' & Hrun & _ & Hw & _ & _ & Hrx & _ & Hck & _);
    [left; reflexivity|].
  exists s'. split; [exact Hrun|]. split; [exact Hw|].
  split; [exact Hrx | exact Hck].
Defined.

(** * Further properties *)

(** ** WaitResponse: when the answer comes *)

(** [k] polls on a link that stays quiet meanwhile: the loop sleeps [k]
    milliseconds and is back at its test, still allowed to go on. *)
Lemma WaitResponse_while_wait :
  forall k fuel maxWaitTime timer s,
    0 <= maxWaitTime < 2 ^ 32 ->
    0 <= timer ->
    maxWaitTime = 0 \/ timer + Z.of_nat k < maxWaitTime ->
    k = O \/ quiet_until (clock s + Z.of_nat k - 1) s ->
    exists timer',
      ((timer' <? maxWaitTime) || (maxWaitTime =? 0)) = true
      /\ WaitResponse_while (k + fuel) maxWaitTime 0 timer s
         = WaitResponse_while fuel maxWaitTime 0 timer' (ticked k s).
Proof.
  induction k as [|k IH]; intros fuel maxWaitTime timer s Hmax Htimer Hroom Hq.
  - exists timer. rewrite ticked_O. split; [|reflexivity].
    destruct Hroom as [-> | Hlt]; [apply orb_true_r|].
    replace (timer <? maxWaitTime) with true by lia. reflexivity.
  - destruct Hq as [Hk | Hq]; [discriminate Hk|].
    assert (Hcond : ((timer <? maxWaitTime) || (maxWaitTime =? 0)) = true).
    { destruct Hroom as [-> | Hlt]; [apply orb_true_r|].
      replace (timer <? maxWaitTime) with true by lia. reflexivity. }
    cbn [Nat.add WaitResponse_while]. rewrite Hcond. cbn [Z.eqb andb].
    unfold bind at 1. unfold Serial.available.
    rewrite (quiet_not_arrived _ s Hq) by lia.
    unfold bind at 1. unfold delay.
    assert (H0 : 0 <= to_ulong (timer + 1)).
    { unfold to_ulong. apply Z.mod_pos_bound. lia. }
    destruct (IH fuel maxWaitTime (to_ulong (timer + 1))
                (record (EvDelay 1)
                   (set_clock (clock (record (EvAvail false) s) + 1)
                      (record (EvAvail false) s))) Hmax H0)
      as (timer' & Hc' & Hrun).
    { destruct Hroom as [-> | Hlt]; [left; reflexivity | right].
      unfold to_ulong. rewrite Z.mod_small by lia. lia. }
    { destruct k as [|k]; [left; reflexivity | right].
      unfold quiet_until in *. simpl.
      destruct (rx s) as [|[t b] rest]; [exact I | lia]. }
    exists timer'. split; [exact Hc'|].
    rewrite Hrun, ticked_S. reflexivity.
Qed.

(** A nonzero value in [ret] ends the loop, whatever is left of the budget. *)
Lemma WaitResponse_while_stops fuel maxWaitTime ret timer s :
  ret <> 0 -> WaitResponse_while fuel maxWaitTime ret timer s = Ret ret s.
Proof.
  intros Hret. destruct fuel; simpl; replace (ret =? 0) with false by lia;
    reflexivity.
Qed.

Lemma rx_delayed minWaitTime s : rx (delayed minWaitTime s) = rx s.
Proof. unfold delayed. destruct (0 <? minWaitTime); reflexivity. Qed.

(** The first byte on the link is nonzero and arrives [k] milliseconds after
    polling starts (at once when it is already there): the call returns it
    at that moment and reads nothing else. *)
Lemma WaitResponse_answer fuel minWaitTime maxWaitTime s t b rest :
  0 <= minWaitTime ->
  0 <= maxWaitTime < 2 ^ 32 ->
  rx s = (t, b) :: rest ->
  to_uchar b <> 0 ->
  let k := Z.to_nat (t - (clock s + minWaitTime)) in
  maxWaitTime = 0 \/ Z.of_nat k < maxWaitTime ->
  (k < fuel)%nat ->
  WaitResponse fuel minWaitTime maxWaitTime s
  = Ret (to_uchar b)
        (record (EvRead b)
           (set_rx rest (record (EvAvail true) (ticked k (delayed minWaitTime s))))).
Proof.
  intros Hmin Hmax Hrx Hb k Hroom Hfuel.
  rewrite WaitResponse_unfold.
  set (s0 := delayed minWaitTime s).
  assert (Hrx0 : rx s0 = (t, b) :: rest) by (subst s0; rewrite rx_delayed; exact Hrx).
  assert (Hc0 : clock s0 = clock s + minWaitTime) by (apply clock_delayed; exact Hmin).
  replace fuel with (k + S (fuel - S k))%nat by lia.
  destruct (WaitResponse_while_wait k (S (fuel - S k)) maxWaitTime 0 s0 Hmax)
    as (timer' & Hcond & Hrun).
  { lia. }
  { destruct Hroom as [-> | Hlt]; [left; reflexivity | right; lia]. }
  { destruct k as [|k'] eqn:Hk; [left; reflexivity | right].
    unfold quiet_until. rewrite Hrx0. lia. }
  rewrite Hrun. cbn [WaitResponse_while]. rewrite Hcond. cbn [Z.eqb andb].
  assert (Harr : Serial.arrived (ticked k s0) = true).
  { unfold Serial.arrived. simpl. rewrite Hrx0. apply Z.leb_le. lia. }
  unfold bind at 1. unfold Serial.available. rewrite Harr.
  unfold bind at 1. unfold Serial.read. simpl rx. rewrite Hrx0.
  simpl clock. replace (t <=? clock s0 + Z.of_nat k) with true by lia.
  destruct ((to_uchar b =? ACK) || (to_uchar b =? NAK)); [reflexivity|].
  apply WaitResponse_while_stops. exact Hb.
Qed.

(** X1. WaitResponse returns the device's answer when it arrives.  If
    the next byte on the link is ACK or NAK and it reaches the receive buffer
    before the poll window closes (or at any time when [maxWaitTime] is 0),
    the call returns that byte, at the later of the end of the pre-delay and
    the byte's arrival, and every byte behind it stays unread. *)
Theorem WaitResponse_returns_answer_on_arrival
        fuel minWaitTime maxWaitTime s t b rest :
  0 <= minWaitTime ->
  0 <= maxWaitTime < 2 ^ 32 ->
  rx s = (t, b) :: rest ->
  b = ACK \/ b = NAK ->
  maxWaitTime = 0 \/ t < clock s + minWaitTime + maxWaitTime ->
  (Z.to_nat (t - (clock s + minWaitTime)) < fuel)%nat ->
  exists s',
    WaitResponse fuel minWaitTime maxWaitTime s = Ret b s'
    /\ clock s' = Z.max (clock s + minWaitTime) t
    /\ rx s' = rest
    /\ wire (log s') = wire (log s)
    /\ (forall x, static_get x s' = static_get x s).
Proof.
  intros Hmin Hmax Hrx Hb Hroom Hfuel.
  assert (Hu : to_uchar b = b) by (destruct Hb as [-> | ->]; reflexivity).
  assert (Hnz : to_uchar b <> 0) by (destruct Hb as [-> | ->]; discriminate).
  pose proof (WaitResponse_answer fuel minWaitTime maxWaitTime s t b rest
                Hmin Hmax Hrx Hnz) as Hrun.
  cbv zeta in Hrun. rewrite Hu in Hrun.
  eexists. split.
  { apply Hrun; [|exact Hfuel].
    destruct (Z.eq_dec maxWaitTime 0) as [Hz | Hnz0]; [left; exact Hz | right].
    destruct Hroom as [Hz | Hlt]; lia. }
  split; [simpl; rewrite clock_delayed by exact Hmin; lia|].
  split; [reflexivity|].
  split.
  { simpl. rewrite !wire_app. simpl.
    assert (Hticks : forall n, wire (ticks n) = [])
      by (induction n as [|n IH]; [reflexivity | exact IH]).
    rewrite Hticks, !app_nil_r.
    destruct (idles_delayed minWaitTime s) as (_ & Hw & _). exact Hw. }
  intros x. destruct (idles_delayed minWaitTime s) as (Hx & _).
  rewrite <- (Hx x). destruct x; reflexivity.
Qed.

Lemma WaitResponse_returns_answer_on_arrival_witness :
  exists s',
    WaitResponse 600 100 500 (power_on [(150, ACK); (700, 0x41)]) = Ret ACK s'
    /\ clock s' = 150
    /\ rx s' = [(700, 0x41)].
Proof.
  destruct (WaitResponse_returns_answer_on_arrival 600 100 500
              (power_on [(150, ACK); (700, 0x41)]) 150 ACK [(700, 0x41)])
    as (s' & Hrun & Hck & Hrx & _);
    [lia | lia | reflexivity | left; reflexivity | right; simpl; lia
     | simpl; lia |].
  exists s'. split; [exact Hrun|]. split; [exact Hck | exact Hrx].
Defined.

(** ** WaitResponse: what it reads and what it answers *)

Lemma WaitResponse_while_reads :
  forall fuel maxWaitTime timer s,
    0 < maxWaitTime < 2 ^ 32 ->
    0 <= timer <= maxWaitTime ->
    (Z.to_nat (maxWaitTime - timer) + length (rx s) <= fuel)%nat ->
    exists r s' zs,
      WaitResponse_while fuel maxWaitTime 0 timer s = Ret r s'
      /\ Forall (fun p : Z * Z => to_uchar (snd p) = 0) zs
      /\ ((r = 0 /\ rx s = zs ++ rx s'
           /\ clock s' = clock s + (maxWaitTime - timer))
          \/ (r <> 0
              /\ exists t b,
                  rx s = zs ++ (t, b) :: rx s'
                  /\ r = to_uchar b
                  /\ t <= clock s' < clock s + (maxWaitTime - timer))).
Proof.
  induction fuel as [|fuel IH]; intros maxWaitTime timer s Hmax Htimer Hfuel.
  - assert (timer = maxWaitTime) by lia. subst timer.
    exists 0, s, []. simpl. rewrite Z.ltb_irrefl.
    replace (maxWaitTime =? 0) with false by lia.
    split; [reflexivity|]. split; [constructor|]. left.
    split; [reflexivity|]. split; [reflexivity | lia].
  - cbn [WaitResponse_while]. cbn [Z.eqb andb].
    destruct ((timer <? maxWaitTime) || (maxWaitTime =? 0)) eqn:Hcond.
    2:{ exists 0, s, []. split; [reflexivity|]. split; [constructor|]. left.
        split; [reflexivity|]. split; [reflexivity | lia]. }
    assert (Hlt : timer < maxWaitTime) by lia.
    unfold bind at 1. unfold Serial.available.
    destruct (Serial.arrived s) eqn:Harr.
    + destruct (arrived_inv s Harr) as (t & b & rest & Hrx & Ht).
      unfold bind at 1. unfold Serial.read. simpl rx. rewrite Hrx.
      simpl clock. rewrite Ht.
      set (s1 := record (EvRead b) (set_rx rest (record (EvAvail true) s))).
      assert (Hhere : (t, b) :: rest = [] ++ (t, b) :: rx s1
                      /\ to_uchar b = to_uchar b
                      /\ t <= clock s1 < clock s + (maxWaitTime - timer)).
      { subst s1. simpl. split; [reflexivity|].
        split; [reflexivity|]. apply Z.leb_le in Ht. lia. }
      destruct ((to_uchar b =? ACK) || (to_uchar b =? NAK)) eqn:Hans.
      * exists (to_uchar b), s1, []. split; [reflexivity|]. split; [constructor|].
        right. split; [unfold ACK, NAK in Hans; lia|]. exists t, b. exact Hhere.
      * destruct (Z.eq_dec (to_uchar b) 0) as [Hz | Hnz].
        -- rewrite Hz.
           destruct (IH maxWaitTime timer s1 Hmax Htimer)
             as (r & s' & zs & Hrun & Hzs & Hres).
           { subst s1. simpl. rewrite Hrx in Hfuel. simpl in Hfuel. lia. }
           exists r, s', ((t, b) :: zs). split; [exact Hrun|].
           split; [constructor; [exact Hz | exact Hzs]|].
           replace (rx s1) with rest in Hres by reflexivity.
           replace (clock s1) with (clock s) in Hres by reflexivity.
           destruct Hres as [(Hr & Heq & Hck) | (Hr & t' & b' & Heq & Hrb & Hck)].
           ++ left. split; [exact Hr|]. split; [rewrite Heq; reflexivity | exact Hck].
           ++ right. split; [exact Hr|]. exists t', b'.
              split; [rewrite Heq; reflexivity|]. split; [exact Hrb | exact Hck].
        -- rewrite WaitResponse_while_stops by exact Hnz.
           exists (to_uchar b), s1, []. split; [reflexivity|].
           split; [constructor|]. right. split; [exact Hnz|].
           exists t, b. exact Hhere.
    + unfold bind at 1. unfold delay.
      set (s1 := record (EvDelay 1)
                   (set_clock (clock (record (EvAvail false) s) + 1)
                      (record (EvAvail false) s))).
      replace (to_ulong (timer + 1)) with (timer + 1)
        by (unfold to_ulong; rewrite Z.mod_small; lia).
      destruct (IH maxWaitTime (timer + 1) s1 Hmax)
        as (r & s' & zs & Hrun & Hzs & Hres); [lia | subst s1; simpl; lia |].
      exists r, s', zs. split; [exact Hrun|]. split; [exact Hzs|].
      replace (rx s1) with (rx s) in Hres by reflexivity.
      replace (clock s1) with (clock s + 1) in Hres by reflexivity.
      destruct Hres as [(Hr & Heq & Hck) | (Hr & t' & b' & Heq & Hrb & Hck)].
      * left. split; [exact Hr|]. split; [exact Heq | lia].
      * right. split; [exact Hr|]. exists t', b'.
        split; [exact Heq|]. split; [exact Hrb | lia].
Qed.

(** X2. What WaitResponse reads and what it answers, for a positive
    [maxWaitTime].  The call answers 0 only when the whole poll window has
    gone by, after exactly [minWaitTime + maxWaitTime] milliseconds of delay.
    Otherwise it answers the first byte on the link that is not 0x00, read
    before the window closed.  Either way the only other bytes it takes from
    the receive buffer are the 0x00 bytes in front: nothing behind the byte
    it answers is read. *)
Theorem WaitResponse_reads_zeros_then_answers fuel minWaitTime maxWaitTime s :
  0 <= minWaitTime ->
  0 < maxWaitTime < 2 ^ 32 ->
  (Z.to_nat maxWaitTime + length (rx s) <= fuel)%nat ->
  exists r s' zs,
    WaitResponse fuel minWaitTime maxWaitTime s = Ret r s'
    /\ Forall (fun p : Z * Z => to_uchar (snd p) = 0) zs
    /\ ((r = 0 /\ rx s = zs ++ rx s'
         /\ clock s' = clock s + minWaitTime + maxWaitTime)
        \/ (r <> 0
            /\ exists t b,
                rx s = zs ++ (t, b) :: rx s'
                /\ r = to_uchar b
                /\ t <= clock s' < clock s + minWaitTime + maxWaitTime)).
Proof.
  intros Hmin Hmax Hfuel. rewrite WaitResponse_unfold.
  destruct (WaitResponse_while_reads fuel maxWaitTime 0 (delayed minWaitTime s) Hmax)
    as (r & s' & zs & Hrun & Hzs & Hres); [lia | rewrite rx_delayed; lia |].
  exists r, s', zs. split; [exact Hrun|]. split; [exact Hzs|].
  rewrite rx_delayed, clock_delayed in Hres by exact Hmin.
  destruct Hres as [(Hr & Heq & Hck) | (Hr & t & b & Heq & Hrb & Hck)].
  - left. split; [exact Hr|]. split; [exact Heq | lia].
  - right. split; [exact Hr|]. exists t, b.
    split; [exact Heq|]. split; [exact Hrb | lia].
Qed.

Lemma WaitResponse_reads_zeros_then_answers_witness :
  exists r s' zs,
    WaitResponse 504 100 500
      (power_on [(0, 0x00); (110, 0x00); (120, NAK); (130, ACK)]) = Ret r s'
    /\ Forall (fun p : Z * Z => to_uchar (snd p) = 0) zs
    /\ ((r = 0
         /\ [(0, 0x00); (110, 0x00); (120, NAK); (130, ACK)] = zs ++ rx s'
         /\ clock s' = 0 + 100 + 500)
        \/ (r <> 0
            /\ exists t b,
                [(0, 0x00); (110, 0x00); (120, NAK); (130, ACK)]
                = zs ++ (t, b) :: rx s'
                /\ r = to_uchar b
                /\ t <= clock s' < 0 + 100 + 500)).
Proof.
  apply (WaitResponse_reads_zeros_then_answers 504 100 500
           (power_on [(0, 0x00); (110, 0x00); (120, NAK); (130, ACK)]));
    [lia | lia | simpl; lia].
Defined.

(** ** CheckSum: what it detects and what it does not *)

Lemma sum_bytes_insert (l : list byte) :
  forall i old v,
    l !! i = Some old -> sum_bytes (<[i := v]> l) = sum_bytes l - old + v.
Proof.
  induction l as [|a l IH]; intros i old v Hi; [discriminate Hi|].
  destruct i as [|i]; simpl in *.
  - injection Hi as ->. lia.
  - rewrite (IH i old v Hi). lia.
Qed.

Lemma sum_bytes_Permutation (l1 l2 : list byte) :
  l1 ≡ₚ l2 -> sum_bytes l1 = sum_bytes l2.
Proof.
  induction 1 as [|x l l' _ IH|x y l|l l' l'' _ IH1 _ IH2]; simpl; lia.
Qed.

(** X3. Changing one byte inside the summed range changes the checksum
    by the difference of the two bytes, modulo 256; so the checksum differs
    from the old one exactly when the new byte differs from the old one as an
    8-bit value.  A single altered byte never goes unnoticed. *)
Theorem CheckSum_single_byte_change (data : list byte) (count : Z) i old v c :
  0 <= count <= Z.of_nat (length data) ->
  (Z.of_nat i < count) ->
  data !! i = Some old ->
  CheckSum data count = Some c ->
  CheckSum (<[i := v]> data) count = Some ((c - old + v) mod 256)
  /\ (to_uchar v <> to_uchar old ->
      CheckSum (<[i := v]> data) count <> CheckSum data count)
  /\ (to_uchar v = to_uchar old ->
      CheckSum (<[i := v]> data) count = CheckSum data count).
Proof.
  intros Hcount Hi Hold Hc.
  rewrite CheckSum_defined in Hc by exact Hcount.
  rewrite CheckSum_defined by (rewrite length_insert; exact Hcount).
  rewrite CheckSum_defined by exact Hcount.
  injection Hc as <-.
  rewrite take_insert_lt by lia.
  rewrite (sum_bytes_insert _ i old v)
    by (rewrite lookup_take_lt by lia; exact Hold).
  set (S := sum_bytes (take (Z.to_nat count) data)).
  unfold to_uchar.
  split; [f_equal; rewrite <- Zplus_mod_idemp_l, <- Zminus_mod_idemp_l,
          Zplus_mod_idemp_l; reflexivity|].
  split.
  - intros Hne Heq. injection Heq as Heq. apply Hne.
    revert Heq. generalize S. intros S0 Heq.
    Z.div_mod_to_equations. lia.
  - intros Heq. f_equal. generalize S. intros S0.
    Z.div_mod_to_equations. lia.
Qed.

Lemma CheckSum_single_byte_change_witness :
  CheckSum (<[1%nat := 0x11]> ClearTemperature_XXX) 14 = Some ((0x26 - 0x10 + 0x11) mod 256)
  /\ (to_uchar 0x11 <> to_uchar 0x10 ->
      CheckSum (<[1%nat := 0x11]> ClearTemperature_XXX) 14
      <> CheckSum ClearTemperature_XXX 14)
  /\ (to_uchar 0x11 = to_uchar 0x10 ->
      CheckSum (<[1%nat := 0x11]> ClearTemperature_XXX) 14
      = CheckSum ClearTemperature_XXX 14).
Proof.
  apply (CheckSum_single_byte_change ClearTemperature_XXX 14 1 0x10 0x11 0x26);
    [simpl; lia | lia | reflexivity | reflexivity].
Defined.

(** X4. The checksum is blind to the order of the bytes: two arrays whose
    first [count] bytes are the same bytes in another order have the same
    checksum.  Swapped bytes are not detected. *)
Theorem CheckSum_order_blind (data data' : list byte) (count : Z) :
  0 <= count <= Z.of_nat (length data) ->
  take (Z.to_nat count) data' ≡ₚ take (Z.to_nat count) data ->
  CheckSum data' count = CheckSum data count.
Proof.
  intros Hcount Hperm.
  assert (Hlen : (Z.to_nat count <= length data')%nat).
  { apply Permutation_length in Hperm. rewrite !length_take in Hperm. lia. }
  rewrite !CheckSum_defined by lia.
  rewrite (sum_bytes_Permutation _ _ Hperm). reflexivity.
Qed.

Lemma CheckSum_order_blind_witness :
  CheckSum [0x04; 0x02; 0x10; 0x01; 0xFF] 4 = CheckSum [0x01; 0x10; 0x02; 0x04; 0x00] 4.
Proof.
  apply (CheckSum_order_blind [0x01; 0x10; 0x02; 0x04; 0x00]
           [0x04; 0x02; 0x10; 0x01; 0xFF] 4); [simpl; lia|].
  exact (Permutation_sym (Permutation_rev [0x01; 0x10; 0x02; 0x04])).
Defined.

(** ** WriteCommand, ClearResponse and setup *)

(** X5. WriteCommand puts the first [count] bytes of its array on the
    link, in order, and does nothing else: no time passes, nothing is read,
    the static arrays are untouched.  With a count of zero or less it writes
    nothing. *)
Theorem WriteCommand_writes_first_count (data : list byte) (count : Z) s :
  count <= Z.of_nat (length data) ->
  exists s',
    WriteCommand data count s = Ret tt s'
    /\ log s' = log s ++ map EvWrite (take (Z.to_nat count) data)
    /\ wire (log s') = wire (log s) ++ take (Z.to_nat count) data
    /\ clock s' = clock s
    /\ rx s' = rx s
    /\ (forall x, static_get x s' = static_get x s)
    /\ (count <= 0 -> s' = s).
Proof.
  intros Hcount.
  exists (sent (take (Z.to_nat count) data) s).
  split.
  { unfold WriteCommand. rewrite WriteCommand_from_run by lia.
    rewrite drop_0. reflexivity. }
  split; [reflexivity|].
  split; [simpl; rewrite wire_app, wire_writes; reflexivity|].
  split; [reflexivity|]. split; [reflexivity|].
  split; [intros x; apply static_get_sent|].
  intros Hneg. replace (Z.to_nat count) with O by lia.
  rewrite take_0. apply sent_nil.
Qed.

Lemma WriteCommand_writes_first_count_witness :
  exists s',
    WriteCommand UpdateScreen_XXX 3 (power_on [(5, ACK)]) = Ret tt s'
    /\ wire (log s') = [0x01; 0x14; 0x02]
    /\ clock s' = 0
    /\ rx s' = [(5, ACK)].
Proof.
  destruct (WriteCommand_writes_first_count UpdateScreen_XXX 3 (power_on [(5, ACK)]))
    as (s' & Hrun & _ & Hw & Hck & Hrx & _); [simpl; lia|].
  exists s'. split; [exact Hrun|]. split; [exact Hw|].
  split; [exact Hck | exact Hrx].
Defined.

(** The loop of ClearResponse: it reads every byte that has arrived, in
    order, and stops at the first one that has not. *)
Lemma ClearResponse_reads :
  forall fuel s,
    (length (rx s) <= fuel)%nat ->
    exists s' read,
      ClearResponse fuel s = Ret tt s'
      /\ rx s = read ++ rx s'
      /\ Forall (fun p : Z * Z => fst p <= clock s) read
      /\ Serial.arrived s' = false
      /\ clock s' = clock s
      /\ wire (log s') = wire (log s)
      /\ (forall x, static_get x s' = static_get x s).
Proof.
  induction fuel as [|fuel IH]; intros s Hfuel.
  - destruct (rx s) as [|p rest] eqn:Hrx; [|simpl in Hfuel; lia].
    assert (Harr : Serial.arrived s = false)
      by (unfold Serial.arrived; rewrite Hrx; reflexivity).
    exists (record (EvAvail false) s), [].
    cbn [ClearResponse]. unfold bind, Serial.available. rewrite Harr.
    split; [reflexivity|]. split; [simpl; rewrite Hrx; reflexivity|].
    split; [constructor|].
    split; [unfold Serial.arrived; simpl; rewrite Hrx; reflexivity|].
    split; [reflexivity|].
    split; [simpl; rewrite wire_app, app_nil_r; reflexivity|].
    intros []; reflexivity.
  - cbn [ClearResponse]. unfold bind at 1. unfold Serial.available.
    destruct (Serial.arrived s) eqn:Harr.
    + destruct (arrived_inv s Harr) as (t & b & rest & Hrx & Ht).
      unfold bind at 1. unfold Serial.read. simpl rx. rewrite Hrx.
      simpl clock. rewrite Ht.
      destruct (IH (record (EvRead b) (set_rx rest (record (EvAvail true) s))))
        as (s' & read & Hrun & Heq & Hread & Hnone & Hck & Hw & Hx).
      { simpl. rewrite Hrx in Hfuel. simpl in Hfuel. lia. }
      exists s', ((t, b) :: read). split; [exact Hrun|].
      simpl in Heq, Hread, Hck, Hw.
      split; [rewrite Heq; reflexivity|].
      split; [constructor; [simpl; apply Z.leb_le; exact Ht | exact Hread]|].
      split; [exact Hnone|]. split; [exact Hck|].
      split; [rewrite Hw, !wire_app; simpl; rewrite !app_nil_r; reflexivity|].
      intros x. rewrite Hx. destruct x; reflexivity.
    + exists (record (EvAvail false) s), [].
      split; [reflexivity|]. split; [reflexivity|]. split; [constructor|].
      split; [exact Harr|]. split; [reflexivity|].
      split; [simpl; rewrite wire_app, app_nil_r; reflexivity|].
      intros []; reflexivity.
Qed.

(** In a stream whose arrival times do not go backwards, once the first byte
    has not arrived by [T], none has. *)
Lemma in_order_suffix_late (read late : list (Z * byte)) T :
  in_order (read ++ late) ->
  match late with [] => True | (t, _) :: _ => T < t end ->
  Forall (fun p : Z * Z => T < fst p) late.
Proof.
  intros Hord Hhead. apply Forall_lookup_2. intros j q Hq.
  destruct late as [|[t b] late']; [discriminate Hq|].
  assert (H0 : (read ++ (t, b) :: late') !! (length read + 0)%nat = Some (t, b))
    by (rewrite lookup_app_r by lia; replace (length read + 0 - length read)%nat
          with O by lia; reflexivity).
  assert (Hj : (read ++ (t, b) :: late') !! (length read + j)%nat = Some q)
    by (rewrite lookup_app_r by lia; replace (length read + j - length read)%nat
          with j by lia; exact Hq).
  assert (Hij : (length read + 0 <= length read + j)%nat) by lia.
  pose proof (Hord _ _ _ _ Hij H0 Hj) as Hle. simpl in Hle. lia.
Qed.

(** X6. ClearResponse empties the receive buffer of what has arrived:
    it reads, in order, every byte whose arrival time has passed, leaves the
    later ones on the link, and then the buffer is empty.  It takes no time
    and sends nothing. *)
Theorem ClearResponse_discards_arrived fuel s :
  in_order (rx s) ->
  (length (rx s) <= fuel)%nat ->
  exists s' read,
    ClearResponse fuel s = Ret tt s'
    /\ rx s = read ++ rx s'
    /\ Forall (fun p : Z * Z => fst p <= clock s) read
    /\ Forall (fun p : Z * Z => clock s < fst p) (rx s')
    /\ Serial.arrived s' = false
    /\ clock s' = clock s
    /\ wire (log s') = wire (log s).
Proof.
  intros Hord Hfuel.
  destruct (ClearResponse_reads fuel s Hfuel)
    as (s' & read & Hrun & Heq & Hread & Hnone & Hck & Hw & _).
  exists s', read. split; [exact Hrun|]. split; [exact Heq|].
  split; [exact Hread|].
  split; [|split; [exact Hnone | split; [exact Hck | exact Hw]]].
  apply (in_order_suffix_late read); [rewrite <- Heq; exact Hord|].
  unfold Serial.arrived in Hnone. rewrite Hck in Hnone.
  destruct (rx s') as [|[t b] late]; [exact I | lia].
Qed.

Lemma ClearResponse_discards_arrived_witness :
  exists s' read,
    ClearResponse 3 (set_clock 50 (power_on [(10, 0x41); (20, ACK); (70, NAK)]))
    = Ret tt s'
    /\ [(10, 0x41); (20, ACK); (70, NAK)] = read ++ rx s'
    /\ Forall (fun p : Z * Z => fst p <= 50) read
    /\ Forall (fun p : Z * Z => 50 < fst p) (rx s').
Proof.
  destruct (ClearResponse_discards_arrived 3
              (set_clock 50 (power_on [(10, 0x41); (20, ACK); (70, NAK)])))
    as (s' & read & Hrun & Heq & Hread & Hlate & _).
  - intros i j p q Hij Hp Hq. simpl in Hp, Hq.
    destruct i as [|[|[|i]]]; destruct j as [|[|[|j]]];
      simpl in Hp, Hq; try discriminate; try lia;
      injection Hp as <-; injection Hq as <-; simpl; lia.
  - simpl; lia.
  - exists s', read. split; [exact Hrun|]. split; [exact Heq|].
    split; [exact Hread | exact Hlate].
Defined.



(** ** One turn of loop: what is sent and how long it takes *)

(** Whatever digits and checksum an array held before, patching it gives
    what patching its initialiser gives. *)
Lemma temperature_patch_from_init init XXX d10 d :
  length init = 33%nat ->
  temperature_cells init XXX ->
  temperature_patch XXX d10 d = temperature_patch init d10 d.
Proof.
  intros Hinit Hc.
  pose proof (temperature_cells_length _ _ Hc) as Hlen. rewrite Hinit in Hlen.
  destruct (temperature_patch_unfold XXX d10 d Hlen) as (_ & _ & _ & ->).
  destruct (temperature_patch_unfold init d10 d Hinit) as (_ & _ & _ & ->).
  destruct Hc as (a & b & c & e & ->).
  generalize (to_uchar (Z.rem (Z.quot d 10) 10 + chr "0")) as tens.
  generalize (to_uchar (Z.rem d 10 + chr "0")) as ones.
  generalize (to_uchar (Z.rem d10 10 + chr "0")) as tenths.
  generalize (to_uchar (chr " ")) as blank.
  intros blank tenths ones tens.
  do 33 (destruct init as [|? init]; [discriminate Hinit|]).
  destruct init; [|discriminate Hinit].
  destruct (tens =? chr "0"); reflexivity.
Qed.

Lemma humidity_patch_from_init init XXX h :
  length init = 30%nat ->
  humidity_cells init XXX ->
  humidity_patch XXX h = humidity_patch init h.
Proof.
  intros Hinit Hc.
  pose proof (humidity_cells_length _ _ Hc) as Hlen. rewrite Hinit in Hlen.
  destruct (humidity_patch_unfold XXX h Hlen) as (_ & _ & _ & ->).
  destruct (humidity_patch_unfold init h Hinit) as (_ & _ & _ & ->).
  destruct Hc as (a & b & e & ->).
  generalize (to_uchar (Z.rem (Z.quot h 10) 10 + chr "0")) as tens.
  generalize (to_uchar (Z.rem h 10 + chr "0")) as ones.
  generalize (to_uchar (chr " ")) as blank.
  intros blank ones tens.
  do 30 (destruct init as [|? init]; [discriminate Hinit|]).
  destruct init; [|discriminate Hinit].
  destruct (tens =? chr "0"); reflexivity.
Qed.

(** X8. The bytes a turn of [loop] sends are fixed by the two readings
    alone.  From any two boards the sketch can be in, whatever was displayed
    before and whatever the device sends back (ACK, NAK, noise or nothing),
    the same 115 bytes go out.  The sketch never looks at the answers. *)
Theorem loop_sends_depend_only_on_readings fuel hum deg s1 s2 d10 d h :
  well_formed s1 ->
  well_formed s2 ->
  int_of_float (float_mul deg (float_of_int 10)) = Some d10 ->
  int_of_float deg = Some d ->
  int_of_float hum = Some h ->
  enough fuel s1 ->
  enough fuel s2 ->
  exists frames s1' s2',
    loop fuel hum deg s1 = Ret tt s1'
    /\ loop fuel hum deg s2 = Ret tt s2'
    /\ wire (log s1') = wire (log s1) ++ frames
    /\ wire (log s2') = wire (log s2) ++ frames
    /\ length frames = 115%nat.
Proof.
  intros Hwf1 Hwf2 Hd10 Hd Hh Hf1 Hf2.
  destruct (loop_effect fuel hum deg s1 d10 d h Hwf1 Hd10 Hd Hh Hf1)
    as (s1' & Hrun1 & Hw1 & _).
  destruct (loop_effect fuel hum deg s2 d10 d h Hwf2 Hd10 Hd Hh Hf2)
    as (s2' & Hrun2 & Hw2 & _).
  destruct Hwf1 as (_ & HT1 & _ & HH1). destruct Hwf2 as (_ & HT2 & _ & HH2).
  rewrite (temperature_patch_from_init UpdateTemperature_XXX _ d10 d eq_refl HT1),
    (humidity_patch_from_init UpdateHumidity_XXX _ h eq_refl HH1) in Hw1.
  rewrite (temperature_patch_from_init UpdateTemperature_XXX _ d10 d eq_refl HT2),
    (humidity_patch_from_init UpdateHumidity_XXX _ h eq_refl HH2) in Hw2.
  eexists _, s1', s2'.
  split; [exact Hrun1|]. split; [exact Hrun2|].
  split; [exact Hw1|]. split; [exact Hw2|].
  rewrite !length_app.
  rewrite (temperature_patch_length UpdateTemperature_XXX d10 d eq_refl).
  rewrite (humidity_patch_length UpdateHumidity_XXX h eq_refl).
  reflexivity.
Qed.

Lemma loop_sends_depend_only_on_readings_witness :
  exists frames s1' s2',
    loop 505 (float_of_ratio 450 10) (float_of_ratio 185 10) (power_on [])
    = Ret tt s1'
    /\ loop 505 (float_of_ratio 450 10) (float_of_ratio 185 10)
         (power_on [(2050, NAK); (2060, 0x41); (2900, 0x00); (3000, ACK)])
       = Ret tt s2'
    /\ wire (log s1') = frames
    /\ wire (log s2') = frames
    /\ length frames = 115%nat.
Proof.
  apply (loop_sends_depend_only_on_readings 505 (float_of_ratio 450 10)
           (float_of_ratio 185 10) (power_on [])
           (power_on [(2050, NAK); (2060, 0x41); (2900, 0x00); (3000, ACK)])
           185 18 45).
  - apply well_formed_power_on.
  - apply well_formed_power_on.
  - vm_compute; reflexivity.
  - vm_compute; reflexivity.
  - vm_compute; reflexivity.
  - unfold enough; simpl; lia.
  - unfold enough; simpl; lia.
Defined.

(** A wait of the sketch on a link that stays empty, and on a link where the
    answer is there by the end of the pre-delay. *)
Lemma wait_quiet fuel s0 r s1 :
  WaitResponse fuel 100 500 s0 = Ret r s1 ->
  rx s0 = [] ->
  (500 <= fuel)%nat ->
  r = 0 /\ clock s1 = clock s0 + 600 /\ rx s1 = [].
Proof.
  intros Hrun Hrx Hfuel. rewrite WaitResponse_unfold in Hrun.
  rewrite (WaitResponse_while_quiet 500 fuel 500 0 (delayed 100 s0)) in Hrun;
    [| lia | lia | reflexivity | exact Hfuel
     | unfold quiet_until; rewrite rx_delayed, Hrx; exact I].
  injection Hrun as <- <-.
  split; [reflexivity|]. split; [simpl; lia | simpl; exact Hrx].
Qed.

Lemma wait_answered fuel s0 r s1 t b rest :
  WaitResponse fuel 100 500 s0 = Ret r s1 ->
  rx s0 = (t, b) :: rest ->
  answer b ->
  t <= clock s0 + 100 ->
  (0 < fuel)%nat ->
  r = b /\ clock s1 = clock s0 + 100 /\ rx s1 = rest.
Proof.
  intros Hrun Hrx Hb Ht Hfuel.
  assert (Hu : to_uchar b = b) by (destruct Hb as [-> | ->]; reflexivity).
  assert (Hnz : to_uchar b <> 0) by (destruct Hb as [-> | ->]; discriminate).
  pose proof (WaitResponse_answer fuel 100 500 s0 t b rest
                ltac:(lia) ltac:(lia) Hrx Hnz) as Hans.
  cbv zeta in Hans.
  replace (Z.to_nat (t - (clock s0 + 100))) with O in Hans by lia.
  rewrite Hans in Hrun; [| right; lia | exact Hfuel].
  injection Hrun as <- <-.
  split; [exact Hu|]. split; [simpl; lia | reflexivity].
Qed.

Lemma UpdateTemperature_times fuel deg s d10 d :
  length (XXX_UpdateTemperature s) = 33%nat ->
  int_of_float (float_mul deg (float_of_int 10)) = Some d10 ->
  int_of_float deg = Some d ->
  enough fuel s ->
  exists s',
    UpdateTemperature fuel deg s = Ret tt s'
    /\ (rx s = [] -> clock s' = clock s + 1200 /\ rx s' = [])
    /\ (forall t1 b1 t2 b2 rest,
          rx s = (t1, b1) :: (t2, b2) :: rest ->
          answer b1 -> answer b2 ->
          t1 <= clock s + 100 -> t2 <= clock s + 200 ->
          clock s' = clock s + 200 /\ rx s' = rest).
Proof.
  intros Hlen Hd10 Hd Hfuel.
  destruct (UpdateTemperature_run fuel deg s d10 d Hlen Hd10 Hd Hfuel)
    as (r1 & s1 & r2 & s2 & Hw1 & Hw2 & Hrun & _).
  cbv zeta in Hw2. unfold enough in Hfuel.
  exists s2. split; [exact Hrun|]. split.
  - intros Hrx.
    destruct (wait_quiet _ _ _ _ Hw1 Hrx ltac:(lia)) as (_ & Hc1 & Hrx1).
    destruct (wait_quiet _ _ _ _ Hw2 Hrx1 ltac:(lia)) as (_ & Hc2 & Hrx2).
    simpl in Hc1, Hc2. split; [lia | exact Hrx2].
  - intros t1 b1 t2 b2 rest Hrx Hb1 Hb2 Ht1 Ht2.
    destruct (wait_answered _ _ _ _ t1 b1 _ Hw1 Hrx Hb1 Ht1 ltac:(lia))
      as (_ & Hc1 & Hrx1).
    simpl in Hc1.
    assert (Ht2' : t2 <= clock s1 + 100) by lia.
    destruct (wait_answered _ _ _ _ t2 b2 rest Hw2 Hrx1 Hb2 Ht2' ltac:(lia))
      as (_ & Hc2 & Hrx2).
    simpl in Hc2. split; [lia | exact Hrx2].
Qed.

Lemma UpdateHumidity_times fuel hum s h :
  length (XXX_UpdateHumidity s) = 30%nat ->
  int_of_float hum = Some h ->
  enough fuel s ->
  exists s',
    UpdateHumidity fuel hum s = Ret tt s'
    /\ (rx s = [] -> clock s' = clock s + 1200 /\ rx s' = [])
    /\ (forall t1 b1 t2 b2 rest,
          rx s = (t1, b1) :: (t2, b2) :: rest ->
          answer b1 -> answer b2 ->
          t1 <= clock s + 100 -> t2 <= clock s + 200 ->
          clock s' = clock s + 200 /\ rx s' = rest).
Proof.
  intros Hlen Hh Hfuel.
  destruct (UpdateHumidity_run fuel hum s h Hlen Hh Hfuel)
    as (r1 & s1 & r2 & s2 & Hw1 & Hw2 & Hrun & _).
  cbv zeta in Hw2. unfold enough in Hfuel.
  exists s2. split; [exact Hrun|]. split.
  - intros Hrx.
    destruct (wait_quiet _ _ _ _ Hw1 Hrx ltac:(lia)) as (_ & Hc1 & Hrx1).
    destruct (wait_quiet _ _ _ _ Hw2 Hrx1 ltac:(lia)) as (_ & Hc2 & Hrx2).
    simpl in Hc1, Hc2. split; [lia | exact Hrx2].
  - intros t1 b1 t2 b2 rest Hrx Hb1 Hb2 Ht1 Ht2.
    destruct (wait_answered _ _ _ _ t1 b1 _ Hw1 Hrx Hb1 Ht1 ltac:(lia))
      as (_ & Hc1 & Hrx1).
    simpl in Hc1.
    assert (Ht2' : t2 <= clock s1 + 100) by lia.
    destruct (wait_answered _ _ _ _ t2 b2 rest Hw2 Hrx1 Hb2 Ht2' ltac:(lia))
      as (_ & Hc2 & Hrx2).
    simpl in Hc2. split; [lia | exact Hrx2].
Qed.

Lemma UpdateScreen_times fuel s :
  enough fuel s ->
  exists s',
    UpdateScreen fuel s = Ret tt s'
    /\ (rx s = [] -> clock s' = clock s + 600 /\ rx s' = [])
    /\ (forall t b rest,
          rx s = (t, b) :: rest -> answer b -> t <= clock s + 100 ->
          clock s' = clock s + 100 /\ rx s' = rest).
Proof.
  intros Hfuel.
  destruct (command_run fuel UpdateScreen_XXX 20 s eq_refl Hfuel)
    as (r & s' & Hw & Hrun & _).
  unfold enough in Hfuel.
  exists s'. split; [exact Hrun|]. split.
  - intros Hrx.
    destruct (wait_quiet _ _ _ _ Hw Hrx ltac:(lia)) as (_ & Hc & Hrx').
    simpl in Hc. split; [lia | exact Hrx'].
  - intros t b rest Hrx Hb Ht.
    destruct (wait_answered _ _ _ _ t b rest Hw Hrx Hb Ht ltac:(lia))
      as (_ & Hc & Hrx').
    simpl in Hc. split; [lia | exact Hrx'].
Qed.

(** The three calls of a turn, with the board between them. *)
Lemma loop_steps fuel hum deg s d10 d h :
  well_formed s ->
  int_of_float (float_mul deg (float_of_int 10)) = Some d10 ->
  int_of_float deg = Some d ->
  int_of_float hum = Some h ->
  enough fuel s ->
  exists s0 s1 s2 s3,
    clock s0 = clock s + 2000 /\ rx s0 = rx s
    /\ UpdateTemperature fuel deg s0 = Ret tt s1
    /\ UpdateHumidity fuel hum s1 = Ret tt s2
    /\ UpdateScreen fuel s2 = Ret tt s3
    /\ loop fuel hum deg s = Ret tt s3
    /\ length (XXX_UpdateTemperature s0) = 33%nat
    /\ length (XXX_UpdateHumidity s1) = 30%nat
    /\ enough fuel s0 /\ enough fuel s1 /\ enough fuel s2.
Proof.
  intros Hwf Hd10 Hd Hh Hfuel.
  destruct (well_formed_lengths s Hwf) as (_ & HuT & _ & HuH).
  set (s0 := record (EvDelay MIN_READ_PERIOD) (set_clock (clock s + MIN_READ_PERIOD) s)).
  destruct (UpdateTemperature_effect fuel deg s0 d10 d HuT Hd10 Hd Hfuel)
    as (s1 & Hrun1 & _ & _ & _ & _ & HuH1 & Hr1 & _).
  assert (Hf1 : enough fuel s1) by (unfold enough in *; simpl in Hr1; lia).
  destruct (UpdateHumidity_effect fuel hum s1 h) as
      (s2 & Hrun2 & _ & _ & _ & _ & _ & Hr2 & _);
    [rewrite HuH1; exact HuH | exact Hh | exact Hf1 |].
  assert (Hf2 : enough fuel s2) by (unfold enough in *; lia).
  destruct (UpdateScreen_effect fuel s2 Hf2) as (s3 & Hrun3 & _).
  exists s0, s1, s2, s3.
  split; [reflexivity|]. split; [reflexivity|].
  split; [exact Hrun1|]. split; [exact Hrun2|]. split; [exact Hrun3|].
  split.
  { unfold loop. unfold bind at 1. unfold delay. fold s0. cbv zeta.
    rewrite (int_of_float_not_nan _ _ Hh), (int_of_float_not_nan _ _ Hd).
    cbn [orb].
    rewrite (bind_Ret _ _ _ _ _ Hrun1), (bind_Ret _ _ _ _ _ Hrun2).
    exact Hrun3. }
  split; [exact HuT|]. split; [rewrite HuH1; exact HuH|].
  split; [exact Hfuel|]. split; [exact Hf1 | exact Hf2].
Qed.

(** X9. How long a turn of [loop] takes, in milliseconds of delay.  With
    usable readings it is never less than 2500 and never more than 5000,
    whatever the link carries; on a link that stays silent it is exactly
    5000: the 2000 of the cadence and five waits of 600. *)
Theorem loop_turn_duration fuel hum deg s d10 d h :
  well_formed s ->
  int_of_float (float_mul deg (float_of_int 10)) = Some d10 ->
  int_of_float deg = Some d ->
  int_of_float hum = Some h ->
  enough fuel s ->
  exists s',
    loop fuel hum deg s = Ret tt s'
    /\ clock s + 2500 <= clock s' <= clock s + 5000
    /\ (rx s = [] -> clock s' = clock s + 5000 /\ rx s' = []).
Proof.
  intros Hwf Hd10 Hd Hh Hfuel.
  destruct (loop_effect fuel hum deg s d10 d h Hwf Hd10 Hd Hh Hfuel)
    as (s' & Hrun & _ & _ & _ & _ & _ & _ & Hck).
  destruct (loop_steps fuel hum deg s d10 d h Hwf Hd10 Hd Hh Hfuel)
    as (s0 & s1 & s2 & s3 & Hc0 & Hrx0 & Hr1 & Hr2 & Hr3 & Hrun' & HuT & HuH
        & Hf0 & Hf1 & Hf2).
  rewrite Hrun in Hrun'. injection Hrun' as <-.
  exists s'. split; [exact Hrun|]. split; [exact Hck|].
  intros Hrx.
  destruct (UpdateTemperature_times fuel deg s0 d10 d HuT Hd10 Hd Hf0)
    as (s1' & Hr1' & Hq1 & _).
  rewrite Hr1 in Hr1'. injection Hr1' as <-.
  destruct (Hq1 ltac:(congruence)) as (Hc1 & Hrx1).
  destruct (UpdateHumidity_times fuel hum s1 h HuH Hh Hf1) as (s2' & Hr2' & Hq2 & _).
  rewrite Hr2 in Hr2'. injection Hr2' as <-.
  destruct (Hq2 Hrx1) as (Hc2 & Hrx2).
  destruct (UpdateScreen_times fuel s2 Hf2) as (s3' & Hr3' & Hq3 & _).
  rewrite Hr3 in Hr3'. injection Hr3' as <-.
  destruct (Hq3 Hrx2) as (Hc3 & Hrx3). split; [lia | exact Hrx3].
Qed.

Lemma loop_turn_duration_witness :
  exists s',
    loop 500 (float_of_ratio 450 10) (float_of_ratio 185 10) (power_on [])
    = Ret tt s'
    /\ clock s' = 5000.
Proof.
  destruct (loop_turn_duration 500 (float_of_ratio 450 10) (float_of_ratio 185 10)
              (power_on []) 185 18 45)
    as (s' & Hrun & _ & Hsilent).
  - apply well_formed_power_on.
  - vm_compute; reflexivity.
  - vm_compute; reflexivity.
  - vm_compute; reflexivity.
  - unfold enough; simpl; lia.
  - exists s'. split; [exact Hrun|]. destruct (Hsilent eq_refl) as [Hck _]. exact Hck.
Defined.



(** ** The draw-and-show variants *)

Lemma ShowTemperature_effect fuel deg s d10 d :
  length (XXX_ShowTemperature s) = 33%nat ->
  int_of_float (float_mul deg (float_of_int 10)) = Some d10 ->
  int_of_float deg = Some d ->
  enough fuel s ->
  exists s',
    ShowTemperature fuel deg s = Ret tt s'
    /\ wire (log s') =
       wire (log s) ++ ClearTemperature_XXX
         ++ temperature_patch (XXX_ShowTemperature s) d10 d
    /\ XXX_ShowTemperature s' = temperature_patch (XXX_ShowTemperature s) d10 d
    /\ XXX_UpdateTemperature s' = XXX_UpdateTemperature s
    /\ XXX_ShowHumidity s' = XXX_ShowHumidity s
    /\ XXX_UpdateHumidity s' = XXX_UpdateHumidity s
    /\ (length (rx s') <= length (rx s))%nat
    /\ clock s + 200 <= clock s' <= clock s + 1200.
Proof.
  intros Hlen Hd10 Hd Hfuel.
  destruct (ShowTemperature_run fuel deg s d10 d Hlen Hd10 Hd Hfuel)
    as (r1 & s1 & r2 & s2 & _ & _ & Hrun & Hid1 & Hid2 & _ & Hck).
  apply idles_sent in Hid1. destruct Hid1 as (Hx1 & Hw1 & Hr1).
  apply idles_sent in Hid2. destruct Hid2 as (Hx2 & Hw2 & Hr2).
  exists s2. split; [exact Hrun|].
  split.
  { rewrite Hw2. replace (log (static_set InShowTemperature _ s1)) with (log s1)
      by reflexivity. rewrite Hw1, <- app_assoc. reflexivity. }
  split; [apply (Hx2 InShowTemperature)|].
  split; [exact (eq_trans (Hx2 InUpdateTemperature) (Hx1 InUpdateTemperature))|].
  split; [exact (eq_trans (Hx2 InShowHumidity) (Hx1 InShowHumidity))|].
  split; [exact (eq_trans (Hx2 InUpdateHumidity) (Hx1 InUpdateHumidity))|].
  split; [|exact Hck].
  replace (rx (static_set InShowTemperature _ s1)) with (rx s1) in Hr2
    by reflexivity. lia.
Qed.

Lemma ShowHumidity_effect fuel hum s h :
  length (XXX_ShowHumidity s) = 30%nat ->
  int_of_float hum = Some h ->
  enough fuel s ->
  exists s',
    ShowHumidity fuel hum s = Ret tt s'
    /\ wire (log s') =
       wire (log s) ++ ClearHumidity_XXX ++ humidity_patch (XXX_ShowHumidity s) h
    /\ XXX_ShowHumidity s' = humidity_patch (XXX_ShowHumidity s) h
    /\ XXX_ShowTemperature s' = XXX_ShowTemperature s
    /\ XXX_UpdateHumidity s' = XXX_UpdateHumidity s
    /\ XXX_UpdateTemperature s' = XXX_UpdateTemperature s
    /\ (length (rx s') <= length (rx s))%nat
    /\ clock s + 200 <= clock s' <= clock s + 1200.
Proof.
  intros Hlen Hh Hfuel.
  destruct (ShowHumidity_run fuel hum s h Hlen Hh Hfuel)
    as (r1 & s1 & r2 & s2 & _ & _ & Hrun & Hid1 & Hid2 & _ & Hck).
  apply idles_sent in Hid1. destruct Hid1 as (Hx1 & Hw1 & Hr1).
  apply idles_sent in Hid2. destruct Hid2 as (Hx2 & Hw2 & Hr2).
  exists s2. split; [exact Hrun|].
  split.
  { rewrite Hw2. replace (log (static_set InShowHumidity _ s1)) with (log s1)
      by reflexivity. rewrite Hw1, <- app_assoc. reflexivity. }
  split; [apply (Hx2 InShowHumidity)|].
  split; [exact (eq_trans (Hx2 InShowTemperature) (Hx1 InShowTemperature))|].
  split; [exact (eq_trans (Hx2 InUpdateHumidity) (Hx1 InUpdateHumidity))|].
  split; [exact (eq_trans (Hx2 InUpdateTemperature) (Hx1 InUpdateTemperature))|].
  split; [|exact Hck].
  replace (rx (static_set InShowHumidity _ s1)) with (rx s1) in Hr2
    by reflexivity. lia.
Qed.

(** The frame for the draw-and-show opcode is the backbuffer frame with
    byte 5 and the checksum changed. *)
Lemma temperature_patch_show_update d10 d :
  exists c,
    temperature_patch UpdateTemperature_XXX d10 d !! 31%nat = Some c
    /\ temperature_patch ShowTemperature_XXX d10 d
       = <[5%nat := 0x13]>
           (<[31%nat := to_uchar (c + 3)]>
              (temperature_patch UpdateTemperature_XXX d10 d)).
Proof.
  destruct (temperature_patch_unfold UpdateTemperature_XXX d10 d eq_refl)
    as (_ & _ & _ & ->).
  destruct (temperature_patch_unfold ShowTemperature_XXX d10 d eq_refl)
    as (_ & _ & _ & ->).
  generalize (to_uchar (Z.rem (Z.quot d 10) 10 + chr "0")) as tens.
  generalize (to_uchar (Z.rem d 10 + chr "0")) as ones.
  generalize (to_uchar (Z.rem d10 10 + chr "0")) as tenths.
  intros tenths ones tens. unfold to_uchar.
  destruct (tens =? chr "0"); eexists; (split; [reflexivity|]);
    cbn [list_insert insert]; rewrite Zplus_mod_idemp_l;
    unfold ShowTemperature_XXX, UpdateTemperature_XXX; simpl;
    repeat (f_equal; []); lia.
Qed.

Lemma humidity_patch_show_update h :
  exists c,
    humidity_patch UpdateHumidity_XXX h !! 28%nat = Some c
    /\ humidity_patch ShowHumidity_XXX h
       = <[5%nat := 0x13]>
           (<[28%nat := to_uchar (c + 3)]> (humidity_patch UpdateHumidity_XXX h)).
Proof.
  destruct (humidity_patch_unfold UpdateHumidity_XXX h eq_refl) as (_ & _ & _ & ->).
  destruct (humidity_patch_unfold ShowHumidity_XXX h eq_refl) as (_ & _ & _ & ->).
  generalize (to_uchar (Z.rem (Z.quot h 10) 10 + chr "0")) as tens.
  generalize (to_uchar (Z.rem h 10 + chr "0")) as ones.
  intros ones tens. unfold to_uchar.
  destruct (tens =? chr "0"); eexists; (split; [reflexivity|]);
    cbn [list_insert insert]; rewrite Zplus_mod_idemp_l;
    unfold ShowHumidity_XXX, UpdateHumidity_XXX; simpl;
    repeat (f_equal; []); lia.
Qed.

(** X11. The draw-and-show calls send what the backbuffer calls send,
    but for one opcode byte.  For the same value, ShowTemperature and
    UpdateTemperature send the same clear frame and then frames that differ
    only in byte 5 (0x13 for 0x10) and in the checksum, which is 3 higher
    modulo 256; the same holds for ShowHumidity and UpdateHumidity. *)
Theorem show_frames_differ_in_opcode_only fuel deg hum s d10 d h :
  well_formed s ->
  int_of_float (float_mul deg (float_of_int 10)) = Some d10 ->
  int_of_float deg = Some d ->
  int_of_float hum = Some h ->
  enough fuel s ->
  (exists sS sU FU c,
      ShowTemperature fuel deg s = Ret tt sS
      /\ UpdateTemperature fuel deg s = Ret tt sU
      /\ wire (log sU) = wire (log s) ++ ClearTemperature_XXX ++ FU
      /\ FU !! 5%nat = Some 0x10
      /\ FU !! 31%nat = Some c
      /\ wire (log sS) =
         wire (log s) ++ ClearTemperature_XXX
           ++ <[5%nat := 0x13]> (<[31%nat := to_uchar (c + 3)]> FU))
  /\ (exists sS sU FU c,
      ShowHumidity fuel hum s = Ret tt sS
      /\ UpdateHumidity fuel hum s = Ret tt sU
      /\ wire (log sU) = wire (log s) ++ ClearHumidity_XXX ++ FU
      /\ FU !! 5%nat = Some 0x10
      /\ FU !! 28%nat = Some c
      /\ wire (log sS) =
         wire (log s) ++ ClearHumidity_XXX
           ++ <[5%nat := 0x13]> (<[28%nat := to_uchar (c + 3)]> FU)).
Proof.
  intros Hwf Hd10 Hd Hh Hfuel.
  destruct (well_formed_lengths s Hwf) as (HsT & HuT & HsH & HuH).
  destruct Hwf as (CsT & CuT & CsH & CuH).
  split.
  - destruct (ShowTemperature_effect fuel deg s d10 d HsT Hd10 Hd Hfuel)
      as (sS & HrS & HwS & _).
    destruct (UpdateTemperature_effect fuel deg s d10 d HuT Hd10 Hd Hfuel)
      as (sU & HrU & HwU & _).
    rewrite (temperature_patch_from_init ShowTemperature_XXX _ d10 d eq_refl CsT) in HwS.
    rewrite (temperature_patch_from_init UpdateTemperature_XXX _ d10 d eq_refl CuT) in HwU.
    destruct (temperature_patch_show_update d10 d) as (c & Hc & Heq).
    rewrite Heq in HwS.
    exists sS, sU, (temperature_patch UpdateTemperature_XXX d10 d), c.
    split; [exact HrS|]. split; [exact HrU|]. split; [exact HwU|].
    split; [|split; [exact Hc | exact HwS]].
    destruct (temperature_patch_cells UpdateTemperature_XXX UpdateTemperature_XXX
                d10 d eq_refl) as (a & b & e & f & ->); [|reflexivity].
    exists (chr "0"), (chr "0"), (chr "0"), 0x98. reflexivity.
  - destruct (ShowHumidity_effect fuel hum s h HsH Hh Hfuel) as (sS & HrS & HwS & _).
    destruct (UpdateHumidity_effect fuel hum s h HuH Hh Hfuel) as (sU & HrU & HwU & _).
    rewrite (humidity_patch_from_init ShowHumidity_XXX _ h eq_refl CsH) in HwS.
    rewrite (humidity_patch_from_init UpdateHumidity_XXX _ h eq_refl CuH) in HwU.
    destruct (humidity_patch_show_update h) as (c & Hc & Heq).
    rewrite Heq in HwS.
    exists sS, sU, (humidity_patch UpdateHumidity_XXX h), c.
    split; [exact HrS|]. split; [exact HrU|]. split; [exact HwU|].
    split; [|split; [exact Hc | exact HwS]].
    destruct (humidity_patch_cells UpdateHumidity_XXX UpdateHumidity_XXX h eq_refl)
      as (a & b & e & ->); [|reflexivity].
    exists (chr "0"), (chr "0"), 0xDC. reflexivity.
Qed.

Lemma show_frames_differ_in_opcode_only_witness :
  exists sS sU FU c,
    ShowTemperature 500 (float_of_ratio 185 10) (power_on []) = Ret tt sS
    /\ UpdateTemperature 500 (float_of_ratio 185 10) (power_on []) = Ret tt sU
    /\ wire (log sU) = ClearTemperature_XXX ++ FU
    /\ FU !! 5%nat = Some 0x10
    /\ FU !! 31%nat = Some c
    /\ wire (log sS) =
       ClearTemperature_XXX ++ <[5%nat := 0x13]> (<[31%nat := to_uchar (c + 3)]> FU).
Proof.
  destruct (show_frames_differ_in_opcode_only 500 (float_of_ratio 185 10)
              (float_of_ratio 450 10) (power_on []) 185 18 45) as [HT _].
  - apply well_formed_power_on.
  - vm_compute; reflexivity.
  - vm_compute; reflexivity.
  - vm_compute; reflexivity.
  - unfold enough; simpl; lia.
  - exact HT.
Defined.

(** ** Readings the display was not laid out for *)






(** ** Turn after turn *)




(** ** The second copy of the sketch *)



Lemma Rev2_well_formed_power_on incoming : Rev2.well_formed (Rev2.power_on incoming).
Proof.
  unfold Rev2.well_formed, Rev2.power_on; simpl.
  split; [exists (chr "0"), (chr "0"), (chr "0"), 0xA0; reflexivity|].
  exists (chr "0"), (chr "0"), 0xE4; reflexivity.
Qed.

Lemma Rev2_ShowTemperature_effect fuel deg s d10 d :
  length (XXX_ShowTemperature s) = 33%nat ->
  int_of_float (float_mul deg (float_of_int 10)) = Some d10 ->
  int_of_float deg = Some d ->
  enough fuel s ->
  exists s',
    Rev2.ShowTemperature fuel deg s = Ret tt s'
    /\ wire (log s') =
       wire (log s) ++ Rev2.ClearTemperature_XXX
         ++ temperature_patch (XXX_ShowTemperature s) d10 d
    /\ XXX_ShowTemperature s' = temperature_patch (XXX_ShowTemperature s) d10 d
    /\ XXX_ShowHumidity s' = XXX_ShowHumidity s
    /\ (length (rx s') <= length (rx s))%nat
    /\ clock s + 200 <= clock s' <= clock s + 1200.
Proof.
  intros Hlen Hd10 Hd Hfuel.
  destruct (command_run fuel Rev2.ClearTemperature_XXX 16 s eq_refl Hfuel)
    as (r1 & s1 & Hw1 & Hc1 & Hid1 & Hck1).
  destruct (idles_sent _ _ _ Hid1) as (Hx1 & Hwire1 & Hrx1).
  pose proof (Hx1 InShowTemperature) as Hbuf.
  change (static_get InShowTemperature s) with (XXX_ShowTemperature s) in Hbuf.
  destruct (temperature_patch_unfold (XXX_ShowTemperature s) d10 d Hlen)
    as (H4 & Ht & Hcs & HF).
  set (F := temperature_patch (XXX_ShowTemperature s) d10 d) in *.
  assert (HlenF : length F = 33%nat).
  { rewrite HF, length_insert. exact H4. }
  destruct (command_run fuel F 33 (static_set InShowTemperature F s1))
    as (r2 & s2 & Hw2 & Hc2 & Hid2 & Hck2).
  { rewrite HlenF. reflexivity. }
  { unfold enough in *. replace (rx (static_set InShowTemperature F s1)) with (rx s1)
      by reflexivity. lia. }
  destruct (idles_sent _ _ _ Hid2) as (Hx2 & Hwire2 & Hrx2).
  exists s2.
  split.
  { unfold Rev2.ShowTemperature.
    rewrite (bind_Ret _ _ _ _ _ Hc1).
    rewrite (defined_run _ _ _ _ Hd10).
    erewrite bind_Ret; [|apply poke_first; rewrite Hbuf, Hlen; lia].
    rewrite Hbuf.
    rewrite (defined_run _ _ _ _ Hd).
    erewrite bind_Ret; [|apply poke_run; len33].
    rewrite (defined_run _ _ _ _ Hd).
    erewrite bind_Ret; [|apply poke_run; len33].
    erewrite bind_Ret; [|apply peek_run; exact Ht].
    revert H4 Hcs HF.
    destruct (to_uchar (Z.rem (Z.quot d 10) 10 + chr "0") =? chr "0");
      intros H4 Hcs HF.
    - erewrite bind_Ret; [|apply poke_run; len33].
      erewrite bind_Ret; [|apply whole_run].
      rewrite (defined_run _ _ _ _ Hcs).
      erewrite bind_Ret; [|apply poke_run; len33].
      rewrite to_uchar_mod, <- HF.
      erewrite bind_Ret; [|apply whole_run].
      exact Hc2.
    - erewrite bind_Ret; [|reflexivity].
      erewrite bind_Ret; [|apply whole_run].
      rewrite (defined_run _ _ _ _ Hcs).
      erewrite bind_Ret; [|apply poke_run; len33].
      rewrite to_uchar_mod, <- HF.
      erewrite bind_Ret; [|apply whole_run].
      exact Hc2. }
  split.
  { rewrite Hwire2. replace (log (static_set InShowTemperature F s1)) with (log s1)
      by reflexivity. rewrite Hwire1, <- app_assoc. reflexivity. }
  split; [apply (Hx2 InShowTemperature)|].
  split; [exact (eq_trans (Hx2 InShowHumidity) (Hx1 InShowHumidity))|].
  replace (rx (static_set InShowTemperature F s1)) with (rx s1) in Hrx2
    by reflexivity.
  replace (clock (static_set InShowTemperature F s1)) with (clock s1) in Hck2
    by reflexivity.
  split; lia.
Qed.

Lemma Rev2_ShowHumidity_effect fuel hum s h :
  length (XXX_ShowHumidity s) = 30%nat ->
  int_of_float hum = Some h ->
  enough fuel s ->
  exists s',
    Rev2.ShowHumidity fuel hum s = Ret tt s'
    /\ wire (log s') =
       wire (log s) ++ Rev2.ClearHumidity_XXX
         ++ humidity_patch (XXX_ShowHumidity s) h
    /\ XXX_ShowHumidity s' = humidity_patch (XXX_ShowHumidity s) h
    /\ XXX_ShowTemperature s' = XXX_ShowTemperature s
    /\ (length (rx s') <= length (rx s))%nat
    /\ clock s + 200 <= clock s' <= clock s + 1200.
Proof.
  intros Hlen Hh Hfuel.
  destruct (command_run fuel Rev2.ClearHumidity_XXX 16 s eq_refl Hfuel)
    as (r1 & s1 & Hw1 & Hc1 & Hid1 & Hck1).
  destruct (idles_sent _ _ _ Hid1) as (Hx1 & Hwire1 & Hrx1).
  pose proof (Hx1 InShowHumidity) as Hbuf.
  change (static_get InShowHumidity s) with (XXX_ShowHumidity s) in Hbuf.
  destruct (humidity_patch_unfold (XXX_ShowHumidity s) h Hlen)
    as (H3 & Ht & Hcs & HF).
  set (F := humidity_patch (XXX_ShowHumidity s) h) in *.
  assert (HlenF : length F = 30%nat).
  { rewrite HF, length_insert. exact H3. }
  destruct (command_run fuel F 30 (static_set InShowHumidity F s1))
    as (r2 & s2 & Hw2 & Hc2 & Hid2 & Hck2).
  { rewrite HlenF. reflexivity. }
  { unfold enough in *. replace (rx (static_set InShowHumidity F s1)) with (rx s1)
      by reflexivity. lia. }
  destruct (idles_sent _ _ _ Hid2) as (Hx2 & Hwire2 & Hrx2).
  exists s2.
  split.
  { unfold Rev2.ShowHumidity.
    rewrite (bind_Ret _ _ _ _ _ Hc1).
    rewrite (defined_run _ _ _ _ Hh).
    erewrite bind_Ret; [|apply poke_first; rewrite Hbuf, Hlen; lia].
    rewrite Hbuf.
    rewrite (defined_run _ _ _ _ Hh).
    erewrite bind_Ret; [|apply poke_run; len33].
    erewrite bind_Ret; [|apply peek_run; exact Ht].
    revert H3 Hcs HF.
    destruct (to_uchar (Z.rem (Z.quot h 10) 10 + chr "0") =? chr "0");
      intros H3 Hcs HF.
    - erewrite bind_Ret; [|apply poke_run; len33].
      erewrite bind_Ret; [|apply whole_run].
      rewrite (defined_run _ _ _ _ Hcs).
      erewrite bind_Ret; [|apply poke_run; len33].
      rewrite to_uchar_mod, <- HF.
      erewrite bind_Ret; [|apply whole_run].
      exact Hc2.
    - erewrite bind_Ret; [|reflexivity].
      erewrite bind_Ret; [|apply whole_run].
      rewrite (defined_run _ _ _ _ Hcs).
      erewrite bind_Ret; [|apply poke_run; len33].
      rewrite to_uchar_mod, <- HF.
      erewrite bind_Ret; [|apply whole_run].
      exact Hc2. }
  split.
  { rewrite Hwire2. replace (log (static_set InShowHumidity F s1)) with (log s1)
      by reflexivity. rewrite Hwire1, <- app_assoc. reflexivity. }
  split; [apply (Hx2 InShowHumidity)|].
  split; [exact (eq_trans (Hx2 InShowTemperature) (Hx1 InShowTemperature))|].
  replace (rx (static_set InShowHumidity F s1)) with (rx s1) in Hrx2
    by reflexivity.
  replace (clock (static_set InShowHumidity F s1)) with (clock s1) in Hck2
    by reflexivity.
  split; lia.
Qed.

(** One turn of the second [loop] with usable readings: the four frames, and
    the receive buffer emptied at the end. *)
Lemma Rev2_loop_effect fuel hum deg s d10 d h :
  Rev2.well_formed s ->
  int_of_float (float_mul deg (float_of_int 10)) = Some d10 ->
  int_of_float deg = Some d ->
  int_of_float hum = Some h ->
  enough fuel s ->
  exists s',
    Rev2.loop fuel hum deg s = Ret tt s'
    /\ wire (log s') =
       wire (log s) ++ Rev2.ClearTemperature_XXX
         ++ temperature_patch (XXX_ShowTemperature s) d10 d
         ++ Rev2.ClearHumidity_XXX
         ++ humidity_patch (XXX_ShowHumidity s) h
    /\ XXX_ShowTemperature s' = temperature_patch (XXX_ShowTemperature s) d10 d
    /\ XXX_ShowHumidity s' = humidity_patch (XXX_ShowHumidity s) h
    /\ Serial.arrived s' = false
    /\ (length (rx s') <= length (rx s))%nat
    /\ clock s + 2400 <= clock s' <= clock s + 4400.
Proof.
  intros (HcT & HcH) Hd10 Hd Hh Hfuel.
  pose proof (temperature_cells_length _ _ HcT) as HlT.
  pose proof (humidity_cells_length _ _ HcH) as HlH.
  change (length Rev2.ShowTemperature_XXX) with 33%nat in HlT.
  change (length Rev2.ShowHumidity_XXX) with 30%nat in HlH.
  unfold Rev2.loop. unfold bind at 1. unfold delay.
  set (s0 := record (EvDelay MIN_READ_PERIOD) (set_clock (clock s + MIN_READ_PERIOD) s)).
  cbv zeta.
  rewrite (int_of_float_not_nan _ _ Hh), (int_of_float_not_nan _ _ Hd).
  cbn [orb].
  destruct (Rev2_ShowTemperature_effect fuel deg s0 d10 d HlT Hd10 Hd Hfuel)
    as (s1 & Hrun1 & Hw1 & HT1 & HH1 & Hr1 & Hc1).
  destruct (Rev2_ShowHumidity_effect fuel hum s1 h)
    as (s2 & Hrun2 & Hw2 & HH2 & HT2 & Hr2 & Hc2);
    [rewrite HH1; exact HlH | exact Hh
     | unfold enough in *; simpl in Hr1; lia |].
  destruct (ClearResponse_reads fuel s2)
    as (s3 & read & Hrun3 & Heq & _ & Hnone & Hc3 & Hw3 & Hx3).
  { unfold enough in *. simpl in Hr1. lia. }
  exists s3.
  rewrite (bind_Ret _ _ _ _ _ Hrun1), (bind_Ret _ _ _ _ _ Hrun2).
  split; [exact Hrun3|].
  split.
  { rewrite Hw3, Hw2, Hw1, HH1. simpl log. rewrite wire_app. simpl wire.
    rewrite app_nil_r. rewrite <- !app_assoc. reflexivity. }
  split; [exact (eq_trans (Hx3 InShowTemperature) (eq_trans HT2 HT1))|].
  split; [exact (eq_trans (Hx3 InShowHumidity)
                   (eq_trans HH2 (f_equal (fun b => humidity_patch b h) HH1)))|].
  split; [exact Hnone|].
  assert (Hlen3 : (length (rx s3) <= length (rx s2))%nat)
    by (rewrite Heq, length_app; lia).
  simpl in Hr1, Hc1. unfold MIN_READ_PERIOD in *. split; lia.
Qed.



(** X16. The second copy of the sketch: no answer is carried over.  A turn
    of its [loop] with readings in range ends with the receive buffer empty:
    [Serial.available()] is 0 and the next byte on the link, if there is one,
    has not arrived yet.  Nothing is waiting in the receive buffer when the
    next turn starts. *)
Theorem Rev2_loop_ends_with_empty_buffer fuel hum deg s :
  Rev2.well_formed s ->
  in_range hum ->
  in_range deg ->
  enough fuel s ->
  exists s',
    Rev2.loop fuel hum deg s = Ret tt s'
    /\ Serial.arrived s' = false
    /\ quiet_until (clock s') s'
    /\ (length (rx s') <= length (rx s))%nat.
Proof.
  intros Hwf Hrh Hrt Hfuel.
  destruct (in_range_conversions deg Hrt) as (d10 & d & Hd10 & Hd & _ & _).
  destruct (in_range_conversions hum Hrh) as (_ & h & _ & Hh & _ & _).
  destruct (Rev2_loop_effect fuel hum deg s d10 d h Hwf Hd10 Hd Hh Hfuel)
    as (s' & Hrun & _ & _ & _ & Hnone & Hr & _).
  exists s'. split; [exact Hrun|]. split; [exact Hnone|].
  split; [|exact Hr].
  unfold Serial.arrived in Hnone. unfold quiet_until.
  destruct (rx s') as [|[t b] rest]; [exact I | lia].
Qed.

Lemma Rev2_loop_ends_with_empty_buffer_witness :
  exists s',
    Rev2.loop 504 (float_of_ratio 450 10) (float_of_ratio 185 10)
      (Rev2.power_on [(2050, ACK); (2060, 0x41); (2070, NAK); (9000, ACK)])
    = Ret tt s'
    /\ Serial.arrived s' = false
    /\ quiet_until (clock s') s'.
Proof.
  destruct (Rev2_loop_ends_with_empty_buffer 504 (float_of_ratio 450 10)
              (float_of_ratio 185 10)
              (Rev2.power_on [(2050, ACK); (2060, 0x41); (2070, NAK); (9000, ACK)]))
    as (s' & Hrun & Hnone & Hq & _).
  - apply Rev2_well_formed_power_on.
  - unfold in_range. split; [|split]; vm_compute; reflexivity.
  - unfold in_range. split; [|split]; vm_compute; reflexivity.
  - unfold enough; simpl; lia.
  - exists s'. split; [exact Hrun|]. split; [exact Hnone | exact Hq].
Defined.
